(** * The analytics engine's job queue: [services/message_queue.py]

    A shallow embedding of [MessageQueueService] (the Redis-backed queue
    client) and of [JobProcessor] (the consumption loops), with the
    properties of the job lifecycle proved or refuted on it.

    - Python values that travel through [json.dumps]/[json.loads] are the
      inductive [json]; a Python [dict] is an association list in insertion
      order, updated in place by [dict_set] as [d[k] = v] does.
    - Redis is an in-memory server state: lists in [LRANGE] order, expiring
      string keys, and the history of [PUBLISH]ed payloads.
    - The service methods live in a state-and-exception monad [M] over
      [World], which also carries the loguru sink, the clock read by
      [datetime.utcnow()], and the state job handlers act on. *)

From Stdlib Require Import ZArith String Ascii List.
From stdpp Require Import base option gmap strings list pretty.

Set Default Proof Using "Type".
Local Open Scope string_scope.
Local Open Scope Z_scope.

(** ** JSON-representable Python values *)

(** A float is carried by its Python [repr] (["0.85"], ["2.5"]): the
    service never computes with one, it only stores, prints and tests it. *)
#[warnings="-register-all"]
Inductive json : Type :=
| JNull                                   (* None *)
| JBool (b : bool)
| JInt (n : Z)
| JFloat (repr : string)
| JStr (s : string)
| JArr (items : list json)
| JObj (fields : list (string * json)).

(** [bool(v)]: what [if v:] tests. *)
Definition truthy (v : json) : bool :=
  match v with
  | JNull => false
  | JBool b => b
  | JInt n => negb (n =? 0)
  | JFloat r => negb (String.eqb r "0.0" || String.eqb r "-0.0")
  | JStr s => negb (String.eqb s "")
  | JArr items => match items with [] => false | _ => true end
  | JObj fields => match fields with [] => false | _ => true end
  end.

(** *** [str()] and [repr()], as f-strings apply them *)

Definition dquote : ascii := "034"%char.
Definition squote : ascii := "039"%char.
Definition backslash : ascii := "092"%char.

Fixpoint contains_char (c : ascii) (s : string) : bool :=
  match s with
  | EmptyString => false
  | String a r => Ascii.eqb a c || contains_char c r
  end.

Definition hex_digit (n : N) : ascii :=
  match String.get (N.to_nat n) "0123456789abcdef" with
  | Some c => c
  | None => "0"%char
  end.

(** One character of [repr(str)] inside quotes [q].  Bytes from 128 up are
    the UTF-8 of printable text and pass through. *)
Definition repr_char (q c : ascii) : string :=
  let n := N_of_ascii c in
  if Ascii.eqb c backslash then String backslash (String backslash "")
  else if Ascii.eqb c q then String backslash (String q "")
  else if (n =? 10)%N then String backslash "n"
  else if (n =? 13)%N then String backslash "r"
  else if (n =? 9)%N then String backslash "t"
  else if ((n <? 32) || (n =? 127))%N
       then String backslash
              (String "x" (String (hex_digit (n / 16)) (String (hex_digit (n mod 16)) "")))
  else String c "".

Fixpoint repr_chars (q : ascii) (s : string) : string :=
  match s with
  | EmptyString => ""
  | String c r => repr_char q c +:+ repr_chars q r
  end.

Definition repr_str (s : string) : string :=
  let q := if contains_char squote s && negb (contains_char dquote s)
           then dquote else squote in
  String q (repr_chars q s +:+ String q "").

Fixpoint py_repr (v : json) : string :=
  match v with
  | JNull => "None"
  | JBool true => "True"
  | JBool false => "False"
  | JInt n => pretty n
  | JFloat r => r
  | JStr s => repr_str s
  | JArr items =>
      "[" +:+ (fix elems (l : list json) : string :=
                 match l with
                 | [] => ""
                 | x :: r =>
                     match r with
                     | [] => py_repr x
                     | _ :: _ => py_repr x +:+ ", " +:+ elems r
                     end
                 end) items +:+ "]"
  | JObj fields =>
      "{" +:+ (fix pairs (l : list (string * json)) : string :=
                 match l with
                 | [] => ""
                 | (k, x) :: r =>
                     match r with
                     | [] => repr_str k +:+ ": " +:+ py_repr x
                     | _ :: _ => repr_str k +:+ ": " +:+ py_repr x +:+ ", " +:+ pairs r
                     end
                 end) fields +:+ "}"
  end.

(** [str(v)], the conversion of [f"{v}"]. *)
Definition py_str (v : json) : string :=
  match v with
  | JStr s => s
  | _ => py_repr v
  end.

(** *** Dictionaries *)

Abbreviation dict := (list (string * json)).

(** [d.get(k)] *)
Fixpoint dict_get (k : string) (d : dict) : option json :=
  match d with
  | [] => None
  | (k', v) :: r => if String.eqb k k' then Some v else dict_get k r
  end.

(** [d[k] = v]: an existing key keeps its place, a new one goes last. *)
Fixpoint dict_set (k : string) (v : json) (d : dict) : dict :=
  match d with
  | [] => [(k, v)]
  | (k', v') :: r =>
      if String.eqb k k' then (k, v) :: r else (k', v') :: dict_set k v r
  end.

(** Names of Python types, as they appear in [TypeError] and
    [AttributeError] messages. *)
Definition py_type_name (v : json) : string :=
  match v with
  | JNull => "NoneType"
  | JBool _ => "bool"
  | JInt _ => "int"
  | JFloat _ => "float"
  | JStr _ => "str"
  | JArr _ => "list"
  | JObj _ => "dict"
  end.

(** ** Exceptions and outcomes *)

Inductive exn : Type :=
| RuntimeError (msg : string)
| AttributeError (msg : string)
| TypeError (msg : string)
| JSONDecodeError (msg : string)
| HandlerError (msg : string).      (* anything a job handler raises *)

(** [str(e)] *)
Definition exn_str (e : exn) : string :=
  match e with
  | RuntimeError m | AttributeError m | TypeError m
  | JSONDecodeError m | HandlerError m => m
  end.

Inductive outcome (A : Type) : Type :=
| Returns (a : A)
| Raises (e : exn).
Arguments Returns {A} a.
Arguments Raises {A} e.

(** ** The wire format

    What Redis holds is text.  A text is carried by what [json.loads] makes
    of it: the value it decodes to, or the document together with the
    decoder's complaint.  [json.dumps] followed by [json.loads] is the
    identity on [json]. *)
Inductive wire : Type :=
| Json (j : json)
| Malformed (doc : string) (why : string).

Definition json_dumps (v : json) : wire := Json v.

Definition json_loads (t : wire) : outcome json :=
  match t with
  | Json j => Returns j
  | Malformed _ why => Raises (JSONDecodeError why)
  end.

(** [bool(text)]: only the empty text is falsy, and it is not JSON. *)
Definition wire_truthy (t : wire) : bool :=
  match t with
  | Json _ => true
  | Malformed doc _ => negb (String.eqb doc "")
  end.

(** ** Redis *)

Record Redis : Type := mkRedis {
  lists : gmap string (list wire);          (* LRANGE key 0 -1: head first *)
  strings : gmap string (wire * Z);         (* value and time to live, seconds *)
  published : list (string * wire)          (* PUBLISH history, oldest first *)
}.

Definition empty_redis : Redis := mkRedis ∅ ∅ [].

(** Split off the last element of a list. *)
Fixpoint unsnoc {A : Type} (l : list A) : option (list A * A) :=
  match l with
  | [] => None
  | x :: r =>
      match unsnoc r with
      | None => Some ([], x)
      | Some (init, z) => Some (x :: init, z)
      end
  end.

(** LPUSH: insert at the head of the list; answers the new length. *)
Definition lpush (key : string) (v : wire) (r : Redis) : Z * Redis :=
  let l := v :: default [] (lists r !! key) in
  (Z.of_nat (length l), mkRedis (<[key := l]> (lists r)) (strings r) (published r)).

(** PUBLISH: answers the number of subscribers reached (none are modelled). *)
Definition publish (channel : string) (v : wire) (r : Redis) : Z * Redis :=
  (0, mkRedis (lists r) (strings r) (published r ++ [(channel, v)])).

(** BRPOP: pop from the tail of the list; [None] once the timeout has run
    out on an empty list.  A list that becomes empty is deleted. *)
Definition brpop (key : string) (timeout : Z) (r : Redis)
  : option (string * wire) * Redis :=
  match lists r !! key with
  | None => (None, r)
  | Some l =>
      match unsnoc l with
      | None => (None, r)
      | Some (init, v) =>
          (Some (key, v),
           mkRedis (match init with
                    | [] => delete key (lists r)
                    | _ :: _ => <[key := init]> (lists r)
                    end) (strings r) (published r))
      end
  end.

(** GET *)
Definition get (key : string) (r : Redis) : option wire * Redis :=
  (fst <$> strings r !! key, r).

(** SETEX *)
Definition setex (key : string) (ttl : Z) (v : wire) (r : Redis) : bool * Redis :=
  (true, mkRedis (lists r) (<[key := (v, ttl)]> (strings r)) (published r)).

(** [timedelta(hours=24)], in seconds. *)
Definition hours_24 : Z := 24 * 3600.

(** ** The world of the service *)

Inductive level : Type := INFO | ERROR.

Section Service.

(** What job handlers act on (datasets, models, ...): opaque here. *)
Context {E : Type}.

Record World : Type := mkWorld {
  redis_client : option Redis;     (* self.redis_client; None before connect() *)
  running : bool;                  (* JobProcessor.running *)
  log : list (level * string);     (* loguru sink, oldest first *)
  utcnow : nat -> string;          (* n-th reading of datetime.utcnow().isoformat() *)
  clock_reads : nat;               (* readings taken so far *)
  slept : Z;                       (* seconds spent in asyncio.sleep *)
  ext : E
}.

Definition M (A : Type) : Type := World -> outcome A * World.

Definition ret {A} (a : A) : M A := fun w => (Returns a, w).

Definition raise {A} (e : exn) : M A := fun w => (Raises e, w).

Definition bind {A B} (m : M A) (k : A -> M B) : M B :=
  fun w =>
    match m w with
    | (Returns a, w') => k a w'
    | (Raises e, w') => (Raises e, w')
    end.

(** [try: body  except Exception as e: handler e] *)
Definition try_except {A} (body : M A) (handler : exn -> M A) : M A :=
  fun w =>
    match body w with
    | (Returns a, w') => (Returns a, w')
    | (Raises e, w') => handler e w'
    end.

Definition lift {A} (o : outcome A) : M A := fun w => (o, w).

End Service.

Arguments World : clear implicits.
Arguments M : clear implicits.

Notation "x <~ m ;; k" := (bind m (fun x => k))
  (at level 100, m at next level, right associativity).
Notation "m ;;; k" := (bind m (fun _ => k))
  (at level 100, right associativity).

Section Effects.

Context {E : Type}.

Definition with_client (c : option Redis) (w : World E) : World E :=
  mkWorld c (running w) (log w) (utcnow w) (clock_reads w) (slept w) (ext w).

Definition with_running (b : bool) (w : World E) : World E :=
  mkWorld (redis_client w) b (log w) (utcnow w) (clock_reads w) (slept w) (ext w).

(** [logger.info(msg)], [logger.error(msg)] *)
Definition logger (lvl : level) (msg : string) : M E unit :=
  fun w =>
    (Returns tt,
     mkWorld (redis_client w) (running w) (log w ++ [(lvl, msg)])
             (utcnow w) (clock_reads w) (slept w) (ext w)).

(** [datetime.utcnow().isoformat()] *)
Definition utcnow_isoformat : M E string :=
  fun w =>
    (Returns (utcnow w (clock_reads w)),
     mkWorld (redis_client w) (running w) (log w)
             (utcnow w) (S (clock_reads w)) (slept w) (ext w)).

(** [await asyncio.sleep(seconds)] *)
Definition sleep (seconds : Z) : M E unit :=
  fun w =>
    (Returns tt,
     mkWorld (redis_client w) (running w) (log w)
             (utcnow w) (clock_reads w) (slept w + seconds) (ext w)).

(** [if not self.redis_client: raise RuntimeError(...)] *)
Definition require_client : M E unit :=
  fun w =>
    match redis_client w with
    | Some _ => (Returns tt, w)
    | None => (Raises (RuntimeError "Redis client not connected"), w)
    end.

(** [await self.redis_client.<name>(...)] *)
Definition redis_call {A} (name : string) (op : Redis -> A * Redis) : M E A :=
  fun w =>
    match redis_client w with
    | Some r => let '(a, r') := op r in (Returns a, with_client (Some r') w)
    | None =>
        (Raises (AttributeError
                   ("'NoneType' object has no attribute '" +:+ name +:+ "'")), w)
    end.

(** [target[k] = v] *)
Definition setitem (k : string) (v : json) (target : json) : outcome json :=
  match target with
  | JObj d => Returns (JObj (dict_set k v d))
  | JArr _ => Raises (TypeError "list indices must be integers or slices, not str")
  | other =>
      Raises (TypeError ("'" +:+ py_type_name other
                         +:+ "' object does not support item assignment"))
  end.

(** [message.get(k)] *)
Definition getitem_or_none (k : string) (target : json) : outcome json :=
  match target with
  | JObj d => Returns (default JNull (dict_get k d))
  | other =>
      Raises (AttributeError ("'" +:+ py_type_name other
                              +:+ "' object has no attribute 'get'"))
  end.

(** [status in ["completed", "failed"]] *)
Definition is_terminal (status : string) : bool :=
  String.eqb status "completed" || String.eqb status "failed".

(** ** MessageQueueService *)

Definition publish_message (queue_name : string) (message : json) : M E unit :=
  require_client ;;;
  try_except
    (let message_json := json_dumps message in
     _ <~ redis_call "lpush" (lpush queue_name message_json) ;;
     _ <~ redis_call "publish" (publish (queue_name +:+ ":notification") message_json) ;;
     logger INFO ("Message published to queue " +:+ queue_name))
    (fun e =>
       logger ERROR ("Error publishing message to queue " +:+ queue_name
                     +:+ ": " +:+ exn_str e) ;;;
       raise e).

Definition consume_message (queue_name : string) (timeout : Z)
  : M E (option json) :=
  require_client ;;;
  try_except
    (result <~ redis_call "brpop" (brpop queue_name timeout) ;;
     match result with
     | Some (_, message_json) =>
         message <~ lift (json_loads message_json) ;;
         logger INFO ("Message consumed from queue " +:+ queue_name) ;;;
         ret (Some message)
     | None => ret None
     end)
    (fun e =>
       logger ERROR ("Error consuming message from queue " +:+ queue_name
                     +:+ ": " +:+ exn_str e) ;;;
       raise e).

Definition result_key (job_id : json) : string := "job_result:" +:+ py_str job_id.

(** The record a first update starts from. *)
Definition new_job_result (job_id : json) : json :=
  JObj [("jobId", job_id); ("status", JStr "pending")].

Definition update_job_status (job_id : json) (status : string)
    (result error_message : json) : M E unit :=
  require_client ;;;
  try_except
    (existing_result <~ redis_call "get" (get (result_key job_id)) ;;
     job_result <~
       match existing_result with
       | Some text =>
           if wire_truthy text then lift (json_loads text)
           else ret (new_job_result job_id)
       | None => ret (new_job_result job_id)
       end ;;
     job_result <~ lift (setitem "status" (JStr status) job_result) ;;
     job_result <~
       (if truthy result then lift (setitem "result" result job_result)
        else ret job_result) ;;
     job_result <~
       (if truthy error_message
        then lift (setitem "errorMessage" error_message job_result)
        else ret job_result) ;;
     job_result <~
       (if is_terminal status
        then now <~ utcnow_isoformat ;;
             lift (setitem "completedAt" (JStr now) job_result)
        else ret job_result) ;;
     _ <~ redis_call "setex"
            (setex (result_key job_id) hours_24 (json_dumps job_result)) ;;
     logger INFO ("Job " +:+ py_str job_id +:+ " status updated to " +:+ status))
    (fun e =>
       logger ERROR ("Error updating job status for " +:+ py_str job_id
                     +:+ ": " +:+ exn_str e) ;;;
       raise e).

Definition get_job_result (job_id : json) : M E (option json) :=
  require_client ;;;
  try_except
    (result_json <~ redis_call "get" (get (result_key job_id)) ;;
     match result_json with
     | Some text =>
         if wire_truthy text then
           v <~ lift (json_loads text) ;; ret (Some v)
         else ret None
     | None => ret None
     end)
    (fun e =>
       logger ERROR ("Error getting job result for " +:+ py_str job_id
                     +:+ ": " +:+ exn_str e) ;;;
       raise e).

(** ** JobProcessor *)

(** A job handler: takes the message, acts on its own state, and returns a
    result or raises. *)
Definition handler : Type := json -> E -> outcome json * E.

(** [await processor_func(message)] *)
Definition call_handler (processor_func : handler) (message : json) : M E json :=
  fun w =>
    let '(o, e') := processor_func message (ext w) in
    (o, mkWorld (redis_client w) (running w) (log w)
                (utcnow w) (clock_reads w) (slept w) e').

(** One turn of the [while self.running:] loop of [_consume_queue]. *)
Definition consume_turn (queue_name : string) (processor_func : handler)
  : M E unit :=
  try_except
    (message <~ consume_message queue_name 5 ;;
     match message with
     | Some message =>
         if truthy message then
           job_id <~ lift (getitem_or_none "id" message) ;;
           if truthy job_id then
             update_job_status job_id "processing" JNull JNull ;;;
             try_except
               (result <~ call_handler processor_func message ;;
                update_job_status job_id "completed" result JNull)
               (fun e =>
                  logger ERROR ("Error processing job " +:+ py_str job_id
                                +:+ ": " +:+ exn_str e) ;;;
                  update_job_status job_id "failed" JNull (JStr (exn_str e)))
           else ret tt
         else ret tt
     | None => ret tt
     end)
    (fun e =>
       logger ERROR ("Error consuming from queue " +:+ queue_name
                     +:+ ": " +:+ exn_str e) ;;;
       sleep 5).

(** [_consume_queue], unrolled for at most [turns] turns. *)
Fixpoint _consume_queue (turns : nat) (queue_name : string)
    (processor_func : handler) : M E unit :=
  match turns with
  | O => ret tt
  | S n =>
      fun w =>
        if running w
        then (consume_turn queue_name processor_func ;;;
              _consume_queue n queue_name processor_func) w
        else (Returns tt, w)
  end.

(** The bound methods [start] hands to its consumers. *)
Inductive processor : Type :=
| _process_data_job
| _process_ml_training_job
| _process_prediction_job
| _process_visualization_job
| _process_statistics_job.

(** The consumers [start] creates, in order: queue name and handler. *)
Definition start_tasks : list (string * processor) :=
  [ ("analytics:data_processing", _process_data_job);
    ("analytics:model_training", _process_ml_training_job);
    ("analytics:prediction", _process_prediction_job);
    ("analytics:visualization", _process_visualization_job);
    ("analytics:statistical_analysis", _process_statistics_job) ].

(** [start], up to the creation of its tasks; they then run concurrently,
    each as [_consume_queue] on its own queue. *)
Definition start : M E (list (string * processor)) :=
  fun w =>
    (_ <~ logger INFO "Job processor started" ;; ret start_tasks)
      (with_running true w).

(** [stop] *)
Definition stop : M E unit :=
  fun w => logger INFO "Job processor stopped" (with_running false w).

End Effects.


(** ** The job handlers of [JobProcessor] *)

(** What the handlers read of their surroundings. *)
Record Env : Type := mkEnv {
  epoch : nat -> Z;              (* n-th reading of int(time.time()) *)
  epoch_reads : nat;             (* readings taken so far *)
  models_mkdir : option exn      (* what Path("models").mkdir(exist_ok=True)
                                    raises, if it raises *)
}.

(** [target.get(k, default)] *)
Definition get_or (k : string) (dflt : json) (target : json) : outcome json :=
  match target with
  | JObj d => Returns (default dflt (dict_get k d))
  | other =>
      Raises (AttributeError ("'" +:+ py_type_name other
                              +:+ "' object has no attribute 'get'"))
  end.

Module JobHandlers.

(** [DataProcessor()] only sets two attributes. *)
Definition _process_data_job : @handler Env :=
  fun job env =>
    match get_or "datasetId" (JStr "") job with
    | Raises e => (Raises e, env)
    | Returns dataset_id =>
        match get_or "parameters" (JObj []) job with
        | Raises e => (Raises e, env)
        | Returns parameters =>
            (Returns (JObj [("success", JBool true);
                            ("originalRows", JInt 1000);
                            ("processedRows", JInt 950);
                            ("originalColumns", JInt 10);
                            ("processedColumns", JInt 12);
                            ("message", JStr "Data processed successfully")]),
             env)
        end
    end.

(** [MLEngine()] creates the directory [models]. *)
Definition _process_ml_training_job : @handler Env :=
  fun job env =>
    match models_mkdir env with
    | Some e => (Raises e, env)
    | None =>
        match get_or "parameters" (JObj []) job with
        | Raises e => (Raises e, env)
        | Returns parameters =>
            (Returns (JObj [("success", JBool true);
                            ("modelId",
                             JStr ("model_" +:+ pretty (epoch env (epoch_reads env))));
                            ("accuracy", JFloat "0.85");
                            ("message", JStr "Model trained successfully")]),
             mkEnv (epoch env) (S (epoch_reads env)) (models_mkdir env))
        end
    end.

Definition _process_prediction_job : @handler Env :=
  fun job env =>
    match get_or "parameters" (JObj []) job with
    | Raises e => (Raises e, env)
    | Returns parameters =>
        (Returns (JObj [("success", JBool true);
                        ("predictions",
                         JArr [JFloat "0.8"; JFloat "0.2"; JFloat "0.9"]);
                        ("message", JStr "Predictions generated successfully")]),
         env)
    end.

Definition _process_visualization_job : @handler Env :=
  fun job env =>
    match get_or "parameters" (JObj []) job with
    | Raises e => (Raises e, env)
    | Returns parameters =>
        match get_or "chartType" (JStr "bar") parameters with
        | Raises e => (Raises e, env)
        | Returns chart_type =>
            (Returns (JObj [("success", JBool true);
                            ("chartType", chart_type);
                            ("chartData",
                             JObj [("data", JArr []); ("layout", JObj [])]);
                            ("message", JStr "Visualization created successfully")]),
             env)
        end
    end.

Definition _process_statistics_job : @handler Env :=
  fun job env =>
    match get_or "parameters" (JObj []) job with
    | Raises e => (Raises e, env)
    | Returns parameters =>
        match get_or "testType" (JStr "t_test") parameters with
        | Raises e => (Raises e, env)
        | Returns test_type =>
            (Returns (JObj [("success", JBool true);
                            ("testType", test_type);
                            ("statistic", JFloat "2.5");
                            ("pValue", JFloat "0.02");
                            ("significant", JBool true);
                            ("message",
                             JStr "Statistical analysis completed successfully")]),
             env)
        end
    end.

End JobHandlers.

(** The method behind each consumer of [start]. *)
Definition processor_func (p : processor) : @handler Env :=
  match p with
  | _process_data_job => JobHandlers._process_data_job
  | _process_ml_training_job => JobHandlers._process_ml_training_job
  | _process_prediction_job => JobHandlers._process_prediction_job
  | _process_visualization_job => JobHandlers._process_visualization_job
  | _process_statistics_job => JobHandlers._process_statistics_job
  end.

(** ** The job routes: [api/routes/jobs.py] *)

(** What a route answers: its return value, or the [HTTPException] it
    raises. *)
Inductive http_result (A : Type) : Type :=
| Responds (a : A)
| HTTPException (status_code : Z) (detail : string).
Arguments Responds {A} a.
Arguments HTTPException {A} status_code detail.

Module JobRoutes.

Section Routes.

Context {E R : Type}.

(** The constructor of the pydantic model [JobStatusResponse], which
    validates its five fields: it returns the response or raises. *)
Variable JobStatusResponse : json -> json -> json -> json -> json -> outcome R.

(** [except HTTPException: raise] and [except Exception as e:] around a route
    body whose own [HTTPException]s are carried as values. *)
Definition guarded {A} (what job_id : string) (body : M E (http_result A))
  : World E -> http_result A * World E :=
  fun w =>
    match body w with
    | (Returns answer, w') => (answer, w')
    | (Raises e, w') =>
        (HTTPException 500 "Internal server error",
         snd (logger ERROR ("Error " +:+ what +:+ " for " +:+ job_id
                            +:+ ": " +:+ exn_str e) w'))
    end.

Definition get_job_status (job_id : string)
  : World E -> http_result R * World E :=
  guarded "getting job status" job_id
    (result <~ get_job_result (JStr job_id) ;;
     if negb (match result with Some v => truthy v | None => false end)
     then ret (HTTPException 404 ("Job " +:+ job_id +:+ " not found"))
     else
       let result := default JNull result in
       v_job_id <~ lift (get_or "jobId" (JStr job_id) result) ;;
       v_status <~ lift (get_or "status" (JStr "unknown") result) ;;
       v_result <~ lift (get_or "result" JNull result) ;;
       v_error_message <~ lift (get_or "errorMessage" JNull result) ;;
       v_completed_at <~ lift (get_or "completedAt" JNull result) ;;
       response <~ lift (JobStatusResponse v_job_id v_status v_result
                           v_error_message v_completed_at) ;;
       ret (Responds response)).

Definition update_job_status (job_id status : string)
    (result error_message : json) : World E -> http_result json * World E :=
  guarded "updating job status" job_id
    (update_job_status (JStr job_id) status result error_message ;;;
     ret (Responds
            (JObj [("success", JBool true);
                   ("message",
                    JStr ("Job " +:+ job_id +:+ " status updated to " +:+ status))]))).

End Routes.

End JobRoutes.
(** * Vocabulary of the properties *)

Section Vocabulary.

Context {E : Type}.

Definition with_ext (e : E) (w : World E) : World E :=
  mkWorld (redis_client w) (running w) (log w) (utcnow w) (clock_reads w) (slept w) e.

(** The world with one more log line. *)
Definition logged (lvl : level) (msg : string) (w : World E) : World E :=
  snd (logger lvl msg w).

(** The record an update of [job_id] starts from. *)
Definition stored_record (job_id : json) (r : Redis) : outcome json :=
  match strings r !! result_key job_id with
  | Some (text, _) =>
      if wire_truthy text then json_loads text else Returns (new_job_result job_id)
  | None => Returns (new_job_result job_id)
  end.

(** The assignments of [update_job_status] on a [dict], [now] being the
    clock reading. *)
Definition merged (status : string) (result error_message : json)
    (now : string) (d : dict) : dict :=
  let d := dict_set "status" (JStr status) d in
  let d := if truthy result then dict_set "result" result d else d in
  let d := if truthy error_message
           then dict_set "errorMessage" error_message d else d in
  if is_terminal status then dict_set "completedAt" (JStr now) d else d.

(** The world after a successful update of a record that was [d]. *)
Definition updated (job_id : json) (status : string)
    (result error_message : json) (d : dict) (r : Redis) (w : World E) : World E :=
  mkWorld
    (Some (mkRedis (lists r)
             (<[result_key job_id :=
                  (Json (JObj (merged status result error_message
                                 (utcnow w (clock_reads w)) d)), hours_24)]>
                (strings r))
             (published r)))
    (running w)
    (log w ++ [(INFO, "Job " +:+ py_str job_id +:+ " status updated to " +:+ status)])
    (utcnow w)
    (if is_terminal status then S (clock_reads w) else clock_reads w)
    (slept w) (ext w).

(** The world after an update that raised [e]. *)
Definition update_failed (job_id : json) (e : exn) (w : World E) : World E :=
  logged ERROR ("Error updating job status for " +:+ py_str job_id
                +:+ ": " +:+ exn_str e) w.

(** The Job Record as [get_job_result] reports it. *)
Definition observed (job_id : json) (w : World E) : outcome (option json) :=
  fst (get_job_result job_id w).

(** One field of the observed record. *)
Definition observed_field (k : string) (job_id : json) (w : World E) : option json :=
  match observed job_id w with
  | Returns (Some (JObj d)) => dict_get k d
  | _ => None
  end.

(** The world after the update. *)
Definition once (job_id : json) (status : string) (result error_message : json)
    (w : World E) : World E :=
  snd (update_job_status job_id status result error_message w).

(** The world after the update and its retry with the same arguments. *)
Definition twice (job_id : json) (status : string) (result error_message : json)
    (w : World E) : World E :=
  once job_id status result error_message
       (once job_id status result error_message w).

(** The world in which the clock has been read once more. *)
Definition later (w : World E) : World E := snd (utcnow_isoformat w).

(** The two ways an update can go: it stores the merged record, or it
    raises and leaves the server as it was. *)
Inductive update_case (w : World E) (job_id : json) (status : string)
    (result error_message : json) : Prop :=
| update_stores r d :
    redis_client w = Some r ->
    stored_record job_id r = Returns (JObj d) ->
    once job_id status result error_message w
    = updated job_id status result error_message d r w ->
    update_case w job_id status result error_message
| update_keeps :
    redis_client (once job_id status result error_message w) = redis_client w ->
    (forall w', redis_client w' = redis_client w ->
                redis_client (once job_id status result error_message w')
                = redis_client w) ->
    update_case w job_id status result error_message.

(** The arguments of one status update. *)
Record call : Type := mkCall {
  call_status : string;
  call_result : json;
  call_error : json
}.

(** The world after a sequence of updates of one job. *)
Definition after_calls (job_id : json) (calls : list call) (w : World E) : World E :=
  fold_left
    (fun w c => once job_id (call_status c) (call_result c) (call_error c) w)
    calls w.

(** The world after publishing [message] to [queue_name]. *)
Definition enqueued (queue_name : string) (message : json) (r : Redis)
    (w : World E) : World E :=
  logged INFO ("Message published to queue " +:+ queue_name)
    (with_client
       (Some (snd (publish (queue_name +:+ ":notification") (json_dumps message)
                     (snd (lpush queue_name (json_dumps message) r)))))
       w).

(** The world after dequeuing from [queue_name] a payload that decodes. *)
Definition consumed (queue_name : string) (r : Redis) (w : World E) : World E :=
  logged INFO ("Message consumed from queue " +:+ queue_name)
         (with_client (Some (snd (brpop queue_name 5 r))) w).

(** The world after a turn that dequeued a payload the decoder refused
    with complaint [why]. *)
Definition dropped (queue_name : string) (why : string) (r : Redis)
    (w : World E) : World E :=
  snd (sleep 5
         (logged ERROR ("Error consuming from queue " +:+ queue_name
                        +:+ ": " +:+ why)
            (logged ERROR ("Error consuming message from queue " +:+ queue_name
                           +:+ ": " +:+ why)
               (with_client (Some (snd (brpop queue_name 5 r))) w)))).

(** The world after a turn that dequeued [message], carrying the truthy
    id [job_id], when no update raises. *)
Definition processed (queue_name : string) (processor_func : handler)
    (message job_id : json) (r : Redis) (w : World E) : World E :=
  let w_processing :=
    once job_id "processing" JNull JNull (consumed queue_name r w) in
  match processor_func message (ext w) with
  | (Returns result, e') =>
      once job_id "completed" result JNull (with_ext e' w_processing)
  | (Raises e, e') =>
      once job_id "failed" JNull (JStr (exn_str e))
        (logged ERROR ("Error processing job " +:+ py_str job_id
                       +:+ ": " +:+ exn_str e)
           (with_ext e' w_processing))
  end.

(** What every turn of the loop on [queue_name] does to a connected
    world [w], whatever it dequeues: it pops the queue, keeps the loop
    running, and leaves every record that an update can start from in that
    state. *)
Definition turn_effect (queue_name : string) (w w' : World E) : Prop :=
  exists r r',
    redis_client w = Some r
    /\ redis_client w' = Some r'
    /\ lists r' = lists (snd (brpop queue_name 5 r))
    /\ running w' = running w
    /\ (forall job_id d,
          stored_record job_id r = Returns (JObj d) ->
          exists d', stored_record job_id r' = Returns (JObj d')).

(** What the loop logs once the handler is back. *)
Definition outcome_log (processor_func : handler) (message job_id : json) (e : E)
  : list (level * string) :=
  match fst (processor_func message e) with
  | Returns _ =>
      [(INFO, "Job " +:+ py_str job_id +:+ " status updated to completed")]
  | Raises err =>
      [(ERROR, "Error processing job " +:+ py_str job_id +:+ ": " +:+ exn_str err);
       (INFO, "Job " +:+ py_str job_id +:+ " status updated to failed")]
  end.

End Vocabulary.

(** [result] appears only under status [completed]. *)
Definition result_only_when_completed (d : dict) : Prop :=
  dict_get "result" d <> None -> dict_get "status" d = Some (JStr "completed").

(** [errorMessage] appears only under status [failed]. *)
Definition error_only_when_failed (d : dict) : Prop :=
  dict_get "errorMessage" d <> None -> dict_get "status" d = Some (JStr "failed").

(** No result and no error message in the record. *)
Definition bare (d : dict) : Prop :=
  dict_get "result" d = None /\ dict_get "errorMessage" d = None.

(** A call that supplies neither a result nor an error message. *)
Definition plain (c : call) : bool :=
  negb (truthy (call_result c)) && negb (truthy (call_error c)).

(** A call that supplies a result only with status [completed] and an
    error message only with status [failed]. *)
Definition closing (c : call) : bool :=
  implb (truthy (call_result c)) (String.eqb (call_status c) "completed")
  && implb (truthy (call_error c)) (String.eqb (call_status c) "failed").

(** A sequence of calls in which only the last one may supply a result or
    an error message, and does so as [closing] says. *)
Fixpoint disciplined (calls : list call) : bool :=
  match calls with
  | [] => true
  | c :: rest =>
      match rest with
      | [] => closing c
      | _ :: _ => plain c && disciplined rest
      end
  end.

(** The payloads of up to [n] successive BRPOPs on [key]. *)
Fixpoint drain (n : nat) (key : string) (r : Redis) : list wire :=
  match n with
  | O => []
  | S n =>
      match brpop key 5 r with
      | (Some (_, v), r') => v :: drain n key r'
      | (None, _) => []
      end
  end.

(** The job kinds and the naming convention of the external interface. *)
Definition recognized_kinds : list string :=
  ["data_processing"; "model_training"; "prediction"; "visualization";
   "statistical_analysis"].

Definition queue_of_kind (kind : string) : string := "analytics:" +:+ kind.

(** *** Sample worlds *)

Definition sample_clock (n : nat) : string := "2024-01-16T10:00:0" +:+ pretty n.

(** Connected, running, nothing stored or queued. *)
Definition sample_world : World unit :=
  mkWorld (Some empty_redis) true [] sample_clock 0%nat 0 tt.

Definition queue_holding (queue_name : string) (l : list wire) : World unit :=
  mkWorld (Some (mkRedis {[ queue_name := l ]} ∅ [])) true [] sample_clock 0%nat 0 tt.

(** Handlers with no state of their own. *)
Definition returning (v : json) : @handler unit := fun _ e => (Returns v, e).
Definition raising (e : exn) : @handler unit := fun _ s => (Raises e, s).

Definition counting_world (queue_name : string) (l : list wire) : World nat :=
  mkWorld (Some (mkRedis {[ queue_name := l ]} ∅ [])) true [] sample_clock 0%nat 0 0%nat.

(** A handler that counts its invocations. *)
Definition counting : @handler nat :=
  fun _ n => (Returns (JObj [("success", JBool true)]), S n).


(** ** More vocabulary: batches of messages and the shapes of a turn *)

Section MoreVocabulary.

Context {E : Type}.

(** Publishing the messages [ms] in order. *)
Fixpoint publish_all (queue_name : string) (ms : list json) : M E unit :=
  match ms with
  | [] => ret tt
  | m :: rest => publish_message queue_name m ;;; publish_all queue_name rest
  end.

(** Consuming up to [n] messages, until the queue answers none. *)
Fixpoint consume_many (n : nat) (queue_name : string) : M E (list json) :=
  match n with
  | O => ret []
  | S n =>
      m <~ consume_message queue_name 5 ;;
      match m with
      | Some v => rest <~ consume_many n queue_name ;; ret (v :: rest)
      | None => ret []
      end
  end.

(** The world after a turn that dequeued a truthy payload without [get]. *)
Definition refused (queue_name : string) (message : json) (r : Redis)
    (w : World E) : World E :=
  snd (sleep 5
         (logged ERROR
            ("Error consuming from queue " +:+ queue_name +:+ ": "
             +:+ "'" +:+ py_type_name message
             +:+ "' object has no attribute 'get'")
            (consumed queue_name r w))).

(** The world after a turn whose update to [processing] raised [e]. *)
Definition stalled (queue_name : string) (job_id : json) (e : exn) (r : Redis)
    (w : World E) : World E :=
  snd (sleep 5
         (logged ERROR
            ("Error consuming from queue " +:+ queue_name +:+ ": " +:+ exn_str e)
            (update_failed job_id e (consumed queue_name r w)))).

(** The world after a turn that found the client not connected. *)
Definition unconnected (queue_name : string) (w : World E) : World E :=
  snd (sleep 5
         (logged ERROR
            ("Error consuming from queue " +:+ queue_name
             +:+ ": Redis client not connected") w)).

(** What the turn found at the tail of the queue. *)
Inductive found : Type :=
| Nothing
| Undecodable (why : string)
| Falsy (message : json)
| NotADict (message : json)
| NoId (message : json)
| Unupdatable (message job_id : json) (e : exn)
| Job (message job_id : json).

(** The world a turn on [queue_name] leaves, by what it found. *)
Definition after_turn (queue_name : string) (f : handler) (r : Redis)
    (w : World E) (x : found) : World E :=
  match x with
  | Nothing => w
  | Undecodable why => dropped queue_name why r w
  | Falsy _ | NoId _ => consumed queue_name r w
  | NotADict message => refused queue_name message r w
  | Unupdatable _ job_id e => stalled queue_name job_id e r w
  | Job message job_id => processed queue_name f message job_id r w
  end.

(** [x] is what a turn finds on [queue_name] in the server state [r]. *)
Definition finds (queue_name : string) (r : Redis) (x : found) : Prop :=
  match x with
  | Nothing => unsnoc (default [] (lists r !! queue_name)) = None
  | Undecodable why =>
      exists init doc,
        unsnoc (default [] (lists r !! queue_name)) = Some (init, Malformed doc why)
  | Falsy message =>
      (exists init,
         unsnoc (default [] (lists r !! queue_name)) = Some (init, Json message))
      /\ truthy message = false
  | NotADict message =>
      (exists init,
         unsnoc (default [] (lists r !! queue_name)) = Some (init, Json message))
      /\ truthy message = true
      /\ (forall fields, message <> JObj fields)
  | NoId message =>
      (exists init,
         unsnoc (default [] (lists r !! queue_name)) = Some (init, Json message))
      /\ exists fields,
           message = JObj fields
           /\ truthy (default JNull (dict_get "id" fields)) = false
  | Unupdatable message job_id e =>
      (exists init,
         unsnoc (default [] (lists r !! queue_name)) = Some (init, Json message))
      /\ (exists fields,
            message = JObj fields /\ dict_get "id" fields = Some job_id)
      /\ truthy job_id = true
      /\ match stored_record job_id r with
         | Returns v => setitem "status" (JStr "processing") v = Raises e
         | Raises e' => e' = e
         end
  | Job message job_id =>
      (exists init,
         unsnoc (default [] (lists r !! queue_name)) = Some (init, Json message))
      /\ (exists fields,
            message = JObj fields /\ dict_get "id" fields = Some job_id)
      /\ truthy job_id = true
      /\ exists d, stored_record job_id r = Returns (JObj d)
  end.

End MoreVocabulary.

(** A validator that accepts any five fields. *)
Definition lenient (job_id status result error_message completed_at : json)
  : outcome json :=
  Returns (JObj [("job_id", job_id); ("status", status); ("result", result);
                 ("error_message", error_message);
                 ("completed_at", completed_at)]).

(** A validator that refuses everything. *)
Definition refusing (job_id status result error_message completed_at : json)
  : outcome json :=
  Raises (TypeError "validation error for JobStatusResponse").

Definition sample_env : Env :=
  mkEnv (fun n => 1705399200 + Z.of_nat n) 0%nat None.

(** Connected and running, the queue holding [l], for the real handlers. *)
Definition env_world (queue_name : string) (l : list wire) : World Env :=
  mkWorld (Some (mkRedis {[ queue_name := l ]} ∅ [])) true [] sample_clock
          0%nat 0 sample_env.

(** Not connected. *)
Definition offline_world : World unit :=
  mkWorld None true [] sample_clock 0%nat 0 tt.

(** Surroundings in which the clock stays within one second. *)
Definition same_second_env : Env := mkEnv (fun _ => 1705399200) 0%nat None.

(** Connected, the store holding [v] as the record of [job_id]. *)
Definition record_world (job_id : string) (v : json) : World unit :=
  mkWorld
    (Some (mkRedis ∅ {[ result_key (JStr job_id) := (Json v, hours_24) ]} []))
    true [] sample_clock 0%nat 0 tt.

(** * Properties *)

(** ** Printing and dictionaries *)

Example py_str_samples :
  py_str (JStr "job-1") = "job-1"
  /\ py_str (JInt (-42)) = "-42"
  /\ py_str (JArr [JInt 1; JStr "a'b"; JBool true; JNull])
     = "[1, " +:+ String dquote ("a'b" +:+ String dquote ", True, None]")
  /\ py_str (JObj [("k", JFloat "0.5")]) = "{'k': 0.5}".
Proof. vm_compute. repeat split. Qed.

Lemma dict_get_set_eq k v d : dict_get k (dict_set k v d) = Some v.
Proof.
  induction d as [|[k' v'] d IH]; simpl.
  - by rewrite String.eqb_refl.
  - destruct (String.eqb k k') eqn:Hk; simpl.
    + by rewrite String.eqb_refl.
    + by rewrite Hk.
Qed.

Lemma dict_get_set_ne k k' v d :
  k <> k' -> dict_get k (dict_set k' v d) = dict_get k d.
Proof.
  intros Hne. apply String.eqb_neq in Hne.
  induction d as [|[k0 v0] d IH]; simpl.
  - by rewrite Hne.
  - destruct (String.eqb k' k0) eqn:Hk; simpl.
    + apply String.eqb_eq in Hk as <-. by rewrite Hne.
    + by rewrite IH.
Qed.

(** Assigning twice to a key is assigning the later value. *)
Lemma dict_set_set k v v' d : dict_set k v (dict_set k v' d) = dict_set k v d.
Proof.
  induction d as [|[k0 v0] d IH]; simpl.
  - by rewrite String.eqb_refl.
  - destruct (String.eqb k k0) eqn:Hk; simpl.
    + by rewrite String.eqb_refl.
    + by rewrite Hk, IH.
Qed.

(** Assigning the value a key already has changes nothing. *)
Lemma dict_set_id k v d : dict_get k d = Some v -> dict_set k v d = d.
Proof.
  induction d as [|[k0 v0] d IH]; simpl; [done|].
  destruct (String.eqb k k0) eqn:Hk.
  - apply String.eqb_eq in Hk as <-. by intros [= ->].
  - intros H. by rewrite IH.
Qed.

(** An assignment removes no key. *)
Lemma dict_set_keeps k k' v d :
  dict_get k d <> None -> dict_get k (dict_set k' v d) <> None.
Proof.
  intros H. destruct (decide (k = k')) as [->|Hne].
  - by rewrite dict_get_set_eq.
  - by rewrite dict_get_set_ne.
Qed.

(** ** What one status update does *)

Section Updates.

Context {E : Type}.
Implicit Types (w : World E) (r : Redis) (d : dict).

Lemma with_client_same w r : redis_client w = Some r -> with_client (Some r) w = w.
Proof. destruct w; simpl; by intros ->. Qed.

Lemma update_job_status_ok w r job_id status result error_message d :
  redis_client w = Some r ->
  stored_record job_id r = Returns (JObj d) ->
  update_job_status job_id status result error_message w
  = (Returns tt, updated job_id status result error_message d r w).
Proof.
  intros Hc Hs.
  unfold update_job_status, bind, try_except, require_client, redis_call, get.
  rewrite Hc. simpl. rewrite Hc. simpl. rewrite (with_client_same _ _ Hc).
  unfold stored_record in Hs.
  assert (Hj :
    (match fst <$> strings r !! result_key job_id with
     | Some text =>
         if wire_truthy text then lift (json_loads text)
         else ret (new_job_result job_id)
     | None => ret (new_job_result job_id)
     end) w = (Returns (JObj d), w)).
  { destruct (strings r !! result_key job_id) as [[text ttl]|]; simpl.
    - destruct (wire_truthy text); unfold lift, ret; by rewrite ?Hs.
    - unfold ret. by rewrite Hs. }
  rewrite Hj. unfold updated, merged, lift, ret, setitem, utcnow_isoformat, logger, setex.
  destruct (truthy result), (truthy error_message), (is_terminal status);
    simpl; rewrite ?Hc; unfold with_client, json_dumps; simpl; reflexivity.
Qed.

Lemma update_job_status_raises w r job_id status result error_message e :
  redis_client w = Some r ->
  match stored_record job_id r with
  | Returns v => setitem "status" (JStr status) v = Raises e
  | Raises e' => e' = e
  end ->
  update_job_status job_id status result error_message w
  = (Raises e, update_failed job_id e w).
Proof.
  intros Hc Hs.
  unfold update_job_status, bind, try_except, require_client, redis_call, get.
  rewrite Hc. simpl. rewrite Hc. simpl. rewrite (with_client_same _ _ Hc).
  unfold stored_record in Hs.
  destruct (strings r !! result_key job_id) as [[text ttl]|]; simpl.
  - destruct (wire_truthy text); [|discriminate Hs]. unfold lift.
    destruct (json_loads text) as [v|e']; [by rewrite Hs | by subst].
  - discriminate Hs.
Qed.

Lemma update_job_status_disconnected w job_id status result error_message :
  redis_client w = None ->
  update_job_status job_id status result error_message w
  = (Raises (RuntimeError "Redis client not connected"), w).
Proof.
  intros Hc. unfold update_job_status, bind, require_client. by rewrite Hc.
Qed.

End Updates.

(** ** What a poller observes *)

Section Observation.

Context {E : Type}.
Implicit Types (w : World E) (r : Redis) (d : dict).

Lemma observed_connected w r job_id :
  redis_client w = Some r ->
  observed job_id w =
  match strings r !! result_key job_id with
  | Some (text, _) =>
      if wire_truthy text then
        match json_loads text with
        | Returns v => Returns (Some v)
        | Raises e => Raises e
        end
      else Returns None
  | None => Returns None
  end.
Proof.
  intros Hc.
  unfold observed, get_job_result, bind, try_except, require_client, redis_call, get.
  rewrite Hc. simpl. rewrite Hc. simpl.
  destruct (strings r !! result_key job_id) as [[text ttl]|]; simpl; [|done].
  destruct (wire_truthy text); [|done].
  unfold lift. by destruct (json_loads text).
Qed.

Lemma observed_disconnected w job_id :
  redis_client w = None ->
  observed job_id w = Raises (RuntimeError "Redis client not connected").
Proof.
  intros Hc. unfold observed, get_job_result, bind, require_client. by rewrite Hc.
Qed.

(** Observation depends on the server state alone. *)
Lemma observed_client w w' job_id :
  redis_client w = redis_client w' -> observed job_id w = observed job_id w'.
Proof.
  intros Heq. destruct (redis_client w') as [r|] eqn:Hc'.
  - by rewrite (observed_connected w r), (observed_connected w' r).
  - by rewrite !observed_disconnected.
Qed.

Lemma observed_updated job_id status result error_message d r w :
  observed job_id (updated job_id status result error_message d r w)
  = Returns (Some (JObj (merged status result error_message
                           (utcnow w (clock_reads w)) d))).
Proof.
  erewrite observed_connected by reflexivity. simpl.
  by rewrite lookup_insert_eq.
Qed.

Lemma stored_record_updated job_id status result error_message d r w r' :
  redis_client (updated job_id status result error_message d r w) = Some r' ->
  stored_record job_id r'
  = Returns (JObj (merged status result error_message (utcnow w (clock_reads w)) d)).
Proof.
  intros [= <-]. unfold stored_record. simpl. by rewrite lookup_insert_eq.
Qed.

(** Either the stored record is a [dict], or the update raises. *)
Lemma stored_record_cases job_id status r :
  (exists d, stored_record job_id r = Returns (JObj d))
  \/ (exists e,
        match stored_record job_id r with
        | Returns v => setitem "status" (JStr status) v = Raises e
        | Raises e' => e' = e
        end).
Proof.
  destruct (stored_record job_id r) as [v|e]; [|right; by exists e].
  destruct v; try (right; eexists; reflexivity).
  left. by eexists.
Qed.

End Observation.

(** ** Repeating an update *)

Section Idempotence.

Context {E : Type}.
Implicit Types (w : World E) (r : Redis) (d : dict).

Lemma merged_get_status status result error_message now d :
  dict_get "status" (merged status result error_message now d) = Some (JStr status).
Proof.
  unfold merged.
  destruct (truthy result), (truthy error_message), (is_terminal status);
    rewrite ?dict_get_set_ne by done; apply dict_get_set_eq.
Qed.

Lemma merged_get_result status result error_message now d :
  truthy result = true ->
  dict_get "result" (merged status result error_message now d) = Some result.
Proof.
  intros Hr. unfold merged. rewrite Hr.
  destruct (truthy error_message), (is_terminal status);
    rewrite ?dict_get_set_ne by done; apply dict_get_set_eq.
Qed.

Lemma merged_get_error status result error_message now d :
  truthy error_message = true ->
  dict_get "errorMessage" (merged status result error_message now d)
  = Some error_message.
Proof.
  intros He. unfold merged. rewrite He.
  destruct (is_terminal status);
    rewrite ?dict_get_set_ne by done; apply dict_get_set_eq.
Qed.

(** A retry overwrites the first update's assignments, key by key. *)
Lemma merged_absorb status result error_message t1 t2 d :
  merged status result error_message t2 (merged status result error_message t1 d)
  = merged status result error_message t2 d.
Proof.
  set (d1 := merged status result error_message t1 d).
  assert (Hs : dict_set "status" (JStr status) d1 = d1)
    by apply dict_set_id, merged_get_status.
  unfold merged at 1. rewrite Hs.
  assert (Hr : (if truthy result then dict_set "result" result d1 else d1) = d1).
  { destruct (truthy result) eqn:Hr; [|done].
    by apply dict_set_id, merged_get_result. }
  rewrite Hr.
  assert (He : (if truthy error_message
                then dict_set "errorMessage" error_message d1 else d1) = d1).
  { destruct (truthy error_message) eqn:He; [|done].
    by apply dict_set_id, merged_get_error. }
  rewrite He. subst d1. unfold merged.
  destruct (is_terminal status); [|done].
  apply dict_set_set.
Qed.

(** Only [completedAt] depends on the clock. *)
Lemma merged_get_other k status result error_message t1 t2 d :
  k <> "completedAt" ->
  dict_get k (merged status result error_message t1 d)
  = dict_get k (merged status result error_message t2 d).
Proof.
  intros Hk. unfold merged.
  destruct (is_terminal status); [|done].
  by rewrite !dict_get_set_ne.
Qed.

Lemma merged_not_terminal status result error_message t1 t2 d :
  is_terminal status = false ->
  merged status result error_message t1 d = merged status result error_message t2 d.
Proof. intros Ht. unfold merged. by rewrite Ht. Qed.

End Idempotence.

(** ** Dequeuing and one turn of the loop *)

Section Consuming.

Context {E : Type}.
Implicit Types (w : World E) (r : Redis) (d : dict) (f : @handler E).

Lemma unsnoc_snoc {A} (l : list A) x : unsnoc (l ++ [x])%list = Some (l, x).
Proof.
  induction l as [|y l IH]; simpl; [done|]. by rewrite IH.
Qed.

Lemma unsnoc_inv {A} (l init : list A) x :
  unsnoc l = Some (init, x) -> l = (init ++ [x])%list.
Proof.
  revert init. induction l as [|y l IH]; simpl; intros init; [done|].
  destruct (unsnoc l) as [[init' z]|] eqn:Hu.
  - intros [= <- <-]. simpl. f_equal. by apply IH.
  - intros [= <- <-]. destruct l as [|y' l]; [done|].
    simpl in Hu. by destruct (unsnoc l) as [[??]|].
Qed.

Lemma once_ok w r job_id status result error_message d :
  redis_client w = Some r ->
  stored_record job_id r = Returns (JObj d) ->
  once job_id status result error_message w
  = updated job_id status result error_message d r w.
Proof.
  intros Hc Hs. unfold once. by erewrite update_job_status_ok.
Qed.

Lemma consume_message_json w r queue_name l init message :
  redis_client w = Some r ->
  lists r !! queue_name = Some l ->
  unsnoc l = Some (init, Json message) ->
  consume_message queue_name 5 w
  = (Returns (Some message), consumed queue_name r w).
Proof.
  intros Hc Hl Hu.
  unfold consume_message, bind, try_except, require_client, redis_call.
  rewrite Hc. simpl. rewrite Hc.
  unfold consumed, brpop. rewrite Hl, Hu. reflexivity.
Qed.

Lemma consume_message_malformed w r queue_name l init doc why :
  redis_client w = Some r ->
  lists r !! queue_name = Some l ->
  unsnoc l = Some (init, Malformed doc why) ->
  consume_message queue_name 5 w
  = (Raises (JSONDecodeError why),
     logged ERROR ("Error consuming message from queue " +:+ queue_name
                   +:+ ": " +:+ why)
       (with_client (Some (snd (brpop queue_name 5 r))) w)).
Proof.
  intros Hc Hl Hu.
  unfold consume_message, bind, try_except, require_client, redis_call.
  rewrite Hc. simpl. rewrite Hc.
  unfold brpop. rewrite Hl, Hu. reflexivity.
Qed.

Lemma consume_message_nothing w r queue_name :
  redis_client w = Some r ->
  unsnoc (default [] (lists r !! queue_name)) = None ->
  consume_message queue_name 5 w = (Returns None, w).
Proof.
  intros Hc Hl.
  unfold consume_message, bind, try_except, require_client, redis_call.
  rewrite Hc. simpl. rewrite Hc.
  unfold brpop. destruct (lists r !! queue_name) as [l|]; simpl in *.
  - rewrite Hl. simpl. by rewrite (with_client_same _ _ Hc).
  - by rewrite (with_client_same _ _ Hc).
Qed.

(** No exception leaves a turn of the loop. *)
Lemma consume_turn_returns queue_name f w :
  fst (consume_turn queue_name f w) = Returns tt.
Proof.
  unfold consume_turn, try_except.
  match goal with |- context [bind ?m ?k w] => destruct (bind m k w) as [[[]|e] w'] end;
    reflexivity.
Qed.

Lemma stored_record_brpop job_id queue_name t r :
  stored_record job_id (snd (brpop queue_name t r)) = stored_record job_id r.
Proof.
  unfold stored_record, brpop.
  destruct (lists r !! queue_name) as [l|]; [|done].
  by destruct (unsnoc l) as [[init v]|].
Qed.

Lemma truthy_with_field k v fields :
  dict_get k fields = Some v -> truthy (JObj fields) = true.
Proof. by destruct fields. Qed.

(** A turn that dequeues a job whose record can be updated. *)
Lemma consume_turn_job w r queue_name f l init fields job_id d :
  redis_client w = Some r ->
  lists r !! queue_name = Some l ->
  unsnoc l = Some (init, Json (JObj fields)) ->
  dict_get "id" fields = Some job_id ->
  truthy job_id = true ->
  stored_record job_id r = Returns (JObj d) ->
  consume_turn queue_name f w
  = (Returns tt, processed queue_name f (JObj fields) job_id r w).
Proof.
  intros Hc Hl Hu Hid Ht Hs.
  unfold consume_turn, try_except. unfold bind at 1.
  rewrite (consume_message_json _ _ _ _ _ _ Hc Hl Hu).
  rewrite (truthy_with_field _ _ _ Hid).
  unfold getitem_or_none. rewrite Hid. simpl default.
  unfold bind at 1. unfold lift at 1. rewrite Ht.
  set (wc := consumed queue_name r w).
  assert (Hcc : redis_client wc = Some (snd (brpop queue_name 5 r))) by done.
  assert (Hsc : stored_record job_id (snd (brpop queue_name 5 r)) = Returns (JObj d))
    by by rewrite stored_record_brpop.
  unfold processed. fold wc.
  rewrite (once_ok _ _ _ _ _ _ _ Hcc Hsc).
  unfold bind at 1. rewrite (update_job_status_ok _ _ _ _ _ _ _ Hcc Hsc).
  set (wp := updated job_id "processing" JNull JNull d _ wc).
  unfold try_except, bind at 1, call_handler.
  change (ext wp) with (ext w).
  destruct (f (JObj fields) (ext w)) as [[result|e] e'].
  - match goal with
    | |- context [update_job_status _ _ _ _ ?w1] =>
        change w1 with (with_ext e' wp);
        destruct (redis_client (with_ext e' wp)) as [rp|] eqn:Hcp; [|done]
    end.
    pose proof (stored_record_updated _ _ _ _ _ _ _ _ Hcp) as Hsp.
    rewrite (once_ok _ _ _ _ _ _ _ Hcp Hsp).
    by rewrite (update_job_status_ok _ _ _ _ _ _ _ Hcp Hsp).
  - unfold bind at 1.
    match goal with
    | |- context [logger ERROR ?m ?w1] =>
        change w1 with (with_ext e' wp);
        change (logger ERROR m (with_ext e' wp))
          with (Returns tt, logged ERROR m (with_ext e' wp));
        destruct (redis_client (logged ERROR m (with_ext e' wp))) as [rp|] eqn:Hcp;
          [|done]
    end.
    pose proof (stored_record_updated _ _ _ _ _ _ _ _ Hcp) as Hsp.
    rewrite (once_ok _ _ _ _ _ _ _ Hcp Hsp).
    by rewrite (update_job_status_ok _ _ _ _ _ _ _ Hcp Hsp).
Qed.

End Consuming.

(** ** The three ways an update can go *)

Section UpdateCases.

Context {E : Type}.
Implicit Types (w : World E) (r : Redis) (d : dict).

Lemma once_raises w r job_id status result error_message e :
  redis_client w = Some r ->
  match stored_record job_id r with
  | Returns v => setitem "status" (JStr status) v = Raises e
  | Raises e' => e' = e
  end ->
  once job_id status result error_message w = update_failed job_id e w.
Proof.
  intros Hc Hs. unfold once. by erewrite update_job_status_raises.
Qed.

Lemma once_disconnected w job_id status result error_message :
  redis_client w = None ->
  once job_id status result error_message w = w.
Proof.
  intros Hc. unfold once. by rewrite update_job_status_disconnected.
Qed.

(** An update that raises leaves the server as it was. *)
Lemma once_raises_client w r job_id status result error_message e :
  redis_client w = Some r ->
  match stored_record job_id r with
  | Returns v => setitem "status" (JStr status) v = Raises e
  | Raises e' => e' = e
  end ->
  redis_client (once job_id status result error_message w) = Some r.
Proof.
  intros Hc Hs. by rewrite (once_raises _ _ _ _ _ _ _ Hc Hs).
Qed.

Lemma update_cases w job_id status result error_message :
  update_case w job_id status result error_message.
Proof.
  destruct (redis_client w) as [r|] eqn:Hc.
  - destruct (stored_record_cases job_id status r) as [[d Hs]|[e He]].
    + eapply update_stores; eauto using once_ok.
    + apply update_keeps.
      * rewrite Hc. eauto using once_raises_client.
      * intros w' Hw'. rewrite Hc in *. eauto using once_raises_client.
  - apply update_keeps.
    + by rewrite once_disconnected.
    + intros w' Hw'. rewrite Hc in *. by rewrite once_disconnected.
Qed.

Lemma observed_field_client k w w' job_id :
  redis_client w = redis_client w' ->
  observed_field k job_id w = observed_field k job_id w'.
Proof.
  intros Heq. unfold observed_field. by rewrite (observed_client w w').
Qed.

End UpdateCases.

(** ** Payloads the decoder refuses *)

Section Malformed.

Context {E : Type}.
Implicit Types (w : World E) (r : Redis) (d : dict) (f : @handler E).

Lemma consume_turn_malformed w r queue_name f l init doc why :
  redis_client w = Some r ->
  lists r !! queue_name = Some l ->
  unsnoc l = Some (init, Malformed doc why) ->
  consume_turn queue_name f w = (Returns tt, dropped queue_name why r w).
Proof.
  intros Hc Hl Hu. unfold consume_turn, try_except. unfold bind at 1.
  by rewrite (consume_message_malformed _ _ _ _ _ _ _ Hc Hl Hu).
Qed.

Lemma strings_brpop queue_name t r :
  strings (snd (brpop queue_name t r)) = strings r.
Proof.
  unfold brpop. destruct (lists r !! queue_name) as [l|]; [|done].
  by destruct (unsnoc l) as [[init v]|].
Qed.

Lemma lists_brpop queue_name t r l init v :
  lists r !! queue_name = Some l ->
  unsnoc l = Some (init, v) ->
  lists (snd (brpop queue_name t r)) !! queue_name
  = match init with [] => None | _ :: _ => Some init end.
Proof.
  intros Hl Hu. unfold brpop. rewrite Hl, Hu. simpl.
  destruct init; [apply lookup_delete_eq | apply lookup_insert_eq].
Qed.

(** Dropping a payload writes no record. *)
Lemma observed_dropped w r queue_name why job_id :
  redis_client w = Some r ->
  observed job_id (dropped queue_name why r w) = observed job_id w.
Proof.
  intros Hc.
  rewrite (observed_connected w r) by done.
  rewrite (observed_connected _ (snd (brpop queue_name 5 r))) by done.
  by rewrite strings_brpop.
Qed.

(** The loop goes on to its next turn. *)
Lemma _consume_queue_step n queue_name f w w' :
  running w = true ->
  consume_turn queue_name f w = (Returns tt, w') ->
  _consume_queue (S n) queue_name f w = _consume_queue n queue_name f w'.
Proof.
  intros Hr Ht. simpl. rewrite Hr. unfold bind. by rewrite Ht.
Qed.

End Malformed.

(** ** Fields of the merged record *)

Section Fields.

Context {E : Type}.
Implicit Types (w : World E) (r : Redis) (d : dict).

Lemma merged_get_result_falsy status result error_message now d :
  truthy result = false ->
  dict_get "result" (merged status result error_message now d)
  = dict_get "result" d.
Proof.
  intros Hr. unfold merged. rewrite Hr.
  destruct (truthy error_message), (is_terminal status);
    by rewrite ?dict_get_set_ne.
Qed.

Lemma merged_get_error_falsy status result error_message now d :
  truthy error_message = false ->
  dict_get "errorMessage" (merged status result error_message now d)
  = dict_get "errorMessage" d.
Proof.
  intros He. unfold merged. rewrite He.
  destruct (truthy result), (is_terminal status);
    by rewrite ?dict_get_set_ne.
Qed.

(** The merge removes no field. *)
Lemma merged_keeps k status result error_message now d :
  dict_get k d <> None ->
  dict_get k (merged status result error_message now d) <> None.
Proof.
  intros H. unfold merged.
  destruct (truthy result), (truthy error_message), (is_terminal status);
    repeat apply dict_set_keeps; done.
Qed.

Lemma merged_get_completed_at status result error_message now d :
  dict_get "completedAt" (merged status result error_message now d)
  = if is_terminal status then Some (JStr now) else dict_get "completedAt" d.
Proof.
  unfold merged. destruct (is_terminal status); [apply dict_get_set_eq|].
  destruct (truthy result), (truthy error_message);
    by rewrite ?dict_get_set_ne.
Qed.

(** A field of the record an update starts from is the field a poller
    sees, the two fields of a fresh record apart. *)
Lemma observed_field_stored k w r job_id d :
  redis_client w = Some r ->
  stored_record job_id r = Returns (JObj d) ->
  k <> "jobId" -> k <> "status" ->
  observed_field k job_id w = dict_get k d.
Proof.
  intros Hc Hs Hk1 Hk2. unfold observed_field.
  rewrite (observed_connected w r) by done.
  unfold stored_record in Hs.
  apply String.eqb_neq in Hk1, Hk2.
  destruct (strings r !! result_key job_id) as [[text ttl]|].
  - destruct (wire_truthy text).
    + destruct (json_loads text) as [v|e]; [|done]. by injection Hs as ->.
    + injection Hs as <-. simpl. by rewrite Hk1, Hk2.
  - injection Hs as <-. simpl. by rewrite Hk1, Hk2.
Qed.

Lemma observed_field_once k w r job_id status result error_message d :
  redis_client w = Some r ->
  stored_record job_id r = Returns (JObj d) ->
  observed_field k job_id (once job_id status result error_message w)
  = dict_get k (merged status result error_message (utcnow w (clock_reads w)) d).
Proof.
  intros Hc Hs. rewrite (once_ok _ _ _ _ _ _ _ Hc Hs).
  unfold observed_field. by rewrite observed_updated.
Qed.

(** An update to a status that is not terminal leaves [completedAt] alone. *)
Lemma completed_at_kept w job_id status result error_message :
  is_terminal status = false ->
  observed_field "completedAt" job_id (once job_id status result error_message w)
  = observed_field "completedAt" job_id w.
Proof.
  intros Ht.
  destruct (update_cases w job_id status result error_message)
    as [r d Hc Hs Ho | Hk Hk'].
  - rewrite (observed_field_once _ _ _ _ _ _ _ _ Hc Hs).
    rewrite merged_get_completed_at, Ht.
    symmetry. by apply (observed_field_stored _ _ r).
  - by apply observed_field_client.
Qed.

(** A terminal update stamps [completedAt] with its own clock reading. *)
Lemma completed_at_stamped w r job_id status result error_message d :
  redis_client w = Some r ->
  stored_record job_id r = Returns (JObj d) ->
  is_terminal status = true ->
  observed_field "completedAt" job_id (once job_id status result error_message w)
  = Some (JStr (utcnow w (clock_reads w))).
Proof.
  intros Hc Hs Ht.
  rewrite (observed_field_once _ _ _ _ _ _ _ _ Hc Hs).
  by rewrite merged_get_completed_at, Ht.
Qed.

End Fields.

(** ** Sequences of updates *)

Section Sequences.

Context {E : Type}.
Implicit Types (w : World E) (r : Redis) (d : dict) (c : call).

Lemma plain_keeps_bare c now d :
  plain c = true -> bare d ->
  bare (merged (call_status c) (call_result c) (call_error c) now d).
Proof.
  unfold plain. intros [Hr He]%andb_prop [Hdr Hde].
  apply negb_true_iff in Hr, He. split.
  - by rewrite merged_get_result_falsy.
  - by rewrite merged_get_error_falsy.
Qed.

Lemma closing_shapes c now d :
  closing c = true -> bare d ->
  result_only_when_completed
    (merged (call_status c) (call_result c) (call_error c) now d)
  /\ error_only_when_failed
       (merged (call_status c) (call_result c) (call_error c) now d).
Proof.
  unfold closing. intros [Hr He]%andb_prop [Hdr Hde].
  unfold result_only_when_completed, error_only_when_failed.
  rewrite !merged_get_status. split.
  - destruct (truthy (call_result c)) eqn:Ht.
    + simpl in Hr. apply String.eqb_eq in Hr. by rewrite Hr.
    + by rewrite merged_get_result_falsy.
  - destruct (truthy (call_error c)) eqn:Ht.
    + simpl in He. apply String.eqb_eq in He. by rewrite He.
    + by rewrite merged_get_error_falsy.
Qed.

Lemma plain_closing c : plain c = true -> closing c = true.
Proof.
  unfold plain, closing. intros [Hr He]%andb_prop.
  apply negb_true_iff in Hr, He. by rewrite Hr, He.
Qed.

Lemma disciplined_prefix (calls rest : list call) :
  calls <> [] -> disciplined (calls ++ rest)%list = true -> disciplined calls = true.
Proof.
  induction calls as [|c calls IH]; [done|]. intros _.
  destruct calls as [|c' calls].
  - simpl. destruct rest; [done|]. intros [Hp _]%andb_prop. by apply plain_closing.
  - change (((c :: c' :: calls) ++ rest)%list)
      with (c :: ((c' :: calls) ++ rest)%list).
    change (disciplined (c :: ((c' :: calls) ++ rest)%list))
      with (plain c && disciplined ((c' :: calls) ++ rest)%list).
    change (disciplined (c :: c' :: calls))
      with (plain c && disciplined (c' :: calls)).
    intros [Hp Hd]%andb_prop. rewrite Hp. simpl andb. by apply IH.
Qed.

(** The record after a disciplined, non-empty sequence of updates of a job
    whose stored record was bare. *)
Lemma after_calls_shaped (calls : list call) w r job_id d :
  redis_client w = Some r ->
  stored_record job_id r = Returns (JObj d) ->
  bare d ->
  calls <> [] ->
  disciplined calls = true ->
  exists d', observed job_id (after_calls job_id calls w) = Returns (Some (JObj d'))
             /\ result_only_when_completed d' /\ error_only_when_failed d'.
Proof.
  revert w r d. induction calls as [|c calls IH]; [done|].
  intros w r d Hc Hs Hb _ Hd.
  change (after_calls job_id (c :: calls) w)
    with (after_calls job_id calls
            (once job_id (call_status c) (call_result c) (call_error c) w)).
  rewrite (once_ok _ _ _ _ _ _ _ Hc Hs).
  destruct calls as [|c' calls].
  - unfold after_calls. simpl fold_left. rewrite observed_updated.
    eexists. split; [done|]. by apply closing_shapes.
  - change (disciplined (c :: c' :: calls))
      with (plain c && disciplined (c' :: calls)) in Hd.
    apply andb_prop in Hd as [Hp Hd].
    eapply IH; [reflexivity | by eapply stored_record_updated
               | by apply plain_keeps_bare | done | done].
Qed.

Lemma fresh_record_bare job_id r :
  strings r !! result_key job_id = None ->
  stored_record job_id r = Returns (new_job_result job_id)
  /\ bare [("jobId", job_id); ("status", JStr "pending")].
Proof. intros H. unfold stored_record. by rewrite H. Qed.

End Sequences.

(** ** Enqueuing, and the order of consumption *)

Section Fifo.

Context {E : Type}.
Implicit Types (w : World E) (r : Redis) (d : dict) (f : @handler E).

Lemma publish_message_connected w r queue_name message :
  redis_client w = Some r ->
  publish_message queue_name message w
  = (Returns tt, enqueued queue_name message r w).
Proof.
  intros Hc.
  unfold publish_message, bind, try_except, require_client, redis_call.
  rewrite Hc. simpl. rewrite Hc. reflexivity.
Qed.

Lemma publish_message_disconnected w queue_name message :
  redis_client w = None ->
  publish_message queue_name message w
  = (Raises (RuntimeError "Redis client not connected"), w).
Proof.
  intros Hc. unfold publish_message, bind, require_client. by rewrite Hc.
Qed.

(** Popping [length l] times from a list [l] yields it from its tail on. *)
Lemma drain_all queue_name (l : list wire) r :
  lists r !! queue_name = Some l ->
  drain (length l) queue_name r = rev l.
Proof.
  revert r. induction l as [|x init IH] using rev_ind; intros r Hl; [done|].
  rewrite length_app, Nat.add_comm, rev_app_distr. simpl.
  unfold brpop. rewrite Hl, unsnoc_snoc. f_equal.
  destruct init as [|y init]; [done|].
  apply IH. simpl. apply lookup_insert_eq.
Qed.

Lemma stored_record_insert job_id job_id' x ttl ls ss ps :
  stored_record job_id'
    (mkRedis ls (<[result_key job_id := (Json (JObj x), ttl)]> ss) ps)
  = if decide (result_key job_id' = result_key job_id)
    then Returns (JObj x)
    else stored_record job_id' (mkRedis ls ss ps).
Proof.
  unfold stored_record. simpl. case_decide as Hk.
  - by rewrite Hk, lookup_insert_eq.
  - by rewrite lookup_insert_ne.
Qed.

(** What a turn that processes a job leaves behind. *)
Lemma processed_facts w r queue_name f message job_id d :
  redis_client w = Some r ->
  stored_record job_id r = Returns (JObj d) ->
  exists r',
    redis_client (processed queue_name f message job_id r w) = Some r'
    /\ lists r' = lists (snd (brpop queue_name 5 r))
    /\ running (processed queue_name f message job_id r w) = running w
    /\ ext (processed queue_name f message job_id r w) = snd (f message (ext w))
    /\ log (processed queue_name f message job_id r w)
       = (log w ++
          [(INFO, "Message consumed from queue " +:+ queue_name);
           (INFO, "Job " +:+ py_str job_id +:+ " status updated to processing")]
          ++ outcome_log f message job_id (ext w))%list
    /\ (forall job_id' d',
          stored_record job_id' r = Returns (JObj d') ->
          exists d'', stored_record job_id' r' = Returns (JObj d'')).
Proof.
  intros Hc Hs. unfold processed, outcome_log.
  set (wc := consumed queue_name r w).
  assert (Hcc : redis_client wc = Some (snd (brpop queue_name 5 r))) by done.
  assert (Hsc : stored_record job_id (snd (brpop queue_name 5 r)) = Returns (JObj d))
    by by rewrite stored_record_brpop.
  rewrite (once_ok _ _ _ _ _ _ _ Hcc Hsc).
  set (wp := updated job_id "processing" JNull JNull d _ wc).
  assert (Hkeep : forall x ttl x' ttl' job_id' d',
    stored_record job_id' r = Returns (JObj d') ->
    exists d'',
      stored_record job_id'
        (mkRedis (lists (snd (brpop queue_name 5 r)))
           (<[result_key job_id := (Json (JObj x), ttl)]>
              (<[result_key job_id := (Json (JObj x'), ttl')]>
                 (strings (snd (brpop queue_name 5 r)))))
           (published (snd (brpop queue_name 5 r))))
      = Returns (JObj d'')).
  { intros x ttl x' ttl' job_id' d' Hd'. rewrite stored_record_insert.
    case_decide; [by eexists|]. rewrite stored_record_insert.
    case_decide; [done|]. exists d'.
    rewrite <- Hd', <- (stored_record_brpop job_id' queue_name 5 r).
    by destruct (snd (brpop queue_name 5 r)). }
  destruct (f message (ext w)) as [[result|e] e'] eqn:Hf; simpl fst; simpl snd.
  - destruct (redis_client (with_ext e' wp)) as [rp|] eqn:Hcp; [|done].
    pose proof (stored_record_updated _ _ _ _ _ _ _ _ Hcp) as Hsp.
    rewrite (once_ok _ _ _ _ _ _ _ Hcp Hsp). injection Hcp as <-.
    eexists. split; [reflexivity|]. split; [done|]. split; [done|].
    split; [done|]. split.
    { simpl. by rewrite <- !app_assoc. }
    apply Hkeep.
  - match goal with
    | |- context [once _ _ _ _ ?w1] =>
        destruct (redis_client w1) as [rp|] eqn:Hcp; [|done]
    end.
    pose proof (stored_record_updated _ _ _ _ _ _ _ _ Hcp) as Hsp.
    rewrite (once_ok _ _ _ _ _ _ _ Hcp Hsp). injection Hcp as <-.
    eexists. split; [reflexivity|]. split; [done|]. split; [done|].
    split; [done|]. split.
    { simpl. by rewrite <- !app_assoc. }
    apply Hkeep.
Qed.

End Fifo.

(** ** The record a processed job ends with *)

Section Outcomes.

Context {E : Type}.
Implicit Types (w : World E) (r : Redis) (d : dict) (f : @handler E).

Lemma merged_fresh job_id status result error_message now :
  merged status result error_message now
    [("jobId", job_id); ("status", JStr "pending")]
  = ([("jobId", job_id); ("status", JStr status)]
     ++ (if truthy result then [("result", result)] else [])
     ++ (if truthy error_message then [("errorMessage", error_message)] else [])
     ++ (if is_terminal status then [("completedAt", JStr now)] else []))%list.
Proof.
  unfold merged.
  by destruct (truthy result), (truthy error_message), (is_terminal status).
Qed.

Lemma processed_record w r queue_name f message job_id d :
  redis_client w = Some r ->
  stored_record job_id r = Returns (JObj d) ->
  observed job_id (processed queue_name f message job_id r w)
  = Returns (Some (JObj
      (match fst (f message (ext w)) with
       | Returns result =>
           merged "completed" result JNull (utcnow w (clock_reads w))
             (merged "processing" JNull JNull (utcnow w (clock_reads w)) d)
       | Raises e =>
           merged "failed" JNull (JStr (exn_str e)) (utcnow w (clock_reads w))
             (merged "processing" JNull JNull (utcnow w (clock_reads w)) d)
       end))).
Proof.
  intros Hc Hs. unfold processed.
  set (wc := consumed queue_name r w).
  assert (Hcc : redis_client wc = Some (snd (brpop queue_name 5 r))) by done.
  assert (Hsc : stored_record job_id (snd (brpop queue_name 5 r)) = Returns (JObj d))
    by by rewrite stored_record_brpop.
  rewrite (once_ok _ _ _ _ _ _ _ Hcc Hsc).
  destruct (f message (ext w)) as [[result|e] e'] eqn:Hf; simpl fst.
  - match goal with
    | |- context [once _ _ _ _ ?w1] =>
        destruct (redis_client w1) as [rp|] eqn:Hcp; [|done]
    end.
    pose proof (stored_record_updated _ _ _ _ _ _ _ _ Hcp) as Hsp.
    rewrite (once_ok _ _ _ _ _ _ _ Hcp Hsp). by rewrite observed_updated.
  - match goal with
    | |- context [once _ _ _ _ ?w1] =>
        destruct (redis_client w1) as [rp|] eqn:Hcp; [|done]
    end.
    pose proof (stored_record_updated _ _ _ _ _ _ _ _ Hcp) as Hsp.
    rewrite (once_ok _ _ _ _ _ _ _ Hcp Hsp). by rewrite observed_updated.
Qed.

Lemma processed_running w r queue_name f message job_id d :
  redis_client w = Some r ->
  stored_record job_id r = Returns (JObj d) ->
  running (processed queue_name f message job_id r w) = running w.
Proof.
  intros Hc Hs.
  by destruct (processed_facts w r queue_name f message job_id d Hc Hs)
    as (r' & _ & _ & Hrun & _).
Qed.

(** A turn on a dict without a truthy id stops after the dequeue. *)
Lemma consume_turn_no_id w w' queue_name f fields :
  consume_message queue_name 5 w = (Returns (Some (JObj fields)), w') ->
  truthy (default JNull (dict_get "id" fields)) = false ->
  consume_turn queue_name f w = (Returns tt, w').
Proof.
  intros Hm Hid. unfold consume_turn, try_except. unfold bind at 1. rewrite Hm.
  destruct (truthy (JObj fields)); [|done].
  unfold bind, lift, getitem_or_none. by rewrite Hid.
Qed.

Lemma observed_consumed w r queue_name job_id :
  redis_client w = Some r ->
  observed job_id (consumed queue_name r w) = observed job_id w.
Proof.
  intros Hc.
  rewrite (observed_connected w r) by done.
  rewrite (observed_connected _ (snd (brpop queue_name 5 r))) by done.
  by rewrite strings_brpop.
Qed.

End Outcomes.

(** ** Idle turns, payloads that are not dicts, and the stopped loop *)

Section Boundaries.

Context {E : Type}.
Implicit Types (w : World E) (r : Redis) (d : dict) (f : @handler E).

(** Nothing queued: the turn changes nothing. *)
Lemma consume_turn_idle w r queue_name f :
  redis_client w = Some r ->
  unsnoc (default [] (lists r !! queue_name)) = None ->
  consume_turn queue_name f w = (Returns tt, w).
Proof.
  intros Hc Hl. unfold consume_turn, try_except. unfold bind at 1.
  by rewrite (consume_message_nothing _ _ _ Hc Hl).
Qed.

(** A truthy payload that is not a dict has no [get]: the loop logs the
    [AttributeError] and pauses. *)
Lemma consume_turn_not_a_dict w r queue_name f l init message :
  redis_client w = Some r ->
  lists r !! queue_name = Some l ->
  unsnoc l = Some (init, Json message) ->
  truthy message = true ->
  (forall fields, message <> JObj fields) ->
  consume_turn queue_name f w
  = (Returns tt,
     snd (sleep 5
            (logged ERROR
               ("Error consuming from queue " +:+ queue_name +:+ ": "
                +:+ "'" +:+ py_type_name message
                +:+ "' object has no attribute 'get'")
               (consumed queue_name r w)))).
Proof.
  intros Hc Hl Hu Ht Hnd. unfold consume_turn, try_except. unfold bind at 1.
  rewrite (consume_message_json _ _ _ _ _ _ Hc Hl Hu), Ht.
  destruct message; try done. by destruct (Hnd fields).
Qed.

(** Once [stop] has been called the loop ends at its next test. *)
Lemma _consume_queue_stopped n queue_name f w :
  running w = false ->
  _consume_queue n queue_name f w = (Returns tt, w).
Proof. intros Hr. destruct n; simpl; [done|]. by rewrite Hr. Qed.

Lemma stop_stops w : running (snd (stop w)) = false.
Proof. done. Qed.

End Boundaries.

(** ** The scenarios of the specification *)

Example scenario_completed :
  observed (JStr "job-1")
    (snd (_consume_queue 1 "analytics:data_processing"
            (returning (JObj [("success", JBool true); ("processedRows", JInt 950)]))
            (snd (publish_message "analytics:data_processing"
                    (JObj [("id", JStr "job-1");
                           ("parameters", JObj [("op", JStr "clean")])])
                    sample_world))))
  = Returns (Some (JObj
      [("jobId", JStr "job-1"); ("status", JStr "completed");
       ("result", JObj [("success", JBool true); ("processedRows", JInt 950)]);
       ("completedAt", JStr "2024-01-16T10:00:00")])).
Proof. vm_compute. reflexivity. Qed.

Example scenario_failed :
  observed (JStr "job-2")
    (snd (_consume_queue 1 "analytics:prediction"
            (raising (HandlerError "model not found"))
            (snd (publish_message "analytics:prediction"
                    (JObj [("id", JStr "job-2")]) sample_world))))
  = Returns (Some (JObj
      [("jobId", JStr "job-2"); ("status", JStr "failed");
       ("errorMessage", JStr "model not found");
       ("completedAt", JStr "2024-01-16T10:00:00")])).
Proof. vm_compute. reflexivity. Qed.

Example scenario_not_found :
  observed (JStr "nonexistent") sample_world = Returns None.
Proof. vm_compute. reflexivity. Qed.

(** ** Every turn pops the queue *)

Section Turns.

Context {E : Type}.
Implicit Types (w : World E) (r : Redis) (d : dict) (f : @handler E).

(** A falsy payload ([{}], [[]], [0], [null], ...) is skipped. *)
Lemma consume_turn_falsy w r queue_name f l init message :
  redis_client w = Some r ->
  lists r !! queue_name = Some l ->
  unsnoc l = Some (init, Json message) ->
  truthy message = false ->
  consume_turn queue_name f w = (Returns tt, consumed queue_name r w).
Proof.
  intros Hc Hl Hu Ht. unfold consume_turn, try_except. unfold bind at 1.
  by rewrite (consume_message_json _ _ _ _ _ _ Hc Hl Hu), Ht.
Qed.

(** The update to [processing] raises: the loop logs it and pauses. *)
Lemma consume_turn_update_raises w r queue_name f l init fields job_id e :
  redis_client w = Some r ->
  lists r !! queue_name = Some l ->
  unsnoc l = Some (init, Json (JObj fields)) ->
  dict_get "id" fields = Some job_id ->
  truthy job_id = true ->
  match stored_record job_id r with
  | Returns v => setitem "status" (JStr "processing") v = Raises e
  | Raises e' => e' = e
  end ->
  consume_turn queue_name f w
  = (Returns tt,
     snd (sleep 5
            (logged ERROR
               ("Error consuming from queue " +:+ queue_name +:+ ": " +:+ exn_str e)
               (update_failed job_id e (consumed queue_name r w))))).
Proof.
  intros Hc Hl Hu Hid Ht Hs.
  unfold consume_turn, try_except. unfold bind at 1.
  rewrite (consume_message_json _ _ _ _ _ _ Hc Hl Hu).
  rewrite (truthy_with_field _ _ _ Hid).
  unfold getitem_or_none. rewrite Hid. simpl default.
  unfold bind at 1. unfold lift at 1. rewrite Ht.
  assert (Hcc : redis_client (consumed queue_name r w)
                = Some (snd (brpop queue_name 5 r))) by done.
  unfold bind at 1.
  erewrite update_job_status_raises; [done | exact Hcc |].
  by rewrite stored_record_brpop.
Qed.

Lemma stored_record_same_strings job_id r r' :
  strings r' = strings r -> stored_record job_id r' = stored_record job_id r.
Proof. intros H. unfold stored_record. by rewrite H. Qed.

(** A world whose server differs from [r] by the pop satisfies
    [turn_effect]. *)
Lemma turn_effect_popped queue_name w w' r :
  redis_client w = Some r ->
  redis_client w' = Some (snd (brpop queue_name 5 r)) ->
  running w' = running w ->
  turn_effect queue_name w w'.
Proof.
  intros Hc Hc' Hr. exists r, (snd (brpop queue_name 5 r)).
  repeat split; try done.
  intros job_id d Hs. exists d. by rewrite stored_record_brpop.
Qed.

Lemma brpop_nothing queue_name r :
  fst (brpop queue_name 5 r) = None -> snd (brpop queue_name 5 r) = r.
Proof.
  unfold brpop. destruct (lists r !! queue_name) as [l|]; [|done].
  by destruct (unsnoc l) as [[init v]|].
Qed.

Lemma consume_turn_effect w r queue_name f :
  redis_client w = Some r ->
  exists w', consume_turn queue_name f w = (Returns tt, w')
             /\ turn_effect queue_name w w'.
Proof.
  intros Hc.
  destruct (unsnoc (default [] (lists r !! queue_name))) as [[init v]|] eqn:Hu;
    cycle 1.
  { exists w. split; [by eapply consume_turn_idle|].
    apply (turn_effect_popped _ _ _ r); try done.
    rewrite Hc. f_equal. symmetry. apply brpop_nothing. unfold brpop.
    destruct (lists r !! queue_name) as [l|]; [|done]. simpl in Hu. by rewrite Hu. }
  destruct (lists r !! queue_name) as [l|] eqn:Hl; [|done]. simpl in Hu.
  destruct v as [message|doc why].
  2: { eexists. split; [by eapply consume_turn_malformed|].
       by apply (turn_effect_popped _ _ _ r). }
  destruct (truthy message) eqn:Htm; cycle 1.
  { eexists. split; [by eapply consume_turn_falsy|].
    by apply (turn_effect_popped _ _ _ r). }
  assert (Hdict : (exists fields, message = JObj fields)
                  \/ (forall fields, message <> JObj fields)).
  { destruct message; try (right; intros; discriminate). left. by eexists. }
  destruct Hdict as [[fields ->]|Hnd]; cycle 1.
  { eexists. split; [by eapply consume_turn_not_a_dict|].
    by apply (turn_effect_popped _ _ _ r). }
  destruct (dict_get "id" fields) as [job_id|] eqn:Hid; cycle 1.
  { eexists. split.
    - eapply consume_turn_no_id; [by eapply consume_message_json|]. by rewrite Hid.
    - by apply (turn_effect_popped _ _ _ r). }
  destruct (truthy job_id) eqn:Htj; cycle 1.
  { eexists. split.
    - eapply consume_turn_no_id; [by eapply consume_message_json|]. by rewrite Hid.
    - by apply (turn_effect_popped _ _ _ r). }
  destruct (stored_record_cases job_id "processing" r) as [[d Hs]|[e He]].
  - eexists. split; [by eapply consume_turn_job|].
    destruct (processed_facts w r queue_name f (JObj fields) job_id d Hc Hs)
      as (r' & Hc' & Hl' & Hrun' & _ & _ & Hkeep).
    by exists r, r'.
  - eexists. split; [by eapply consume_turn_update_raises|].
    by apply (turn_effect_popped _ _ _ r).
Qed.

(** The loop itself never raises. *)
Lemma _consume_queue_returns n queue_name f w :
  fst (_consume_queue n queue_name f w) = Returns tt.
Proof.
  revert w. induction n as [|n IH]; intros w; simpl; [done|].
  destruct (running w); [|done]. unfold bind.
  pose proof (consume_turn_returns queue_name f w) as Ht.
  destruct (consume_turn queue_name f w) as [[[]|e] w']; [|done]. apply IH.
Qed.

(** [n + m] turns are [n] turns and then [m]. *)
Lemma _consume_queue_add n m queue_name f w :
  snd (_consume_queue (n + m) queue_name f w)
  = snd (_consume_queue m queue_name f (snd (_consume_queue n queue_name f w))).
Proof.
  revert w. induction n as [|n IH]; intros w; simpl; [done|].
  destruct (running w) eqn:Hr.
  - unfold bind.
    pose proof (consume_turn_returns queue_name f w) as Ht.
    destruct (consume_turn queue_name f w) as [[[]|e] w']; [|done]. apply IH.
  - simpl. by rewrite _consume_queue_stopped.
Qed.

(** Turns on a queue holding [keep ++ old] first consume [old], from its
    tail on. *)
Lemma _consume_queue_old (old keep : list wire) queue_name f w r :
  keep <> [] ->
  running w = true ->
  redis_client w = Some r ->
  lists r !! queue_name = Some (keep ++ old)%list ->
  exists r',
    redis_client (snd (_consume_queue (length old) queue_name f w)) = Some r'
    /\ lists r' !! queue_name = Some keep
    /\ running (snd (_consume_queue (length old) queue_name f w)) = true
    /\ (forall job_id d,
          stored_record job_id r = Returns (JObj d) ->
          exists d', stored_record job_id r' = Returns (JObj d')).
Proof.
  intros Hkeep. revert w r.
  induction old as [|x old IH] using rev_ind; intros w r Hrun Hc Hl.
  { exists r. rewrite app_nil_r in Hl. simpl. repeat split; eauto. }
  rewrite length_app, Nat.add_comm. simpl length. simpl Nat.add.
  destruct (consume_turn_effect w r queue_name f Hc)
    as (w1 & Hturn & r0 & r1 & Hc0 & Hc1 & Hl1 & Hrun1 & Hkeep1).
  rewrite Hc in Hc0. injection Hc0 as <-.
  rewrite (_consume_queue_step _ _ _ _ _ Hrun Hturn).
  assert (Hq1 : lists r1 !! queue_name = Some (keep ++ old)%list).
  { rewrite Hl1. rewrite app_assoc in Hl.
    rewrite (lists_brpop _ _ _ _ _ _ Hl (unsnoc_snoc _ _)).
    destruct (keep ++ old)%list eqn:Hko; [|done].
    apply app_eq_nil in Hko as [-> _]. done. }
  destruct (IH w1 r1 (eq_trans Hrun1 Hrun) Hc1 Hq1)
    as (r' & Hc' & Hl' & Hrun' & Hkeep').
  exists r'. repeat split; try done.
  intros job_id d Hs. destruct (Hkeep1 job_id d Hs) as [d1 Hs1]. eauto.
Qed.

End Turns.

(** * The claims *)

(** C1, as the code has it.  Retrying [update_job_status] with the same
    arguments yields the record of a single update made at the retry's clock
    reading; it agrees with the record of the first update on every field
    other than [completedAt], and is that very record when the status is
    neither [completed] nor [failed]. *)
Theorem update_job_status_retry {E} (w : World E) job_id status result error_message :
  observed job_id (twice job_id status result error_message w)
  = observed job_id (once job_id status result error_message (later w))
  /\ (forall k, k <> "completedAt" ->
        observed_field k job_id (twice job_id status result error_message w)
        = observed_field k job_id (once job_id status result error_message w))
  /\ (is_terminal status = false ->
        observed job_id (twice job_id status result error_message w)
        = observed job_id (once job_id status result error_message w)).
Proof.
  unfold twice.
  destruct (update_cases w job_id status result error_message)
    as [r d Hc Hs Ho | Hk Hk'].
  - rewrite Ho.
    set (w1 := updated job_id status result error_message d r w).
    destruct (redis_client w1) as [r1|] eqn:Hc1; [|done].
    pose proof (stored_record_updated _ _ _ _ _ _ _ _ Hc1) as Hs1.
    rewrite (once_ok _ _ _ _ _ _ _ Hc1 Hs1).
    assert (Hcl : redis_client (later w) = Some r) by done.
    rewrite (once_ok _ _ _ _ _ _ _ Hcl Hs).
    subst w1. unfold observed_field. rewrite !observed_updated.
    rewrite merged_absorb. simpl.
    split; [|split].
    + destruct (is_terminal status) eqn:Ht; [done|].
      by rewrite (merged_not_terminal status result error_message
                    (utcnow w (clock_reads w)) (utcnow w (S (clock_reads w))) d Ht).
    + intros k Hk. by apply merged_get_other.
    + intros Ht. by rewrite Ht.
  - assert (H2 : redis_client (once job_id status result error_message
                                 (once job_id status result error_message w))
                 = redis_client w) by by apply Hk'.
    assert (H3 : redis_client (once job_id status result error_message (later w))
                 = redis_client w) by by apply Hk'.
    split; [|split].
    + apply observed_client. by rewrite H2, H3.
    + intros k _. apply observed_field_client. by rewrite H2, Hk.
    + intros _. apply observed_client. by rewrite H2, Hk.
Qed.

Lemma update_job_status_retry_witness :
  is_terminal "processing" = false
  /\ observed (JStr "job-1") (twice (JStr "job-1") "processing" JNull JNull sample_world)
     = observed (JStr "job-1") (once (JStr "job-1") "processing" JNull JNull sample_world)
  /\ observed_field "status" (JStr "job-1")
       (twice (JStr "job-1") "processing" JNull JNull sample_world)
     = observed_field "status" (JStr "job-1")
         (once (JStr "job-1") "processing" JNull JNull sample_world).
Proof.
  destruct (update_job_status_retry sample_world (JStr "job-1") "processing"
              JNull JNull) as (_ & Hfield & Hsame).
  split; [reflexivity|]. split; [apply Hsame; reflexivity | apply Hfield; discriminate].
Defined.

(** C1, as stated, fails: a retried [completed] update does not leave the
    record of the first one, [completedAt] has moved. *)
Lemma update_job_status_not_idempotent :
  observed (JStr "job-1")
    (twice (JStr "job-1") "completed" (JObj [("processedRows", JInt 950)]) JNull
           sample_world)
  <> observed (JStr "job-1")
       (once (JStr "job-1") "completed" (JObj [("processedRows", JInt 950)]) JNull
             sample_world).
Proof. vm_compute. discriminate. Qed.

(** C2, as the code has it.  When the dequeued payload does not decode, the
    turn logs the failure (in [consume_message] and again in the loop),
    writes no Job Record, since no job id is known, pauses five seconds,
    and the loop goes on consuming from the same queue; the payload is gone
    from the queue and the handler is not called. *)
Theorem malformed_payload_dropped {E} (w : World E) r queue_name (f : handler)
    l init doc why :
  redis_client w = Some r ->
  lists r !! queue_name = Some l ->
  unsnoc l = Some (init, Malformed doc why) ->
  fst (consume_turn queue_name f w) = Returns tt
  /\ log (snd (consume_turn queue_name f w))
     = (log w ++
        [(ERROR, "Error consuming message from queue " +:+ queue_name
                 +:+ ": " +:+ why);
         (ERROR, "Error consuming from queue " +:+ queue_name
                 +:+ ": " +:+ why)])%list
  /\ (forall job_id,
        observed job_id (snd (consume_turn queue_name f w)) = observed job_id w)
  /\ slept (snd (consume_turn queue_name f w)) = slept w + 5
  /\ ext (snd (consume_turn queue_name f w)) = ext w
  /\ (exists r',
        redis_client (snd (consume_turn queue_name f w)) = Some r'
        /\ strings r' = strings r
        /\ lists r' !! queue_name
           = match init with [] => None | _ :: _ => Some init end)
  /\ (running w = true ->
      running (snd (consume_turn queue_name f w)) = true
      /\ forall n,
           _consume_queue (S n) queue_name f w
           = _consume_queue n queue_name f (snd (consume_turn queue_name f w))).
Proof.
  intros Hc Hl Hu.
  pose proof (consume_turn_malformed _ _ _ f _ _ _ _ Hc Hl Hu) as Ht.
  rewrite Ht. simpl fst. simpl snd.
  split; [done|]. split.
  { unfold dropped, logged. simpl. by rewrite <- app_assoc. }
  split; [intros job_id; by apply observed_dropped|].
  split; [done|]. split; [done|]. split.
  { eexists. split; [reflexivity|]. split; [apply strings_brpop|].
    by eapply lists_brpop. }
  intros Hr. split; [done|]. intros n. by apply _consume_queue_step.
Qed.

Lemma malformed_payload_dropped_witness :
  redis_client
    (queue_holding "analytics:prediction"
       [Json (JObj [("id", JStr "job-8")]);
        Malformed "{id: job-7" "Expecting property name"])
  = Some (mkRedis {[ "analytics:prediction" :=
                     [Json (JObj [("id", JStr "job-8")]);
                      Malformed "{id: job-7" "Expecting property name"] ]} ∅ [])
  /\ unsnoc [Json (JObj [("id", JStr "job-8")]);
             Malformed "{id: job-7" "Expecting property name"]
     = Some ([Json (JObj [("id", JStr "job-8")])],
             Malformed "{id: job-7" "Expecting property name")
  /\ fst (consume_turn "analytics:prediction" (returning JNull)
            (queue_holding "analytics:prediction"
               [Json (JObj [("id", JStr "job-8")]);
                Malformed "{id: job-7" "Expecting property name"]))
     = Returns tt
  /\ observed (JStr "job-7")
       (snd (consume_turn "analytics:prediction" (returning JNull)
               (queue_holding "analytics:prediction"
                  [Json (JObj [("id", JStr "job-8")]);
                   Malformed "{id: job-7" "Expecting property name"])))
     = observed (JStr "job-7")
         (queue_holding "analytics:prediction"
            [Json (JObj [("id", JStr "job-8")]);
             Malformed "{id: job-7" "Expecting property name"]).
Proof.
  split; [reflexivity|]. split; [reflexivity|].
  destruct (malformed_payload_dropped
              (queue_holding "analytics:prediction"
                 [Json (JObj [("id", JStr "job-8")]);
                  Malformed "{id: job-7" "Expecting property name"])
              (mkRedis {[ "analytics:prediction" :=
                          [Json (JObj [("id", JStr "job-8")]);
                           Malformed "{id: job-7" "Expecting property name"] ]} ∅ [])
              "analytics:prediction" (returning JNull)
              [Json (JObj [("id", JStr "job-8")]);
               Malformed "{id: job-7" "Expecting property name"]
              [Json (JObj [("id", JStr "job-8")])]
              "{id: job-7" "Expecting property name")
    as (Hret & _ & Hobs & _);
    [reflexivity | vm_compute; reflexivity | reflexivity |].
  split; [exact Hret | exact (Hobs (JStr "job-7"))].
Defined.

(** C2, as stated, fails: after the turn that met a malformed payload, no
    job has a [failed] record. *)
Lemma malformed_payload_no_failed_record :
  ~ exists job_id d,
      observed job_id
        (snd (consume_turn "analytics:prediction" (returning JNull)
                (queue_holding "analytics:prediction"
                   [Malformed "{id: job-7" "Expecting property name"])))
      = Returns (Some (JObj d))
      /\ dict_get "status" d = Some (JStr "failed").
Proof.
  intros (job_id & d & Hobs & _).
  erewrite consume_turn_malformed in Hobs;
    [| reflexivity | apply lookup_singleton_eq | reflexivity].
  simpl in Hobs. erewrite observed_dropped in Hobs by reflexivity.
  erewrite observed_connected in Hobs by reflexivity.
  simpl in Hobs. by rewrite lookup_empty in Hobs.
Qed.

(** C3, as the code has it.  An update removes no field: what a record
    had, the updated record has.  For a job with no record yet, along a
    sequence of updates in which only the last one may supply a result or
    an error message (a result only with status [completed], an error
    message only with status [failed]), every record produced, by any
    non-empty prefix of the sequence, has [result] only under status
    [completed] and [errorMessage] only under status [failed]. *)
Theorem record_shape_of_disciplined_updates {E} (w : World E) r job_id :
  redis_client w = Some r ->
  (forall d k status result error_message,
     stored_record job_id r = Returns (JObj d) ->
     dict_get k d <> None ->
     observed_field k job_id (once job_id status result error_message w) <> None)
  /\ (forall calls rest : list call,
        strings r !! result_key job_id = None ->
        calls <> [] ->
        disciplined (calls ++ rest)%list = true ->
        exists d,
          observed job_id (after_calls job_id calls w) = Returns (Some (JObj d))
          /\ result_only_when_completed d /\ error_only_when_failed d).
Proof.
  intros Hc. split.
  - intros d k status result error_message Hs Hk.
    rewrite (observed_field_once _ _ _ _ _ _ _ _ Hc Hs). by apply merged_keeps.
  - intros calls rest Hnone Hne Hd.
    destruct (fresh_record_bare job_id r Hnone) as [Hs Hb].
    eapply after_calls_shaped; eauto using disciplined_prefix.
Qed.

Lemma record_shape_of_disciplined_updates_witness :
  redis_client sample_world = Some empty_redis
  /\ strings empty_redis !! result_key (JStr "job-1") = None
  /\ disciplined
       [mkCall "processing" JNull JNull;
        mkCall "completed" (JObj [("processedRows", JInt 950)]) JNull] = true
  /\ exists d,
       observed (JStr "job-1")
         (after_calls (JStr "job-1")
            [mkCall "processing" JNull JNull;
             mkCall "completed" (JObj [("processedRows", JInt 950)]) JNull]
            sample_world)
       = Returns (Some (JObj d))
       /\ result_only_when_completed d /\ error_only_when_failed d.
Proof.
  split; [reflexivity|]. split; [reflexivity|]. split; [reflexivity|].
  destruct (record_shape_of_disciplined_updates sample_world empty_redis
              (JStr "job-1") eq_refl) as [_ Hshape].
  apply (Hshape
           [mkCall "processing" JNull JNull;
            mkCall "completed" (JObj [("processedRows", JInt 950)]) JNull] []).
  - reflexivity.
  - discriminate.
  - reflexivity.
Defined.

(** C3, as stated, fails: after [completed] with a result, an update back
    to [processing] leaves the result in a [processing] record. *)
Lemma result_outlives_completed :
  exists d,
    observed (JStr "job-1")
      (after_calls (JStr "job-1")
         [mkCall "completed" (JObj [("processedRows", JInt 950)]) JNull;
          mkCall "processing" JNull JNull]
         sample_world)
    = Returns (Some (JObj d))
    /\ ~ result_only_when_completed d.
Proof.
  eexists. split; [vm_compute; reflexivity|].
  unfold result_only_when_completed. simpl. intros H.
  by specialize (H ltac:(discriminate)).
Qed.

(** C4, as the code has it.  Every update whose status is [completed] or
    [failed] writes [completedAt], with the clock reading of that update;
    an update to any other status leaves [completedAt] as it was, absent if
    it was absent. *)
Theorem completed_at_follows_terminal_updates {E} (w : World E)
    job_id status result error_message :
  (is_terminal status = false ->
   observed_field "completedAt" job_id
     (once job_id status result error_message w)
   = observed_field "completedAt" job_id w)
  /\ (is_terminal status = true ->
      forall r d,
        redis_client w = Some r ->
        stored_record job_id r = Returns (JObj d) ->
        observed_field "completedAt" job_id
          (once job_id status result error_message w)
        = Some (JStr (utcnow w (clock_reads w)))).
Proof.
  split.
  - apply completed_at_kept.
  - intros Ht r d Hc Hs. by eapply completed_at_stamped.
Qed.

Lemma completed_at_follows_terminal_updates_witness :
  observed_field "completedAt" (JStr "job-1")
    (once (JStr "job-1") "processing" JNull JNull sample_world)
  = observed_field "completedAt" (JStr "job-1") sample_world
  /\ observed_field "completedAt" (JStr "job-1")
       (once (JStr "job-1") "failed" JNull (JStr "model not found") sample_world)
     = Some (JStr (sample_clock 0)).
Proof.
  split.
  - apply (completed_at_follows_terminal_updates sample_world (JStr "job-1")
             "processing" JNull JNull). reflexivity.
  - apply (completed_at_follows_terminal_updates sample_world (JStr "job-1")
             "failed" JNull (JStr "model not found"))
      with (r := empty_redis) (d := [("jobId", JStr "job-1"); ("status", JStr "pending")]);
      reflexivity.
Defined.

(** C4, as stated, fails: [completedAt] is not set once, a second terminal
    update sets it again, to a later time. *)
Lemma completed_at_set_again :
  observed_field "completedAt" (JStr "job-1")
    (once (JStr "job-1") "completed" (JObj [("processedRows", JInt 950)]) JNull
          sample_world)
  = Some (JStr "2024-01-16T10:00:00")
  /\ observed_field "completedAt" (JStr "job-1")
       (once (JStr "job-1") "failed" JNull (JStr "timed out")
          (once (JStr "job-1") "completed" (JObj [("processedRows", JInt 950)]) JNull
                sample_world))
     <> observed_field "completedAt" (JStr "job-1")
          (once (JStr "job-1") "completed" (JObj [("processedRows", JInt 950)]) JNull
                sample_world).
Proof. split; vm_compute; [reflexivity | discriminate]. Qed.

(** C5, as the code has it.  [publish_message] pushes the serialized
    message at the head of the queue's list (LPUSH) and [consume_message]
    pops from its tail (BRPOP).  So of two messages A then B published on
    one queue, the list holds B before A before what it held; successive
    pops yield what it held, oldest first, then A, then B; and once the
    loop has consumed what the queue held, its next two turns dequeue A,
    log A's transition to [processing] and A's outcome, and only then
    dequeue B and log B's transition to [processing]. *)
Theorem fifo_per_queue {E} (w : World E) r queue_name A B (f : handler) :
  redis_client w = Some r ->
  exists r2,
    redis_client (snd (publish_message queue_name B
                         (snd (publish_message queue_name A w)))) = Some r2
    /\ lists r2 !! queue_name
       = Some (json_dumps B :: json_dumps A :: default [] (lists r !! queue_name))
    /\ drain (length (default [] (lists r !! queue_name)) + 2) queue_name r2
       = (rev (default [] (lists r !! queue_name))
          ++ [json_dumps A; json_dumps B])%list
    /\ (forall fa fb ida idb da db,
          A = JObj fa -> B = JObj fb ->
          dict_get "id" fa = Some ida -> truthy ida = true ->
          dict_get "id" fb = Some idb -> truthy idb = true ->
          stored_record ida r = Returns (JObj da) ->
          stored_record idb r = Returns (JObj db) ->
          running w = true ->
          log (snd (_consume_queue
                      (length (default [] (lists r !! queue_name)) + 2) queue_name f
                      (snd (publish_message queue_name B
                              (snd (publish_message queue_name A w))))))
          = (log (snd (_consume_queue
                         (length (default [] (lists r !! queue_name))) queue_name f
                         (snd (publish_message queue_name B
                                 (snd (publish_message queue_name A w))))))
             ++ [(INFO, "Message consumed from queue " +:+ queue_name);
                 (INFO, "Job " +:+ py_str ida +:+ " status updated to processing")]
             ++ outcome_log f A ida
                  (ext (snd (_consume_queue
                               (length (default [] (lists r !! queue_name)))
                               queue_name f
                               (snd (publish_message queue_name B
                                       (snd (publish_message queue_name A w)))))))
             ++ [(INFO, "Message consumed from queue " +:+ queue_name);
                 (INFO, "Job " +:+ py_str idb +:+ " status updated to processing")]
             ++ outcome_log f B idb
                  (snd (f A
                     (ext (snd (_consume_queue
                                  (length (default [] (lists r !! queue_name)))
                                  queue_name f
                                  (snd (publish_message queue_name B
                                          (snd (publish_message queue_name A w)))))))))
            )%list).
Proof.
  intros Hc.
  set (old := default [] (lists r !! queue_name)).
  set (w1 := enqueued queue_name A r w).
  assert (H1 : snd (publish_message queue_name A w) = w1)
    by by rewrite (publish_message_connected _ _ _ _ Hc).
  rewrite H1. clear H1.
  destruct (redis_client w1) as [r1|] eqn:Hc1; [|done].
  set (w2 := enqueued queue_name B r1 w1).
  assert (H2 : snd (publish_message queue_name B w1) = w2)
    by by rewrite (publish_message_connected _ _ _ _ Hc1).
  rewrite H2. clear H2.
  destruct (redis_client w2) as [r2|] eqn:Hc2; [|done].
  exists r2.
  assert (Hl2 : lists r2 !! queue_name
                = Some (json_dumps B :: json_dumps A :: old)).
  { injection Hc2 as <-. injection Hc1 as <-. simpl.
    by rewrite lookup_insert_eq, lookup_insert_eq. }
  assert (Hs2 : forall job_id, stored_record job_id r2 = stored_record job_id r).
  { intros job_id. injection Hc2 as <-. by injection Hc1 as <-. }
  split; [done|]. split; [done|]. split.
  { rewrite Nat.add_comm.
    change (2 + length old)%nat
      with (length (json_dumps B :: json_dumps A :: old)).
    rewrite (drain_all _ _ _ Hl2). simpl. by rewrite <- app_assoc. }
  intros fa fb ida idb da db -> -> Hida Hta Hidb Htb Hsa Hsb Hrun.
  assert (Hrun2 : running w2 = true) by done.
  destruct (_consume_queue_old old [json_dumps (JObj fb); json_dumps (JObj fa)]
              queue_name f w2 r2 ltac:(done) Hrun2 Hc2 Hl2)
    as (r3 & Hc3 & Hl3 & Hrun3 & Hkeep3).
  rewrite (_consume_queue_add (length old) 2).
  set (w3 := snd (_consume_queue (length old) queue_name f w2)) in *.
  destruct (Hkeep3 ida da) as [da' Hsa']; [by rewrite Hs2|].
  destruct (Hkeep3 idb db) as [db' Hsb']; [by rewrite Hs2|].
  assert (Hturn1 : consume_turn queue_name f w3
                   = (Returns tt, processed queue_name f (JObj fa) ida r3 w3)).
  { eapply consume_turn_job; eauto. }
  destruct (processed_facts w3 r3 queue_name f (JObj fa) ida da' Hc3 Hsa')
    as (r4 & Hc4 & Hl4 & Hrun4 & Hext4 & Hlog4 & Hkeep4).
  set (w4 := processed queue_name f (JObj fa) ida r3 w3) in *.
  assert (Hq4 : lists r4 !! queue_name = Some [json_dumps (JObj fb)]).
  { rewrite Hl4. by erewrite lists_brpop by done. }
  destruct (Hkeep4 idb db' Hsb') as [db'' Hsb''].
  assert (Hturn2 : consume_turn queue_name f w4
                   = (Returns tt, processed queue_name f (JObj fb) idb r4 w4)).
  { eapply consume_turn_job; eauto. }
  destruct (processed_facts w4 r4 queue_name f (JObj fb) idb db'' Hc4 Hsb'')
    as (r5 & _ & _ & _ & _ & Hlog5 & _).
  rewrite (_consume_queue_step 1 _ _ w3 _ Hrun3 Hturn1).
  rewrite (_consume_queue_step 0 _ _ w4 _ (eq_trans Hrun4 Hrun3) Hturn2).
  simpl snd. rewrite Hlog5, Hlog4, Hext4.
  by rewrite <- !app_assoc.
Qed.

Lemma fifo_per_queue_witness :
  redis_client sample_world = Some empty_redis
  /\ exists r2,
       redis_client
         (snd (publish_message "analytics:prediction" (JObj [("id", JStr "job-b")])
                 (snd (publish_message "analytics:prediction"
                         (JObj [("id", JStr "job-a")]) sample_world)))) = Some r2
       /\ drain 2 "analytics:prediction" r2
          = [Json (JObj [("id", JStr "job-a")]); Json (JObj [("id", JStr "job-b")])].
Proof.
  split; [reflexivity|].
  destruct (fifo_per_queue sample_world empty_redis "analytics:prediction"
              (JObj [("id", JStr "job-a")]) (JObj [("id", JStr "job-b")])
              (returning JNull) eq_refl)
    as (r2 & Hc2 & _ & Hdrain & _).
  exists r2. split; [exact Hc2 | exact Hdrain].
Defined.

(** C5, as stated, fails: the message is not appended to the tail of the
    queue's list, it is pushed at its head. *)
Lemma publish_message_pushes_at_head :
  (lists <$> redis_client
     (snd (publish_message "analytics:prediction" (JObj [("id", JStr "job-b")])
             (queue_holding "analytics:prediction"
                [Json (JObj [("id", JStr "job-a")])]))))
    ≫= (.!! "analytics:prediction")
  = Some [Json (JObj [("id", JStr "job-b")]); Json (JObj [("id", JStr "job-a")])]
  /\ [Json (JObj [("id", JStr "job-b")]); Json (JObj [("id", JStr "job-a")])]
     <> ([Json (JObj [("id", JStr "job-a")])]
         ++ [json_dumps (JObj [("id", JStr "job-b")])])%list.
Proof. split; [vm_compute; reflexivity | discriminate]. Qed.

(** C6.  [update_job_status] is an upsert: for a job with no record in the
    store it does not fail; it starts from the synthesized record
    [{"jobId": job_id, "status": "pending"}], which has no result and no
    error message, and applies the incoming update to it. *)
Theorem update_job_status_upserts {E} (w : World E) r
    job_id status result error_message :
  redis_client w = Some r ->
  strings r !! result_key job_id = None ->
  observed job_id w = Returns None
  /\ update_job_status job_id status result error_message w
     = (Returns tt,
        updated job_id status result error_message
          [("jobId", job_id); ("status", JStr "pending")] r w)
  /\ observed job_id (once job_id status result error_message w)
     = Returns (Some (JObj
         ([("jobId", job_id); ("status", JStr status)]
          ++ (if truthy result then [("result", result)] else [])
          ++ (if truthy error_message
              then [("errorMessage", error_message)] else [])
          ++ (if is_terminal status
              then [("completedAt", JStr (utcnow w (clock_reads w)))]
              else []))%list)).
Proof.
  intros Hc Hnone.
  destruct (fresh_record_bare job_id r Hnone) as [Hs _].
  split; [|split].
  - rewrite (observed_connected w r) by done. by rewrite Hnone.
  - by apply update_job_status_ok.
  - rewrite (once_ok _ _ _ _ _ _ _ Hc Hs), observed_updated.
    by rewrite merged_fresh.
Qed.

Lemma update_job_status_upserts_witness :
  redis_client sample_world = Some empty_redis
  /\ strings empty_redis !! result_key (JStr "job-1") = None
  /\ observed (JStr "job-1")
       (once (JStr "job-1") "completed" (JObj [("processedRows", JInt 950)]) JNull
             sample_world)
     = Returns (Some (JObj
         [("jobId", JStr "job-1"); ("status", JStr "completed");
          ("result", JObj [("processedRows", JInt 950)]);
          ("completedAt", JStr "2024-01-16T10:00:00")])).
Proof.
  split; [reflexivity|]. split; [reflexivity|].
  apply (update_job_status_upserts sample_world empty_redis (JStr "job-1")
           "completed" (JObj [("processedRows", JInt 950)]) JNull);
    reflexivity.
Defined.

(** C7, as the code has it.  When the handler of a dequeued job raises, the
    turn ends without raising, the job's record has status [failed], and
    its [errorMessage] is the stringified error if that string is not
    empty; if it is empty, [errorMessage] is left as the record had it.  The
    loop then goes on to its next turn. *)
Theorem handler_error_recorded {E} (w : World E) r queue_name (f : handler)
    l init fields job_id d e e' :
  redis_client w = Some r ->
  lists r !! queue_name = Some l ->
  unsnoc l = Some (init, Json (JObj fields)) ->
  dict_get "id" fields = Some job_id ->
  truthy job_id = true ->
  stored_record job_id r = Returns (JObj d) ->
  f (JObj fields) (ext w) = (Raises e, e') ->
  fst (consume_turn queue_name f w) = Returns tt
  /\ observed_field "status" job_id (snd (consume_turn queue_name f w))
     = Some (JStr "failed")
  /\ observed_field "errorMessage" job_id (snd (consume_turn queue_name f w))
     = (if String.eqb (exn_str e) ""
        then dict_get "errorMessage" d
        else Some (JStr (exn_str e)))
  /\ (running w = true ->
      running (snd (consume_turn queue_name f w)) = true
      /\ forall n,
           _consume_queue (S n) queue_name f w
           = _consume_queue n queue_name f (snd (consume_turn queue_name f w))).
Proof.
  intros Hc Hl Hu Hid Ht Hs Hf.
  pose proof (consume_turn_job _ _ _ f _ _ _ _ _ Hc Hl Hu Hid Ht Hs) as Hturn.
  pose proof (processed_record w r queue_name f (JObj fields) job_id d Hc Hs) as Hobs.
  rewrite Hf in Hobs. simpl fst in Hobs.
  rewrite Hturn. simpl fst. simpl snd.
  split; [done|]. unfold observed_field. rewrite Hobs. split; [|split].
  - apply merged_get_status.
  - destruct (String.eqb (exn_str e) "") eqn:Hempty.
    + by rewrite !merged_get_error_falsy by (simpl; by rewrite ?Hempty).
    + apply merged_get_error. simpl. by rewrite Hempty.
  - intros Hrun. split.
    + by rewrite (processed_running _ _ _ _ _ _ _ Hc Hs).
    + intros n. by apply _consume_queue_step.
Qed.

Lemma handler_error_recorded_witness :
  redis_client
    (queue_holding "analytics:prediction" [Json (JObj [("id", JStr "job-2")])])
  = Some (mkRedis {[ "analytics:prediction" := [Json (JObj [("id", JStr "job-2")])] ]}
                  ∅ [])
  /\ truthy (JStr "job-2") = true
  /\ raising (HandlerError "model not found") (JObj [("id", JStr "job-2")]) tt
     = (Raises (HandlerError "model not found"), tt)
  /\ observed_field "status" (JStr "job-2")
       (snd (consume_turn "analytics:prediction"
               (raising (HandlerError "model not found"))
               (queue_holding "analytics:prediction"
                  [Json (JObj [("id", JStr "job-2")])])))
     = Some (JStr "failed")
  /\ observed_field "errorMessage" (JStr "job-2")
       (snd (consume_turn "analytics:prediction"
               (raising (HandlerError "model not found"))
               (queue_holding "analytics:prediction"
                  [Json (JObj [("id", JStr "job-2")])])))
     = Some (JStr "model not found").
Proof.
  split; [reflexivity|]. split; [reflexivity|]. split; [reflexivity|].
  destruct (handler_error_recorded
              (queue_holding "analytics:prediction" [Json (JObj [("id", JStr "job-2")])])
              (mkRedis {[ "analytics:prediction" := [Json (JObj [("id", JStr "job-2")])] ]}
                       ∅ [])
              "analytics:prediction" (raising (HandlerError "model not found"))
              [Json (JObj [("id", JStr "job-2")])] [] [("id", JStr "job-2")]
              (JStr "job-2") [("jobId", JStr "job-2"); ("status", JStr "pending")]
              (HandlerError "model not found") tt)
    as (_ & Hstatus & Herror & _);
    [reflexivity | vm_compute; reflexivity | reflexivity | reflexivity
    | reflexivity | reflexivity | reflexivity |].
  split; [exact Hstatus | exact Herror].
Defined.

(** C7, as stated, fails: a handler error whose string is empty leaves a
    [failed] record without any [errorMessage]. *)
Lemma empty_handler_error_not_recorded :
  observed_field "status" (JStr "job-2")
    (snd (consume_turn "analytics:prediction" (raising (HandlerError ""))
            (queue_holding "analytics:prediction"
               [Json (JObj [("id", JStr "job-2")])])))
  = Some (JStr "failed")
  /\ observed_field "errorMessage" (JStr "job-2")
       (snd (consume_turn "analytics:prediction" (raising (HandlerError ""))
               (queue_holding "analytics:prediction"
                  [Json (JObj [("id", JStr "job-2")])])))
     <> Some (JStr (exn_str (HandlerError ""))).
Proof. split; vm_compute; [reflexivity | discriminate]. Qed.

(** C8.  [start] creates one consumer per recognized kind, each on the
    queue ["analytics:<kind>"], and no other; and every successful
    [publish_message] to a queue pushes the payload on that queue and
    publishes the same payload on the channel ["<queue_name>:notification"]. *)
Theorem consumers_and_notifications {E} (w : World E) :
  map fst start_tasks = map queue_of_kind recognized_kinds
  /\ NoDup (map fst start_tasks)
  /\ length start_tasks = 5%nat
  /\ fst (start w) = Returns start_tasks
  /\ running (snd (start w)) = true
  /\ (forall r queue_name message,
        redis_client w = Some r ->
        fst (publish_message queue_name message w) = Returns tt
        /\ exists r',
             redis_client (snd (publish_message queue_name message w)) = Some r'
             /\ lists r' !! queue_name
                = Some (json_dumps message :: default [] (lists r !! queue_name))
             /\ published r'
                = (published r
                   ++ [(queue_name +:+ ":notification", json_dumps message)])%list).
Proof.
  split; [done|]. split.
  { apply (bool_decide_unpack _). by vm_compute. }
  split; [done|]. split; [done|]. split; [done|].
  intros r queue_name message Hc.
  rewrite (publish_message_connected _ _ _ _ Hc). simpl fst. simpl snd.
  split; [done|]. eexists. split; [reflexivity|]. split; [|done].
  simpl. by rewrite lookup_insert_eq.
Qed.

Lemma consumers_and_notifications_witness :
  redis_client sample_world = Some empty_redis
  /\ exists r',
       redis_client
         (snd (publish_message "analytics:visualization"
                 (JObj [("id", JStr "job-3")]) sample_world)) = Some r'
       /\ lists r' !! "analytics:visualization"
          = Some [Json (JObj [("id", JStr "job-3")])]
       /\ published r'
          = [("analytics:visualization:notification",
              Json (JObj [("id", JStr "job-3")]))].
Proof.
  split; [reflexivity|].
  destruct (consumers_and_notifications sample_world)
    as (_ & _ & _ & _ & _ & Hpub).
  destruct (Hpub empty_redis "analytics:visualization"
              (JObj [("id", JStr "job-3")]) eq_refl) as [_ Hbroadcast].
  exact Hbroadcast.
Defined.

(** C9.  A dequeued message (a dict) with no ["id"], or with a falsy one,
    is discarded in silence: the turn ends, without raising, in the very
    world the dequeue left, whatever the handler is; so no record is
    written, the loop logs nothing, the handler's state is untouched, and
    the loop goes on to its next turn. *)
Theorem message_without_id_discarded {E} (w : World E) r queue_name
    l init fields (f : handler) :
  redis_client w = Some r ->
  lists r !! queue_name = Some l ->
  unsnoc l = Some (init, Json (JObj fields)) ->
  truthy (default JNull (dict_get "id" fields)) = false ->
  fst (consume_message queue_name 5 w) = Returns (Some (JObj fields))
  /\ consume_turn queue_name f w
     = (Returns tt, snd (consume_message queue_name 5 w))
  /\ (forall job_id,
        observed job_id (snd (consume_turn queue_name f w)) = observed job_id w)
  /\ log (snd (consume_turn queue_name f w))
     = (log w ++ [(INFO, "Message consumed from queue " +:+ queue_name)])%list
  /\ ext (snd (consume_turn queue_name f w)) = ext w
  /\ slept (snd (consume_turn queue_name f w)) = slept w
  /\ (running w = true ->
      running (snd (consume_turn queue_name f w)) = true
      /\ forall n,
           _consume_queue (S n) queue_name f w
           = _consume_queue n queue_name f (snd (consume_turn queue_name f w))).
Proof.
  intros Hc Hl Hu Hid.
  pose proof (consume_message_json _ _ _ _ _ _ Hc Hl Hu) as Hm.
  pose proof (consume_turn_no_id _ _ _ f _ Hm Hid) as Hturn.
  rewrite Hturn, Hm. simpl fst. simpl snd.
  split; [done|]. split; [done|].
  split; [intros job_id; by apply observed_consumed|].
  split; [done|]. split; [done|]. split; [done|].
  intros Hrun. split; [done|]. intros n. by apply _consume_queue_step.
Qed.

Lemma message_without_id_discarded_witness :
  redis_client
    (counting_world "analytics:data_processing"
       [Json (JObj [("datasetId", JStr "d1"); ("id", JStr "")])])
  = Some (mkRedis {[ "analytics:data_processing" :=
                     [Json (JObj [("datasetId", JStr "d1"); ("id", JStr "")])] ]}
                  ∅ [])
  /\ truthy (default JNull (dict_get "id" [("datasetId", JStr "d1"); ("id", JStr "")]))
     = false
  /\ consume_turn "analytics:data_processing" counting
       (counting_world "analytics:data_processing"
          [Json (JObj [("datasetId", JStr "d1"); ("id", JStr "")])])
     = (Returns tt,
        snd (consume_message "analytics:data_processing" 5
               (counting_world "analytics:data_processing"
                  [Json (JObj [("datasetId", JStr "d1"); ("id", JStr "")])])))
  /\ ext (snd (consume_turn "analytics:data_processing" counting
                 (counting_world "analytics:data_processing"
                    [Json (JObj [("datasetId", JStr "d1"); ("id", JStr "")])])))
     = 0%nat.
Proof.
  split; [reflexivity|]. split; [reflexivity|].
  destruct (message_without_id_discarded
              (counting_world "analytics:data_processing"
                 [Json (JObj [("datasetId", JStr "d1"); ("id", JStr "")])])
              (mkRedis {[ "analytics:data_processing" :=
                          [Json (JObj [("datasetId", JStr "d1"); ("id", JStr "")])] ]}
                       ∅ [])
              "analytics:data_processing"
              [Json (JObj [("datasetId", JStr "d1"); ("id", JStr "")])] []
              [("datasetId", JStr "d1"); ("id", JStr "")] counting)
    as (_ & Hturn & _ & _ & Hext & _);
    [reflexivity | vm_compute; reflexivity | reflexivity | reflexivity |].
  split; [exact Hturn | exact Hext].
Defined.

(** C10.  [update_job_status] goes by truthiness: an empty mapping as
    result is treated as no result and an empty string as error message as
    no error message, so neither field is written; a job with no record yet
    gets a record without that field, and a handler that returns an empty
    dict leaves a [completed] record without [result]. *)
Theorem falsy_fields_not_stored {E} (w : World E)
    job_id status result error_message :
  update_job_status job_id status (JObj []) error_message w
  = update_job_status job_id status JNull error_message w
  /\ update_job_status job_id status result (JStr "") w
     = update_job_status job_id status result JNull w
  /\ (forall r,
        redis_client w = Some r ->
        strings r !! result_key job_id = None ->
        observed_field "result" job_id
          (once job_id status (JObj []) error_message w) = None
        /\ observed_field "errorMessage" job_id
             (once job_id status result (JStr "") w) = None
        /\ (forall queue_name (f : handler) l init fields e',
              lists r !! queue_name = Some l ->
              unsnoc l = Some (init, Json (JObj fields)) ->
              dict_get "id" fields = Some job_id ->
              truthy job_id = true ->
              f (JObj fields) (ext w) = (Returns (JObj []), e') ->
              observed job_id (snd (consume_turn queue_name f w))
              = Returns (Some (JObj
                  [("jobId", job_id); ("status", JStr "completed");
                   ("completedAt", JStr (utcnow w (clock_reads w)))])))).
Proof.
  split; [done|]. split; [done|].
  intros r Hc Hnone.
  destruct (fresh_record_bare job_id r Hnone) as [Hs [Hr He]].
  split; [|split].
  - rewrite (observed_field_once _ _ _ _ _ _ _ _ Hc Hs).
    by rewrite merged_get_result_falsy.
  - rewrite (observed_field_once _ _ _ _ _ _ _ _ Hc Hs).
    by rewrite merged_get_error_falsy.
  - intros queue_name f l init fields e' Hl Hu Hid Ht Hf.
    rewrite (consume_turn_job _ _ _ f _ _ _ _ _ Hc Hl Hu Hid Ht Hs). simpl snd.
    rewrite (processed_record _ _ _ _ _ _ _ Hc Hs), Hf. simpl fst.
    by rewrite !merged_fresh.
Qed.

Lemma falsy_fields_not_stored_witness :
  redis_client sample_world = Some empty_redis
  /\ strings empty_redis !! result_key (JStr "job-4") = None
  /\ observed_field "result" (JStr "job-4")
       (once (JStr "job-4") "completed" (JObj []) JNull sample_world) = None
  /\ observed_field "errorMessage" (JStr "job-4")
       (once (JStr "job-4") "completed" (JObj []) (JStr "") sample_world) = None.
Proof.
  split; [reflexivity|]. split; [reflexivity|].
  destruct (falsy_fields_not_stored sample_world (JStr "job-4") "completed"
              (JObj []) JNull) as (_ & _ & Hfresh).
  destruct (Hfresh empty_redis) as (Hresult & _ & _); [reflexivity | reflexivity |].
  destruct (falsy_fields_not_stored sample_world (JStr "job-4") "completed"
              (JObj []) (JStr "")) as (_ & _ & Hfresh').
  destruct (Hfresh' empty_redis) as (_ & Herror & _); [reflexivity | reflexivity |].
  split; [exact Hresult | exact Herror].
Defined.

(** * Further properties of the service, the loop, the handlers and the routes *)

(** ** What a turn finds *)

Section Shapes.

Context {E : Type}.
Implicit Types (w : World E) (r : Redis) (d : dict) (f : @handler E).

Lemma unsnoc_default_inv queue_name r init v :
  unsnoc (default [] (lists r !! queue_name)) = Some (init, v) ->
  exists l, lists r !! queue_name = Some l /\ unsnoc l = Some (init, v).
Proof.
  destruct (lists r !! queue_name) as [l|]; simpl; [|done]. intros H. by exists l.
Qed.

(** Every turn on a connected world finds one of the seven things, and
    leaves the world that goes with it. *)
Lemma consume_turn_finds w r queue_name f :
  redis_client w = Some r ->
  exists x, finds queue_name r x
            /\ consume_turn queue_name f w
               = (Returns tt, after_turn queue_name f r w x).
Proof.
  intros Hc.
  destruct (unsnoc (default [] (lists r !! queue_name))) as [[init v]|] eqn:Hu;
    cycle 1.
  { exists Nothing. split; [done|]. by eapply consume_turn_idle. }
  destruct (unsnoc_default_inv _ _ _ _ Hu) as (l & Hl & Hul).
  destruct v as [message|doc why].
  2: { exists (Undecodable why). split; [by exists init, doc|].
       by eapply consume_turn_malformed. }
  destruct (truthy message) eqn:Htm; cycle 1.
  { exists (Falsy message). split; [split; [by exists init|done]|].
    by eapply consume_turn_falsy. }
  assert (Hdict : (exists fields, message = JObj fields)
                  \/ (forall fields, message <> JObj fields)).
  { destruct message; try (right; intros; discriminate). left. by eexists. }
  destruct Hdict as [[fields ->]|Hnd]; cycle 1.
  { exists (NotADict message). split; [split; [by exists init|done]|].
    by eapply consume_turn_not_a_dict. }
  destruct (truthy (default JNull (dict_get "id" fields))) eqn:Htj; cycle 1.
  { exists (NoId (JObj fields)). split.
    - split; [by exists init|]. by exists fields.
    - simpl. eapply consume_turn_no_id; [by eapply consume_message_json|done]. }
  destruct (dict_get "id" fields) as [job_id|] eqn:Hid; [|done]. simpl in Htj.
  destruct (stored_record_cases job_id "processing" r) as [[d Hs]|[e He]].
  - exists (Job (JObj fields) job_id). split.
    + split; [by exists init|]. split; [by exists fields|]. split; [done|by exists d].
    + by eapply consume_turn_job.
  - exists (Unupdatable (JObj fields) job_id e). split.
    + split; [by exists init|]. split; [by exists fields|]. done.
    + by eapply consume_turn_update_raises.
Qed.

Lemma consume_turn_disconnected w queue_name f :
  redis_client w = None ->
  consume_turn queue_name f w = (Returns tt, unconnected queue_name w).
Proof.
  intros Hc. unfold consume_turn, try_except, consume_message, require_client.
  unfold bind at 1. unfold bind at 1. by rewrite Hc.
Qed.

End Shapes.

(** ** What a turn leaves alone *)

Section Frames.

Context {E : Type}.
Implicit Types (w : World E) (r : Redis) (d : dict) (f : @handler E).

Lemma published_brpop queue_name t r :
  published (snd (brpop queue_name t r)) = published r.
Proof.
  unfold brpop. destruct (lists r !! queue_name) as [l|]; [|done].
  by destruct (unsnoc l) as [[init v]|].
Qed.

Lemma lists_brpop_ne queue_name queue_name' t r :
  queue_name' <> queue_name ->
  lists (snd (brpop queue_name t r)) !! queue_name' = lists r !! queue_name'.
Proof.
  intros Hne. unfold brpop. destruct (lists r !! queue_name) as [l|]; [|done].
  destruct (unsnoc l) as [[init v]|]; [|done]. simpl.
  destruct init; [by rewrite lookup_delete_ne | by rewrite lookup_insert_ne].
Qed.

Lemma brpop_idle queue_name t r :
  unsnoc (default [] (lists r !! queue_name)) = None ->
  snd (brpop queue_name t r) = r.
Proof.
  intros Hu. unfold brpop. destruct (lists r !! queue_name) as [l|]; [|done].
  simpl in Hu. by rewrite Hu.
Qed.

(** The server after a processed job: the queue popped, one record
    written. *)
Lemma processed_server w r queue_name f message job_id d :
  redis_client w = Some r ->
  stored_record job_id r = Returns (JObj d) ->
  exists r',
    redis_client (processed queue_name f message job_id r w) = Some r'
    /\ lists r' = lists (snd (brpop queue_name 5 r))
    /\ published r' = published r
    /\ (forall key, key <> result_key job_id ->
                    strings r' !! key = strings r !! key).
Proof.
  intros Hc Hs. unfold processed.
  set (wc := consumed queue_name r w).
  assert (Hcc : redis_client wc = Some (snd (brpop queue_name 5 r))) by done.
  assert (Hsc : stored_record job_id (snd (brpop queue_name 5 r)) = Returns (JObj d))
    by by rewrite stored_record_brpop.
  rewrite (once_ok _ _ _ _ _ _ _ Hcc Hsc).
  destruct (f message (ext w)) as [[result|e] e'].
  - match goal with
    | |- context [once _ _ _ _ ?w1] =>
        destruct (redis_client w1) as [rp|] eqn:Hcp; [|done]
    end.
    pose proof (stored_record_updated _ _ _ _ _ _ _ _ Hcp) as Hsp.
    rewrite (once_ok _ _ _ _ _ _ _ Hcp Hsp). injection Hcp as <-.
    eexists. split; [reflexivity|]. split; [done|].
    split; [apply published_brpop|].
    intros key Hk. simpl. by rewrite !lookup_insert_ne, strings_brpop.
  - match goal with
    | |- context [once _ _ _ _ ?w1] =>
        destruct (redis_client w1) as [rp|] eqn:Hcp; [|done]
    end.
    pose proof (stored_record_updated _ _ _ _ _ _ _ _ Hcp) as Hsp.
    rewrite (once_ok _ _ _ _ _ _ _ Hcp Hsp). injection Hcp as <-.
    eexists. split; [reflexivity|]. split; [done|].
    split; [apply published_brpop|].
    intros key Hk. simpl. by rewrite !lookup_insert_ne, strings_brpop.
Qed.

(** The server after any turn. *)
Lemma after_turn_server w r queue_name f x :
  redis_client w = Some r ->
  finds queue_name r x ->
  exists r',
    redis_client (after_turn queue_name f r w x) = Some r'
    /\ lists r' = lists (snd (brpop queue_name 5 r))
    /\ published r' = published r
    /\ (forall key,
          (forall message job_id, x = Job message job_id -> key <> result_key job_id) ->
          strings r' !! key = strings r !! key).
Proof.
  intros Hc Hx.
  assert (Hpop : exists r',
            Some (snd (brpop queue_name 5 r)) = Some r'
            /\ lists r' = lists (snd (brpop queue_name 5 r))
            /\ published r' = published r
            /\ (forall key,
                  (forall message job_id,
                     x = Job message job_id -> key <> result_key job_id) ->
                  strings r' !! key = strings r !! key)).
  { eexists. split; [done|]. split; [done|]. split; [apply published_brpop|].
    intros key _. by rewrite strings_brpop. }
  destruct x as [|why|message|message|message|message job_id e|message job_id];
    simpl in *; try exact Hpop.
  - exists r. rewrite Hc. split; [done|]. rewrite (brpop_idle _ _ _ Hx). done.
  - destruct Hx as (_ & _ & _ & d & Hs).
    destruct (processed_server w r queue_name f message job_id d Hc Hs)
      as (r' & Hc' & Hl' & Hp' & Hs').
    exists r'. repeat split; try done.
    intros key Hk. apply Hs'. by eapply Hk.
Qed.

(** The handler's state after any turn. *)
Lemma after_turn_ext w r queue_name f x :
  redis_client w = Some r ->
  finds queue_name r x ->
  ext (after_turn queue_name f r w x)
  = match x with
    | Job message _ => snd (f message (ext w))
    | _ => ext w
    end.
Proof.
  intros Hc Hx.
  destruct x as [|why|message|message|message|message job_id e|message job_id];
    try done.
  simpl in *. destruct Hx as (_ & _ & _ & d & Hs).
  by destruct (processed_facts w r queue_name f message job_id d Hc Hs)
    as (r' & _ & _ & _ & Hext & _).
Qed.

End Frames.

(** X1.  At most once.  Whatever a turn of the loop finds and however the
    handler or the updates fare, it takes exactly the tail payload off its
    queue (nothing off an empty one), puts nothing back, leaves every other
    queue as it was, and publishes no notification. *)
Theorem turn_takes_one_payload {E} (w : World E) r queue_name (f : handler) :
  redis_client w = Some r ->
  fst (consume_turn queue_name f w) = Returns tt
  /\ exists r',
       redis_client (snd (consume_turn queue_name f w)) = Some r'
       /\ lists r' !! queue_name
          = match unsnoc (default [] (lists r !! queue_name)) with
            | Some (init, _) =>
                match init with [] => None | _ :: _ => Some init end
            | None => lists r !! queue_name
            end
       /\ (forall other, other <> queue_name ->
                         lists r' !! other = lists r !! other)
       /\ published r' = published r.
Proof.
  intros Hc.
  destruct (consume_turn_finds w r queue_name f Hc) as (x & Hx & Hturn).
  rewrite Hturn. simpl fst. simpl snd. split; [done|].
  destruct (after_turn_server w r queue_name f x Hc Hx)
    as (r' & Hc' & Hl' & Hp' & _).
  exists r'. split; [done|]. rewrite Hl'. split; [|split; [|done]].
  - destruct (unsnoc (default [] (lists r !! queue_name))) as [[init v]|] eqn:Hu.
    + destruct (unsnoc_default_inv _ _ _ _ Hu) as (l & Hl & Hul).
      by rewrite (lists_brpop _ _ _ _ _ _ Hl Hul).
    + by rewrite (brpop_idle _ _ _ Hu).
  - intros other Hne. by apply lists_brpop_ne.
Qed.

Lemma turn_takes_one_payload_witness :
  redis_client
    (queue_holding "analytics:prediction"
       [Json (JObj [("id", JStr "job-b")]); Json (JObj [("id", JStr "job-a")])])
  = Some (mkRedis {[ "analytics:prediction" :=
                     [Json (JObj [("id", JStr "job-b")]);
                      Json (JObj [("id", JStr "job-a")])] ]} ∅ [])
  /\ exists r',
       redis_client
         (snd (consume_turn "analytics:prediction"
                 (raising (HandlerError "model not found"))
                 (queue_holding "analytics:prediction"
                    [Json (JObj [("id", JStr "job-b")]);
                     Json (JObj [("id", JStr "job-a")])]))) = Some r'
       /\ lists r' !! "analytics:prediction"
          = Some [Json (JObj [("id", JStr "job-b")])]
       /\ published r' = [].
Proof.
  split; [reflexivity|].
  destruct (turn_takes_one_payload
              (queue_holding "analytics:prediction"
                 [Json (JObj [("id", JStr "job-b")]);
                  Json (JObj [("id", JStr "job-a")])])
              (mkRedis {[ "analytics:prediction" :=
                          [Json (JObj [("id", JStr "job-b")]);
                           Json (JObj [("id", JStr "job-a")])] ]} ∅ [])
              "analytics:prediction" (raising (HandlerError "model not found"))
              eq_refl)
    as (_ & r' & Hc' & Hl' & _ & Hp').
  exists r'. split; [exact Hc'|]. split; [exact Hl' | exact Hp'].
Defined.

(** X2.  A turn calls the handler at most once, and only on the payload it
    has just dequeued: the handler's state is either untouched or what one
    call on that message leaves. *)
Theorem turn_calls_handler_at_most_once {E} (w : World E) r queue_name
    (f : handler) :
  redis_client w = Some r ->
  ext (snd (consume_turn queue_name f w)) = ext w
  \/ exists init message,
       unsnoc (default [] (lists r !! queue_name)) = Some (init, Json message)
       /\ ext (snd (consume_turn queue_name f w)) = snd (f message (ext w)).
Proof.
  intros Hc.
  destruct (consume_turn_finds w r queue_name f Hc) as (x & Hx & Hturn).
  rewrite Hturn. simpl snd. rewrite (after_turn_ext _ _ _ _ _ Hc Hx).
  destruct x as [|why|message|message|message|message job_id e|message job_id];
    try (by left).
  right. destruct Hx as ([init Hu] & _). by exists init, message.
Qed.

Lemma turn_calls_handler_at_most_once_witness :
  redis_client
    (counting_world "analytics:data_processing"
       [Json (JObj [("id", JStr "job-2")]); Json (JObj [("id", JStr "job-1")])])
  = Some (mkRedis {[ "analytics:data_processing" :=
                     [Json (JObj [("id", JStr "job-2")]);
                      Json (JObj [("id", JStr "job-1")])] ]} ∅ [])
  /\ (ext (snd (consume_turn "analytics:data_processing" counting
                  (counting_world "analytics:data_processing"
                     [Json (JObj [("id", JStr "job-2")]);
                      Json (JObj [("id", JStr "job-1")])]))) = 0%nat
      \/ exists init message,
           unsnoc (default []
                     (lists (mkRedis {[ "analytics:data_processing" :=
                                        [Json (JObj [("id", JStr "job-2")]);
                                         Json (JObj [("id", JStr "job-1")])] ]}
                                     ∅ [])
                        !! "analytics:data_processing"))
           = Some (init, Json message)
           /\ ext (snd (consume_turn "analytics:data_processing" counting
                          (counting_world "analytics:data_processing"
                             [Json (JObj [("id", JStr "job-2")]);
                              Json (JObj [("id", JStr "job-1")])])))
              = snd (counting message 0%nat)).
Proof.
  split; [reflexivity|].
  exact (turn_calls_handler_at_most_once
           (counting_world "analytics:data_processing"
              [Json (JObj [("id", JStr "job-2")]);
               Json (JObj [("id", JStr "job-1")])])
           (mkRedis {[ "analytics:data_processing" :=
                       [Json (JObj [("id", JStr "job-2")]);
                        Json (JObj [("id", JStr "job-1")])] ]} ∅ [])
           "analytics:data_processing" counting eq_refl).
Defined.

(** X3.  A turn writes at most one Job Record, that of the id the dequeued
    message carries: the record a poller sees for any other job is the one
    it saw before the turn. *)
Theorem turn_writes_only_its_job {E} (w : World E) r queue_name (f : handler)
    job_id :
  redis_client w = Some r ->
  (forall init fields id,
     unsnoc (default [] (lists r !! queue_name))
     = Some (init, Json (JObj fields)) ->
     dict_get "id" fields = Some id ->
     result_key id <> result_key job_id) ->
  observed job_id (snd (consume_turn queue_name f w)) = observed job_id w.
Proof.
  intros Hc Hother.
  destruct (consume_turn_finds w r queue_name f Hc) as (x & Hx & Hturn).
  rewrite Hturn. simpl snd.
  destruct (after_turn_server w r queue_name f x Hc Hx)
    as (r' & Hc' & _ & _ & Hs').
  rewrite (observed_connected _ r' _ Hc'), (observed_connected w r _ Hc).
  rewrite Hs'; [done|].
  intros message id -> Heq. simpl in Hx.
  destruct Hx as ([init Hu] & (fields & -> & Hid) & _).
  by eapply Hother.
Qed.

Lemma turn_writes_only_its_job_witness :
  redis_client
    (queue_holding "analytics:prediction" [Json (JObj [("id", JStr "job-a")])])
  = Some (mkRedis {[ "analytics:prediction" := [Json (JObj [("id", JStr "job-a")])] ]}
                  ∅ [])
  /\ observed (JStr "job-b")
       (snd (consume_turn "analytics:prediction" (returning (JObj [("ok", JBool true)]))
               (queue_holding "analytics:prediction"
                  [Json (JObj [("id", JStr "job-a")])])))
     = observed (JStr "job-b")
         (queue_holding "analytics:prediction" [Json (JObj [("id", JStr "job-a")])]).
Proof.
  split; [reflexivity|].
  apply (turn_writes_only_its_job
           (queue_holding "analytics:prediction" [Json (JObj [("id", JStr "job-a")])])
           (mkRedis {[ "analytics:prediction" := [Json (JObj [("id", JStr "job-a")])] ]}
                    ∅ [])
           "analytics:prediction" (returning (JObj [("ok", JBool true)]))
           (JStr "job-b") eq_refl).
  intros init fields id Hu Hid.
  vm_compute in Hu. injection Hu as _ <-. vm_compute in Hid. injection Hid as <-.
  vm_compute. discriminate.
Defined.

(** ** The loop as a whole *)

Section Loop.

Context {E : Type}.
Implicit Types (w : World E) (r : Redis) (d : dict) (f : @handler E).

Lemma after_turn_running w r queue_name f x :
  redis_client w = Some r ->
  finds queue_name r x ->
  running (after_turn queue_name f r w x) = running w.
Proof.
  intros Hc Hx.
  destruct x as [|why|message|message|message|message job_id e|message job_id];
    try done.
  simpl in *. destruct Hx as (_ & _ & _ & d & Hs).
  by apply (processed_running _ _ _ _ _ _ d).
Qed.

(** What any turn keeps: the loop's flag and the connection. *)
Lemma consume_turn_keeps queue_name f w :
  exists w', consume_turn queue_name f w = (Returns tt, w')
             /\ running w' = running w
             /\ (redis_client w' = None <-> redis_client w = None).
Proof.
  destruct (redis_client w) as [r|] eqn:Hc.
  - destruct (consume_turn_finds w r queue_name f Hc) as (x & Hx & Hturn).
    destruct (after_turn_server w r queue_name f x Hc Hx) as (r' & Hc' & _).
    eexists. split; [exact Hturn|].
    split; [by eapply after_turn_running|]. by rewrite Hc'.
  - eexists. split; [by apply consume_turn_disconnected|]. split; [done|].
    by simpl.
Qed.

End Loop.

(** X4.  The loop never lets an exception out and never ends of its own
    accord: whatever the queue holds, whatever the handler does and whether
    or not the client is connected, any number of turns returns normally,
    leaves [running] as it was (only [stop] clears it) and neither gains nor
    loses the connection. *)
Theorem loop_never_raises_nor_stops {E} (n : nat) queue_name (f : handler)
    (w : World E) :
  fst (_consume_queue n queue_name f w) = Returns tt
  /\ running (snd (_consume_queue n queue_name f w)) = running w
  /\ (redis_client (snd (_consume_queue n queue_name f w)) = None
      <-> redis_client w = None).
Proof.
  revert w. induction n as [|n IH]; intros w; [done|].
  simpl. destruct (running w) eqn:Hrun; [|done].
  destruct (consume_turn_keeps queue_name f w) as (w' & Hturn & Hrun' & Hconn).
  unfold bind. rewrite Hturn.
  destruct (IH w') as (Hret & Hkeep & Hc).
  split; [done|]. split; [by rewrite Hkeep, Hrun'|]. by rewrite Hc.
Qed.

(** X5.  While the client is not connected the loop retries without end:
    each turn logs one error, sleeps five seconds and changes nothing else,
    so [n] turns leave [n] error lines and [5 n] seconds of sleep. *)
Theorem loop_backs_off_while_disconnected {E} (n : nat) queue_name (f : handler)
    (w : World E) :
  redis_client w = None ->
  running w = true ->
  _consume_queue n queue_name f w
  = (Returns tt,
     mkWorld None true
       (log w ++ replicate n
                   (ERROR, "Error consuming from queue " +:+ queue_name
                           +:+ ": Redis client not connected"))
       (utcnow w) (clock_reads w) (slept w + 5 * Z.of_nat n) (ext w)).
Proof.
  revert w. induction n as [|n IH]; intros w Hc Hrun.
  - simpl. unfold ret. rewrite app_nil_r, Z.add_0_r. destruct w; simpl in *.
    by subst.
  - rewrite (_consume_queue_step n _ _ _ _ Hrun (consume_turn_disconnected _ _ f Hc)).
    rewrite IH by done. simpl. f_equal. f_equal.
    + by rewrite <- app_assoc.
    + lia.
Qed.

Lemma loop_backs_off_while_disconnected_witness :
  redis_client offline_world = None
  /\ running offline_world = true
  /\ _consume_queue 3 "analytics:prediction" (returning JNull) offline_world
     = (Returns tt,
        mkWorld None true
          [(ERROR, "Error consuming from queue analytics:prediction: Redis client not connected");
           (ERROR, "Error consuming from queue analytics:prediction: Redis client not connected");
           (ERROR, "Error consuming from queue analytics:prediction: Redis client not connected")]
          sample_clock 0%nat 15 tt).
Proof.
  split; [reflexivity|]. split; [reflexivity|].
  exact (loop_backs_off_while_disconnected 3 "analytics:prediction"
           (returning JNull) offline_world eq_refl eq_refl).
Defined.

(** X6.  Polling an empty queue leaves no trace: [consume_message] answers
    [None] and the loop, for any number of turns, changes nothing at all:
    no log line, no sleep, no record. *)
Theorem idle_queue_leaves_no_trace {E} (w : World E) r queue_name (f : handler) :
  redis_client w = Some r ->
  unsnoc (default [] (lists r !! queue_name)) = None ->
  consume_message queue_name 5 w = (Returns None, w)
  /\ forall n, _consume_queue n queue_name f w = (Returns tt, w).
Proof.
  intros Hc Hu. split; [by eapply consume_message_nothing|].
  induction n as [|n IH]; [done|].
  simpl. destruct (running w); [|done].
  unfold bind. by rewrite (consume_turn_idle _ _ _ f Hc Hu).
Qed.

Lemma idle_queue_leaves_no_trace_witness :
  redis_client sample_world = Some empty_redis
  /\ unsnoc (default [] (lists empty_redis !! "analytics:visualization")) = None
  /\ _consume_queue 4 "analytics:visualization" (returning JNull) sample_world
     = (Returns tt, sample_world).
Proof.
  split; [reflexivity|]. split; [reflexivity|].
  apply (idle_queue_leaves_no_trace sample_world empty_redis
           "analytics:visualization" (returning JNull)); reflexivity.
Defined.

(** ** Jobs that succeed, payloads that are no jobs, records that cannot
       be updated *)

Section Edges.

Context {E : Type}.
Implicit Types (w : World E) (r : Redis) (d : dict) (f : @handler E).

(** A stored text that is not a JSON object makes every update raise. *)
Lemma unusable_record job_id status r text ttl :
  strings r !! result_key job_id = Some (text, ttl) ->
  wire_truthy text = true ->
  (forall d, json_loads text <> Returns (JObj d)) ->
  exists e,
    match stored_record job_id r with
    | Returns v => setitem "status" (JStr status) v = Raises e
    | Raises e' => e' = e
    end
    /\ (forall doc why, text = Malformed doc why -> e = JSONDecodeError why)
    /\ (forall v, text = Json v -> setitem "status" (JStr status) v = Raises e).
Proof.
  intros Hk Ht Hnd. unfold stored_record. rewrite Hk, Ht.
  destruct text as [v|doc why]; simpl in *.
  - destruct v; try (eexists; split; [reflexivity|]; split;
                     [intros; discriminate | by intros ? [= <-]]).
    by destruct (Hnd fields).
  - eexists. split; [reflexivity|]. split; [by intros ?? [= _ <-]|].
    intros; discriminate.
Qed.

Lemma observed_same_strings w w' r r' job_id :
  redis_client w = Some r -> redis_client w' = Some r' ->
  strings r' = strings r ->
  observed job_id w' = observed job_id w.
Proof.
  intros Hc Hc' Hs.
  by rewrite (observed_connected w r _ Hc), (observed_connected w' r' _ Hc'), Hs.
Qed.

End Edges.

(** X7.  When the handler of a dequeued job returns, the turn records the
    job as [completed]: the record carries the handler's result if it is
    truthy (else the [result] it had), [completedAt] is the clock reading,
    [errorMessage] is left as it was, and the log shows the dequeue and the
    two transitions, in that order. *)
Theorem handler_result_recorded {E} (w : World E) r queue_name (f : handler)
    l init fields job_id d result e' :
  redis_client w = Some r ->
  lists r !! queue_name = Some l ->
  unsnoc l = Some (init, Json (JObj fields)) ->
  dict_get "id" fields = Some job_id ->
  truthy job_id = true ->
  stored_record job_id r = Returns (JObj d) ->
  f (JObj fields) (ext w) = (Returns result, e') ->
  fst (consume_turn queue_name f w) = Returns tt
  /\ observed_field "status" job_id (snd (consume_turn queue_name f w))
     = Some (JStr "completed")
  /\ observed_field "result" job_id (snd (consume_turn queue_name f w))
     = (if truthy result then Some result else dict_get "result" d)
  /\ observed_field "completedAt" job_id (snd (consume_turn queue_name f w))
     = Some (JStr (utcnow w (clock_reads w)))
  /\ observed_field "errorMessage" job_id (snd (consume_turn queue_name f w))
     = dict_get "errorMessage" d
  /\ ext (snd (consume_turn queue_name f w)) = e'
  /\ log (snd (consume_turn queue_name f w))
     = (log w ++
        [(INFO, "Message consumed from queue " +:+ queue_name);
         (INFO, "Job " +:+ py_str job_id +:+ " status updated to processing");
         (INFO, "Job " +:+ py_str job_id +:+ " status updated to completed")])%list.
Proof.
  intros Hc Hl Hu Hid Ht Hs Hf.
  rewrite (consume_turn_job _ _ _ f _ _ _ _ _ Hc Hl Hu Hid Ht Hs).
  simpl fst. simpl snd. split; [done|].
  pose proof (processed_record w r queue_name f (JObj fields) job_id d Hc Hs) as Hobs.
  rewrite Hf in Hobs. simpl fst in Hobs.
  destruct (processed_facts w r queue_name f (JObj fields) job_id d Hc Hs)
    as (r' & _ & _ & _ & Hext & Hlog & _).
  unfold observed_field. rewrite Hobs, Hext, Hlog. unfold outcome_log.
  rewrite Hf. simpl fst. simpl snd.
  split; [apply merged_get_status|]. split.
  { destruct (truthy result) eqn:Htr.
    - by apply merged_get_result.
    - by rewrite !merged_get_result_falsy. }
  split; [by rewrite merged_get_completed_at|].
  split; [by rewrite !merged_get_error_falsy|]. done.
Qed.

Lemma handler_result_recorded_witness :
  redis_client
    (queue_holding "analytics:data_processing" [Json (JObj [("id", JStr "job-1")])])
  = Some (mkRedis {[ "analytics:data_processing" :=
                     [Json (JObj [("id", JStr "job-1")])] ]} ∅ [])
  /\ returning (JObj [("processedRows", JInt 950)]) (JObj [("id", JStr "job-1")]) tt
     = (Returns (JObj [("processedRows", JInt 950)]), tt)
  /\ observed_field "status" (JStr "job-1")
       (snd (consume_turn "analytics:data_processing"
               (returning (JObj [("processedRows", JInt 950)]))
               (queue_holding "analytics:data_processing"
                  [Json (JObj [("id", JStr "job-1")])])))
     = Some (JStr "completed")
  /\ observed_field "result" (JStr "job-1")
       (snd (consume_turn "analytics:data_processing"
               (returning (JObj [("processedRows", JInt 950)]))
               (queue_holding "analytics:data_processing"
                  [Json (JObj [("id", JStr "job-1")])])))
     = Some (JObj [("processedRows", JInt 950)]).
Proof.
  split; [reflexivity|]. split; [reflexivity|].
  destruct (handler_result_recorded
              (queue_holding "analytics:data_processing"
                 [Json (JObj [("id", JStr "job-1")])])
              (mkRedis {[ "analytics:data_processing" :=
                          [Json (JObj [("id", JStr "job-1")])] ]} ∅ [])
              "analytics:data_processing"
              (returning (JObj [("processedRows", JInt 950)]))
              [Json (JObj [("id", JStr "job-1")])] [] [("id", JStr "job-1")]
              (JStr "job-1") [("jobId", JStr "job-1"); ("status", JStr "pending")]
              (JObj [("processedRows", JInt 950)]) tt)
    as (_ & Hstatus & Hresult & _);
    [reflexivity | vm_compute; reflexivity | reflexivity | reflexivity
    | reflexivity | reflexivity | reflexivity |].
  split; [exact Hstatus | exact Hresult].
Defined.

(** X8.  A dequeued payload that decodes to a truthy value other than a
    dict (a list, a number, a string, [true]) is no job: [message.get]
    raises [AttributeError], which the loop logs before sleeping five
    seconds.  The payload is gone, no record is written and the handler is
    not called. *)
Theorem payload_that_is_no_dict_is_dropped {E} (w : World E) r queue_name
    (f : handler) l init message :
  redis_client w = Some r ->
  lists r !! queue_name = Some l ->
  unsnoc l = Some (init, Json message) ->
  truthy message = true ->
  (forall fields, message <> JObj fields) ->
  fst (consume_turn queue_name f w) = Returns tt
  /\ log (snd (consume_turn queue_name f w))
     = (log w ++
        [(INFO, "Message consumed from queue " +:+ queue_name);
         (ERROR, "Error consuming from queue " +:+ queue_name +:+ ": '"
                 +:+ py_type_name message
                 +:+ "' object has no attribute 'get'")])%list
  /\ slept (snd (consume_turn queue_name f w)) = slept w + 5
  /\ ext (snd (consume_turn queue_name f w)) = ext w
  /\ (forall job_id,
        observed job_id (snd (consume_turn queue_name f w)) = observed job_id w)
  /\ exists r',
       redis_client (snd (consume_turn queue_name f w)) = Some r'
       /\ lists r' !! queue_name
          = match init with [] => None | _ :: _ => Some init end.
Proof.
  intros Hc Hl Hu Ht Hnd.
  rewrite (consume_turn_not_a_dict _ _ _ f _ _ _ Hc Hl Hu Ht Hnd).
  simpl fst. simpl snd. split; [done|]. split.
  { unfold logged, consumed. simpl. by rewrite <- app_assoc. }
  split; [done|]. split; [done|]. split.
  { intros job_id.
    apply (observed_same_strings w _ r (snd (brpop queue_name 5 r))); try done.
    apply strings_brpop. }
  eexists. split; [reflexivity|]. by eapply lists_brpop.
Qed.

Lemma payload_that_is_no_dict_is_dropped_witness :
  redis_client
    (queue_holding "analytics:prediction" [Json (JArr [JStr "job-9"])])
  = Some (mkRedis {[ "analytics:prediction" := [Json (JArr [JStr "job-9"])] ]} ∅ [])
  /\ truthy (JArr [JStr "job-9"]) = true
  /\ log (snd (consume_turn "analytics:prediction" (returning JNull)
                 (queue_holding "analytics:prediction"
                    [Json (JArr [JStr "job-9"])])))
     = [(INFO, "Message consumed from queue analytics:prediction");
        (ERROR, "Error consuming from queue analytics:prediction: 'list' object has no attribute 'get'")].
Proof.
  split; [reflexivity|]. split; [reflexivity|].
  destruct (payload_that_is_no_dict_is_dropped
              (queue_holding "analytics:prediction" [Json (JArr [JStr "job-9"])])
              (mkRedis {[ "analytics:prediction" := [Json (JArr [JStr "job-9"])] ]}
                       ∅ [])
              "analytics:prediction" (returning JNull)
              [Json (JArr [JStr "job-9"])] [] (JArr [JStr "job-9"]))
    as (_ & Hlog & _);
    [reflexivity | vm_compute; reflexivity | reflexivity | reflexivity
    | discriminate |].
  exact Hlog.
Defined.

(** X9.  A job whose stored record is not a JSON object is lost: the
    update to [processing] raises, so the turn logs the error twice and
    sleeps five seconds; the handler is never called, no record changes -
    not even to [failed] - and the payload is gone from the queue. *)
Theorem job_with_unusable_record_is_lost {E} (w : World E) r queue_name
    (f : handler) l init fields job_id text ttl :
  redis_client w = Some r ->
  lists r !! queue_name = Some l ->
  unsnoc l = Some (init, Json (JObj fields)) ->
  dict_get "id" fields = Some job_id ->
  truthy job_id = true ->
  strings r !! result_key job_id = Some (text, ttl) ->
  wire_truthy text = true ->
  (forall d, json_loads text <> Returns (JObj d)) ->
  fst (consume_turn queue_name f w) = Returns tt
  /\ ext (snd (consume_turn queue_name f w)) = ext w
  /\ (forall any_job,
        observed any_job (snd (consume_turn queue_name f w)) = observed any_job w)
  /\ slept (snd (consume_turn queue_name f w)) = slept w + 5
  /\ (exists e,
        log (snd (consume_turn queue_name f w))
        = (log w ++
           [(INFO, "Message consumed from queue " +:+ queue_name);
            (ERROR, "Error updating job status for " +:+ py_str job_id
                    +:+ ": " +:+ exn_str e);
            (ERROR, "Error consuming from queue " +:+ queue_name
                    +:+ ": " +:+ exn_str e)])%list)
  /\ exists r',
       redis_client (snd (consume_turn queue_name f w)) = Some r'
       /\ lists r' !! queue_name
          = match init with [] => None | _ :: _ => Some init end.
Proof.
  intros Hc Hl Hu Hid Ht Hk Htext Hnd.
  destruct (unusable_record job_id "processing" r text ttl Hk Htext Hnd)
    as (e & He & _).
  rewrite (consume_turn_update_raises _ _ _ f _ _ _ _ _ Hc Hl Hu Hid Ht He).
  simpl fst. simpl snd. split; [done|]. split; [done|]. split.
  { intros any_job.
    apply (observed_same_strings w _ r (snd (brpop queue_name 5 r))); try done.
    apply strings_brpop. }
  split; [done|]. split.
  { exists e. unfold update_failed, logged, consumed. simpl.
    by rewrite <- !app_assoc. }
  eexists. split; [reflexivity|]. by eapply lists_brpop.
Qed.

Lemma job_with_unusable_record_is_lost_witness :
  redis_client
    (mkWorld (Some (mkRedis {[ "analytics:prediction" :=
                               [Json (JObj [("id", JStr "job-5")])] ]}
                            {[ "job_result:job-5" := (Json (JArr []), 60) ]} []))
             true [] sample_clock 0%nat 0 0%nat)
  = Some (mkRedis {[ "analytics:prediction" :=
                     [Json (JObj [("id", JStr "job-5")])] ]}
                  {[ "job_result:job-5" := (Json (JArr []), 60) ]} [])
  /\ ext (snd (consume_turn "analytics:prediction" counting
                 (mkWorld
                    (Some (mkRedis {[ "analytics:prediction" :=
                                      [Json (JObj [("id", JStr "job-5")])] ]}
                                   {[ "job_result:job-5" := (Json (JArr []), 60) ]}
                                   []))
                    true [] sample_clock 0%nat 0 0%nat)))
     = 0%nat.
Proof.
  split; [reflexivity|].
  destruct (job_with_unusable_record_is_lost
              (mkWorld
                 (Some (mkRedis {[ "analytics:prediction" :=
                                   [Json (JObj [("id", JStr "job-5")])] ]}
                                {[ "job_result:job-5" := (Json (JArr []), 60) ]} []))
                 true [] sample_clock 0%nat 0 0%nat)
              (mkRedis {[ "analytics:prediction" :=
                          [Json (JObj [("id", JStr "job-5")])] ]}
                       {[ "job_result:job-5" := (Json (JArr []), 60) ]} [])
              "analytics:prediction" counting
              [Json (JObj [("id", JStr "job-5")])] [] [("id", JStr "job-5")]
              (JStr "job-5") (Json (JArr [])) 60)
    as (_ & Hext & _);
    [reflexivity | vm_compute; reflexivity | reflexivity | reflexivity
    | reflexivity | vm_compute; reflexivity | reflexivity
    | intros d; discriminate |].
  exact Hext.
Defined.

(** ** Reading and writing records *)

Section Records.

Context {E : Type}.
Implicit Types (w : World E) (r : Redis) (d : dict).

(** The merge assigns to four keys only. *)
Lemma merged_get_frame k status result error_message now d :
  k <> "status" -> k <> "result" -> k <> "errorMessage" -> k <> "completedAt" ->
  dict_get k (merged status result error_message now d) = dict_get k d.
Proof.
  intros H1 H2 H3 H4. unfold merged.
  destruct (truthy result), (truthy error_message), (is_terminal status);
    by rewrite ?dict_get_set_ne.
Qed.

Lemma result_key_string_inj (a b : string) :
  result_key (JStr a) = result_key (JStr b) -> a = b.
Proof.
  unfold result_key. simpl. intros H.
  by repeat (injection H as H).
Qed.

End Records.

(** X10.  [get_job_result] only reads: it never changes the server, a call
    that returns leaves the whole world as it was, and for a job with no
    entry it returns [None] rather than raising. *)
Theorem get_job_result_only_reads {E} (w : World E) job_id :
  redis_client (snd (get_job_result job_id w)) = redis_client w
  /\ (forall v, fst (get_job_result job_id w) = Returns v ->
                snd (get_job_result job_id w) = w)
  /\ (forall r, redis_client w = Some r ->
                strings r !! result_key job_id = None ->
                get_job_result job_id w = (Returns None, w)).
Proof.
  unfold get_job_result, bind, try_except, require_client, redis_call, get.
  destruct (redis_client w) as [r|] eqn:Hc; simpl; rewrite ?Hc; simpl.
  2: { split; [done|]. split; [intros v [=]|intros r [=]]. }
  rewrite (with_client_same _ _ Hc).
  destruct (strings r !! result_key job_id) as [[text ttl]|] eqn:Hk; simpl.
  - assert (Hno : forall r', Some r = Some r' ->
                             strings r' !! result_key job_id <> None)
      by (intros r' [= <-]; by rewrite Hk).
    destruct (wire_truthy text); simpl.
    + unfold lift. destruct (json_loads text) as [v|e]; simpl.
      * split; [done|]. split; [done|]. intros r' Hr' Hn. by destruct (Hno r' Hr').
      * split; [done|]. split; [intros v [=]|].
        intros r' Hr' Hn. by destruct (Hno r' Hr').
    + split; [done|]. split; [done|]. intros r' Hr' Hn. by destruct (Hno r' Hr').
  - by split; [|split].
Qed.

Lemma get_job_result_only_reads_witness :
  redis_client sample_world = Some empty_redis
  /\ strings empty_redis !! result_key (JStr "nonexistent") = None
  /\ get_job_result (JStr "nonexistent") sample_world = (Returns None, sample_world).
Proof.
  split; [reflexivity|]. split; [reflexivity|].
  destruct (get_job_result_only_reads sample_world (JStr "nonexistent"))
    as (_ & _ & Hnone).
  apply (Hnone empty_redis); reflexivity.
Defined.

(** X11.  A successful update rewrites the record in place: [status] is the
    new status, every field other than [status], [result], [errorMessage]
    and [completedAt] - [jobId] and whatever else the record held - keeps
    its value, and the entry's time to live is set back to 24 hours. *)
Theorem update_job_status_rewrites_in_place {E} (w : World E) r
    job_id status result error_message d :
  redis_client w = Some r ->
  stored_record job_id r = Returns (JObj d) ->
  fst (update_job_status job_id status result error_message w) = Returns tt
  /\ observed_field "status" job_id
       (snd (update_job_status job_id status result error_message w))
     = Some (JStr status)
  /\ (forall k,
        k <> "status" -> k <> "result" -> k <> "errorMessage" ->
        k <> "completedAt" ->
        observed_field k job_id
          (snd (update_job_status job_id status result error_message w))
        = dict_get k d)
  /\ exists r',
       redis_client (snd (update_job_status job_id status result error_message w))
       = Some r'
       /\ snd <$> strings r' !! result_key job_id = Some (24 * 3600).
Proof.
  intros Hc Hs.
  rewrite (update_job_status_ok _ _ _ _ _ _ _ Hc Hs). simpl fst. simpl snd.
  split; [done|]. unfold observed_field. rewrite observed_updated.
  split; [apply merged_get_status|]. split.
  - intros k H1 H2 H3 H4. by apply merged_get_frame.
  - eexists. split; [reflexivity|]. simpl. by rewrite lookup_insert_eq.
Qed.

Lemma update_job_status_rewrites_in_place_witness :
  redis_client
    (mkWorld
       (Some (mkRedis ∅
                {[ "job_result:job-6" :=
                   (Json (JObj [("jobId", JStr "job-6"); ("status", JStr "pending");
                                ("submittedBy", JStr "api")]), 60) ]} []))
       true [] sample_clock 0%nat 0 tt)
  = Some (mkRedis ∅
            {[ "job_result:job-6" :=
               (Json (JObj [("jobId", JStr "job-6"); ("status", JStr "pending");
                            ("submittedBy", JStr "api")]), 60) ]} [])
  /\ observed_field "submittedBy" (JStr "job-6")
       (snd (update_job_status (JStr "job-6") "processing" JNull JNull
               (mkWorld
                  (Some (mkRedis ∅
                           {[ "job_result:job-6" :=
                              (Json (JObj [("jobId", JStr "job-6");
                                           ("status", JStr "pending");
                                           ("submittedBy", JStr "api")]), 60) ]} []))
                  true [] sample_clock 0%nat 0 tt)))
     = Some (JStr "api").
Proof.
  split; [reflexivity|].
  destruct (update_job_status_rewrites_in_place
              (mkWorld
                 (Some (mkRedis ∅
                          {[ "job_result:job-6" :=
                             (Json (JObj [("jobId", JStr "job-6");
                                          ("status", JStr "pending");
                                          ("submittedBy", JStr "api")]), 60) ]} []))
                 true [] sample_clock 0%nat 0 tt)
              (mkRedis ∅
                 {[ "job_result:job-6" :=
                    (Json (JObj [("jobId", JStr "job-6"); ("status", JStr "pending");
                                 ("submittedBy", JStr "api")]), 60) ]} [])
              (JStr "job-6") "processing" JNull JNull
              [("jobId", JStr "job-6"); ("status", JStr "pending");
               ("submittedBy", JStr "api")])
    as (_ & _ & Hkeep & _); [reflexivity | vm_compute; reflexivity |].
  apply Hkeep; discriminate.
Defined.

(** X12.  Updates of one job do not reach the others: an update under a
    different key leaves the record a poller sees unchanged, two ids that
    are different strings never share a key, and no update touches a queue
    or publishes anything. *)
Theorem update_job_status_isolated {E} (w : World E)
    job_id other status result error_message :
  (result_key job_id <> result_key other ->
   observed other (snd (update_job_status job_id status result error_message w))
   = observed other w)
  /\ (forall a b : string, a <> b -> result_key (JStr a) <> result_key (JStr b))
  /\ (forall r, redis_client w = Some r ->
        exists r',
          redis_client (snd (update_job_status job_id status result error_message w))
          = Some r'
          /\ lists r' = lists r /\ published r' = published r).
Proof.
  fold (once job_id status result error_message w).
  destruct (update_cases w job_id status result error_message)
    as [r d Hc Hs Ho | Hk Hk'].
  - rewrite Ho. split; [|split].
    + intros Hne. rewrite (observed_connected w r _ Hc).
      erewrite observed_connected by reflexivity. simpl.
      by rewrite lookup_insert_ne.
    + intros a b Hab Heq. by apply Hab, result_key_string_inj.
    + intros r0 Hc0. rewrite Hc in Hc0. injection Hc0 as <-.
      eexists. by split; [reflexivity|].
  - split; [|split].
    + intros _. by apply observed_client.
    + intros a b Hab Heq. by apply Hab, result_key_string_inj.
    + intros r Hc. exists r. by rewrite Hk.
Qed.

Lemma update_job_status_isolated_witness :
  result_key (JStr "job-a") <> result_key (JStr "job-b")
  /\ observed (JStr "job-b")
       (snd (update_job_status (JStr "job-a") "completed"
               (JObj [("processedRows", JInt 950)]) JNull sample_world))
     = observed (JStr "job-b") sample_world.
Proof.
  destruct (update_job_status_isolated sample_world (JStr "job-a") (JStr "job-b")
              "completed" (JObj [("processedRows", JInt 950)]) JNull)
    as (Hother & Hkeys & _).
  assert (Hne : result_key (JStr "job-a") <> result_key (JStr "job-b"))
    by (apply Hkeys; discriminate).
  split; [exact Hne | exact (Hother Hne)].
Defined.

(** X13.  An update of a job whose stored text is not a JSON object writes
    nothing: it raises the decoder's error (text that does not decode) or a
    [TypeError] (text that decodes to something other than an object), logs
    it once, reads no clock and leaves the server exactly as it was. *)
Theorem update_job_status_rejects_unusable_record {E} (w : World E) r
    job_id status result error_message text ttl :
  redis_client w = Some r ->
  strings r !! result_key job_id = Some (text, ttl) ->
  wire_truthy text = true ->
  (forall d, json_loads text <> Returns (JObj d)) ->
  exists e,
    fst (update_job_status job_id status result error_message w) = Raises e
    /\ (forall doc why, text = Malformed doc why -> e = JSONDecodeError why)
    /\ (forall v, text = Json v ->
                  e = TypeError
                        (match v with
                         | JArr _ => "list indices must be integers or slices, not str"
                         | _ => "'" +:+ py_type_name v
                                +:+ "' object does not support item assignment"
                         end))
    /\ redis_client (snd (update_job_status job_id status result error_message w))
       = Some r
    /\ clock_reads (snd (update_job_status job_id status result error_message w))
       = clock_reads w
    /\ log (snd (update_job_status job_id status result error_message w))
       = (log w ++
          [(ERROR, "Error updating job status for " +:+ py_str job_id
                   +:+ ": " +:+ exn_str e)])%list.
Proof.
  intros Hc Hk Ht Hnd.
  destruct (unusable_record job_id status r text ttl Hk Ht Hnd)
    as (e & He & Hmal & Hjson).
  exists e. rewrite (update_job_status_raises _ _ _ _ _ _ _ Hc He).
  simpl fst. simpl snd. split; [done|]. split; [done|]. split; [|done].
  intros v ->. specialize (Hjson v eq_refl).
  destruct v; simpl in Hjson; try (by injection Hjson as <-).
  by destruct (Hnd fields).
Qed.

Lemma update_job_status_rejects_unusable_record_witness :
  redis_client
    (mkWorld
       (Some (mkRedis ∅
                {[ "job_result:job-7" := (Malformed "{status:" "Expecting property name", 60) ]}
                []))
       true [] sample_clock 0%nat 0 tt)
  = Some (mkRedis ∅
            {[ "job_result:job-7" := (Malformed "{status:" "Expecting property name", 60) ]}
            [])
  /\ exists e,
       fst (update_job_status (JStr "job-7") "completed" JNull JNull
              (mkWorld
                 (Some (mkRedis ∅
                          {[ "job_result:job-7" :=
                             (Malformed "{status:" "Expecting property name", 60) ]}
                          []))
                 true [] sample_clock 0%nat 0 tt))
       = Raises e
       /\ e = JSONDecodeError "Expecting property name".
Proof.
  split; [reflexivity|].
  destruct (update_job_status_rejects_unusable_record
              (mkWorld
                 (Some (mkRedis ∅
                          {[ "job_result:job-7" :=
                             (Malformed "{status:" "Expecting property name", 60) ]}
                          []))
                 true [] sample_clock 0%nat 0 tt)
              (mkRedis ∅
                 {[ "job_result:job-7" :=
                    (Malformed "{status:" "Expecting property name", 60) ]} [])
              (JStr "job-7") "completed" JNull JNull
              (Malformed "{status:" "Expecting property name") 60)
    as (e & Hraise & Hmal & _);
    [reflexivity | vm_compute; reflexivity | reflexivity
    | intros d; discriminate |].
  exists e. split; [exact Hraise | exact (Hmal _ _ eq_refl)].
Defined.

(** ** Publishing and consuming *)

Section Batches.

Context {E : Type}.
Implicit Types (w : World E) (r : Redis) (ms : list json).

Lemma unsnoc_None {A} (l : list A) : unsnoc l = None -> l = [].
Proof.
  destruct l as [|x l]; [done|]. simpl. by destruct (unsnoc l) as [[??]|].
Qed.

Lemma default_lists_brpop queue_name t r init v :
  unsnoc (default [] (lists r !! queue_name)) = Some (init, v) ->
  default [] (lists (snd (brpop queue_name t r)) !! queue_name) = init.
Proof.
  intros Hu. destruct (unsnoc_default_inv _ _ _ _ Hu) as (l & Hl & Hul).
  rewrite (lists_brpop _ _ _ _ _ _ Hl Hul). by destruct init.
Qed.

Lemma publish_all_connected queue_name ms w r :
  redis_client w = Some r ->
  exists r',
    fst (publish_all queue_name ms w) = Returns tt
    /\ redis_client (snd (publish_all queue_name ms w)) = Some r'
    /\ default [] (lists r' !! queue_name)
       = (rev (map json_dumps ms) ++ default [] (lists r !! queue_name))%list
    /\ strings r' = strings r.
Proof.
  revert w r. induction ms as [|m ms IH]; intros w r Hc.
  { exists r. by simpl. }
  simpl publish_all. unfold bind.
  rewrite (publish_message_connected _ _ _ _ Hc).
  set (w1 := enqueued queue_name m r w).
  destruct (redis_client w1) as [r1|] eqn:Hc1; [|done].
  destruct (IH w1 r1 Hc1) as (r' & Hret & Hc' & Hl' & Hs').
  exists r'. split; [done|]. split; [done|]. split.
  - rewrite Hl'. injection Hc1 as <-. simpl.
    rewrite lookup_insert_eq. simpl. by rewrite <- app_assoc.
  - rewrite Hs'. by injection Hc1 as <-.
Qed.

Lemma consume_many_all queue_name ms w r :
  redis_client w = Some r ->
  default [] (lists r !! queue_name) = rev (map json_dumps ms) ->
  exists r',
    fst (consume_many (length ms) queue_name w) = Returns ms
    /\ redis_client (snd (consume_many (length ms) queue_name w)) = Some r'
    /\ default [] (lists r' !! queue_name) = []
    /\ strings r' = strings r /\ published r' = published r.
Proof.
  revert w r. induction ms as [|m ms IH]; intros w r Hc Hl.
  { exists r. by simpl. }
  assert (Hu : unsnoc (default [] (lists r !! queue_name))
               = Some (rev (map json_dumps ms), Json m)).
  { rewrite Hl. simpl. apply unsnoc_snoc. }
  destruct (unsnoc_default_inv _ _ _ _ Hu) as (l & Hlk & Hul).
  set (w1 := consumed queue_name r w).
  assert (Heq : consume_many (length (m :: ms)) queue_name w
                = (let (o, w2) := consume_many (length ms) queue_name w1 in
                   match o with
                   | Returns rest => (Returns (m :: rest), w2)
                   | Raises e => (Raises e, w2)
                   end)).
  { simpl. unfold bind.
    by rewrite (consume_message_json _ _ _ _ _ _ Hc Hlk Hul). }
  rewrite Heq. clear Heq.
  assert (Hc1 : redis_client w1 = Some (snd (brpop queue_name 5 r))) by done.
  destruct (IH w1 _ Hc1 (default_lists_brpop _ _ _ _ _ Hu))
    as (r' & Hret & Hc' & Hl' & Hs' & Hp').
  exists r'.
  destruct (consume_many (length ms) queue_name w1) as [[rest|e] w2]; simpl in *;
    [|done].
  injection Hret as ->. split; [done|]. split; [done|]. split; [done|].
  by rewrite Hs', Hp', strings_brpop, published_brpop.
Qed.

End Batches.

(** X14.  Round trip.  A message published to an empty queue is what the
    next [consume_message] on that queue returns, decoded; the queue is
    empty again, no record has changed, and the notification stays
    published. *)
Theorem publish_then_consume {E} (w : World E) r queue_name message timeout :
  redis_client w = Some r ->
  unsnoc (default [] (lists r !! queue_name)) = None ->
  fst (publish_message queue_name message w) = Returns tt
  /\ fst (consume_message queue_name timeout
            (snd (publish_message queue_name message w)))
     = Returns (Some message)
  /\ exists r',
       redis_client
         (snd (consume_message queue_name timeout
                 (snd (publish_message queue_name message w)))) = Some r'
       /\ lists r' !! queue_name = None
       /\ strings r' = strings r
       /\ published r'
          = (published r
             ++ [(queue_name +:+ ":notification", json_dumps message)])%list.
Proof.
  intros Hc Hu.
  rewrite (publish_message_connected _ _ _ _ Hc). simpl fst. simpl snd.
  split; [done|].
  set (w1 := enqueued queue_name message r w).
  destruct (redis_client w1) as [r1|] eqn:Hc1; [|done].
  assert (Hl1 : lists r1 !! queue_name = Some [Json message]).
  { injection Hc1 as <-. simpl. rewrite lookup_insert_eq.
    by rewrite (unsnoc_None _ Hu). }
  change (consume_message queue_name timeout w1)
    with (consume_message queue_name 5 w1).
  rewrite (consume_message_json _ _ _ _ [] _ Hc1 Hl1 eq_refl).
  simpl fst. simpl snd. split; [done|].
  eexists. split; [reflexivity|].
  split; [by rewrite (lists_brpop _ _ _ _ [] _ Hl1 eq_refl)|].
  rewrite strings_brpop, published_brpop. by injection Hc1 as <-.
Qed.

Lemma publish_then_consume_witness :
  redis_client sample_world = Some empty_redis
  /\ unsnoc (default [] (lists empty_redis !! "analytics:statistical_analysis")) = None
  /\ fst (consume_message "analytics:statistical_analysis" 10
            (snd (publish_message "analytics:statistical_analysis"
                    (JObj [("id", JStr "job-1"); ("parameters", JObj [])])
                    sample_world)))
     = Returns (Some (JObj [("id", JStr "job-1"); ("parameters", JObj [])])).
Proof.
  split; [reflexivity|]. split; [reflexivity|].
  apply (publish_then_consume sample_world empty_redis
           "analytics:statistical_analysis"
           (JObj [("id", JStr "job-1"); ("parameters", JObj [])]) 10);
    reflexivity.
Defined.

(** X15.  First in, first out, for any number of messages: after the
    messages [ms] have been published in order to an empty queue, consuming
    [length ms] times returns exactly [ms], in the order of publication,
    and leaves the queue empty. *)
Theorem messages_come_out_in_order {E} (w : World E) r queue_name
    (ms : list json) :
  redis_client w = Some r ->
  unsnoc (default [] (lists r !! queue_name)) = None ->
  fst (publish_all queue_name ms w) = Returns tt
  /\ fst (consume_many (length ms) queue_name (snd (publish_all queue_name ms w)))
     = Returns ms
  /\ exists r',
       redis_client
         (snd (consume_many (length ms) queue_name
                 (snd (publish_all queue_name ms w)))) = Some r'
       /\ default [] (lists r' !! queue_name) = []
       /\ strings r' = strings r.
Proof.
  intros Hc Hu.
  destruct (publish_all_connected queue_name ms w r Hc)
    as (r1 & Hret1 & Hc1 & Hl1 & Hs1).
  rewrite (unsnoc_None _ Hu), app_nil_r in Hl1.
  destruct (consume_many_all queue_name ms _ r1 Hc1 Hl1)
    as (r2 & Hret2 & Hc2 & Hl2 & Hs2 & _).
  split; [done|]. split; [done|].
  exists r2. split; [done|]. split; [done|]. by rewrite Hs2.
Qed.

Lemma messages_come_out_in_order_witness :
  redis_client sample_world = Some empty_redis
  /\ unsnoc (default [] (lists empty_redis !! "analytics:prediction")) = None
  /\ fst (consume_many 3 "analytics:prediction"
            (snd (publish_all "analytics:prediction"
                    [JObj [("id", JStr "job-1")]; JObj [("id", JStr "job-2")];
                     JObj [("id", JStr "job-3")]] sample_world)))
     = Returns [JObj [("id", JStr "job-1")]; JObj [("id", JStr "job-2")];
                JObj [("id", JStr "job-3")]].
Proof.
  split; [reflexivity|]. split; [reflexivity|].
  apply (messages_come_out_in_order sample_world empty_redis "analytics:prediction"
           [JObj [("id", JStr "job-1")]; JObj [("id", JStr "job-2")];
            JObj [("id", JStr "job-3")]]); reflexivity.
Defined.

(** ** The handlers *)

(** X16.  [_process_visualization_job] reads its chart type from the job's
    ["parameters"]: with no parameters, or parameters without
    ["chartType"], the chart type is ["bar"]; with a ["chartType"], it is
    that value, whatever it is.  Parameters that are present but not a dict
    ([null] included) make the handler raise [AttributeError].  It touches
    nothing. *)
Theorem visualization_job_chart_type (fields : dict) (env : Env) :
  snd (JobHandlers._process_visualization_job (JObj fields) env) = env
  /\ (dict_get "parameters" fields = None ->
      fst (JobHandlers._process_visualization_job (JObj fields) env)
      = Returns (JObj [("success", JBool true); ("chartType", JStr "bar");
                       ("chartData", JObj [("data", JArr []); ("layout", JObj [])]);
                       ("message", JStr "Visualization created successfully")]))
  /\ (forall parameters,
        dict_get "parameters" fields = Some (JObj parameters) ->
        fst (JobHandlers._process_visualization_job (JObj fields) env)
        = Returns (JObj [("success", JBool true);
                         ("chartType",
                          default (JStr "bar") (dict_get "chartType" parameters));
                         ("chartData",
                          JObj [("data", JArr []); ("layout", JObj [])]);
                         ("message", JStr "Visualization created successfully")]))
  /\ (forall v,
        dict_get "parameters" fields = Some v ->
        (forall parameters, v <> JObj parameters) ->
        fst (JobHandlers._process_visualization_job (JObj fields) env)
        = Raises (AttributeError ("'" +:+ py_type_name v
                                  +:+ "' object has no attribute 'get'"))).
Proof.
  unfold JobHandlers._process_visualization_job, get_or.
  destruct (dict_get "parameters" fields) as [v|]; simpl.
  - destruct v; simpl; (split; [done|]); (split; [done|]);
      (split; [intros ? [=]; by subst|]); intros ? [= <-] Hnd; try done.
    by destruct (Hnd fields0).
  - split; [done|]. split; [done|]. by split.
Qed.

Lemma visualization_job_chart_type_witness :
  dict_get "parameters" [("id", JStr "job-1"); ("parameters", JNull)] = Some JNull
  /\ fst (JobHandlers._process_visualization_job
            (JObj [("id", JStr "job-1"); ("parameters", JNull)]) sample_env)
     = Raises (AttributeError "'NoneType' object has no attribute 'get'").
Proof.
  split; [reflexivity|].
  destruct (visualization_job_chart_type
              [("id", JStr "job-1"); ("parameters", JNull)] sample_env)
    as (_ & _ & _ & Hraise).
  apply (Hraise JNull); [reflexivity | discriminate].
Defined.

(** X17.  [_process_statistics_job] reads its test type the same way: the
    default is ["t_test"], a ["testType"] among the parameters is taken as
    it is, and parameters that are present but not a dict make the handler
    raise [AttributeError].  It touches nothing. *)
Theorem statistics_job_test_type (fields : dict) (env : Env) :
  snd (JobHandlers._process_statistics_job (JObj fields) env) = env
  /\ (forall parameters,
        default (JObj []) (dict_get "parameters" fields) = JObj parameters ->
        fst (JobHandlers._process_statistics_job (JObj fields) env)
        = Returns (JObj [("success", JBool true);
                         ("testType",
                          default (JStr "t_test") (dict_get "testType" parameters));
                         ("statistic", JFloat "2.5");
                         ("pValue", JFloat "0.02");
                         ("significant", JBool true);
                         ("message",
                          JStr "Statistical analysis completed successfully")]))
  /\ (forall v,
        dict_get "parameters" fields = Some v ->
        (forall parameters, v <> JObj parameters) ->
        fst (JobHandlers._process_statistics_job (JObj fields) env)
        = Raises (AttributeError ("'" +:+ py_type_name v
                                  +:+ "' object has no attribute 'get'"))).
Proof.
  unfold JobHandlers._process_statistics_job, get_or.
  destruct (dict_get "parameters" fields) as [v|]; simpl.
  - destruct v; simpl; (split; [done|]); (split; [intros ? [=]; by subst|]);
      intros ? [= <-] Hnd; try done.
    by destruct (Hnd fields0).
  - split; [done|]. split; [intros ? [= <-]; done|]. done.
Qed.

Lemma statistics_job_test_type_witness :
  default (JObj [])
    (dict_get "parameters"
       [("id", JStr "job-1"); ("parameters", JObj [("testType", JStr "anova")])])
  = JObj [("testType", JStr "anova")]
  /\ fst (JobHandlers._process_statistics_job
            (JObj [("id", JStr "job-1");
                   ("parameters", JObj [("testType", JStr "anova")])]) sample_env)
     = Returns (JObj [("success", JBool true); ("testType", JStr "anova");
                      ("statistic", JFloat "2.5"); ("pValue", JFloat "0.02");
                      ("significant", JBool true);
                      ("message",
                       JStr "Statistical analysis completed successfully")]).
Proof.
  split; [reflexivity|].
  destruct (statistics_job_test_type
              [("id", JStr "job-1");
               ("parameters", JObj [("testType", JStr "anova")])] sample_env)
    as (_ & Hreturn & _).
  apply (Hreturn [("testType", JStr "anova")]). reflexivity.
Defined.

(** X18.  On the consumers of [start], a visualization or statistics job
    whose ["parameters"] is present but not a dict ends [failed], its
    [errorMessage] naming the type that has no [get]; the loop goes on. *)
Theorem job_with_bad_parameters_fails (p : processor) (w : World Env) r
    queue_name l init fields job_id d v :
  p = _process_visualization_job \/ p = _process_statistics_job ->
  redis_client w = Some r ->
  lists r !! queue_name = Some l ->
  unsnoc l = Some (init, Json (JObj fields)) ->
  dict_get "id" fields = Some job_id ->
  truthy job_id = true ->
  stored_record job_id r = Returns (JObj d) ->
  dict_get "parameters" fields = Some v ->
  (forall parameters, v <> JObj parameters) ->
  fst (consume_turn queue_name (processor_func p) w) = Returns tt
  /\ observed_field "status" job_id
       (snd (consume_turn queue_name (processor_func p) w))
     = Some (JStr "failed")
  /\ observed_field "errorMessage" job_id
       (snd (consume_turn queue_name (processor_func p) w))
     = Some (JStr ("'" +:+ py_type_name v +:+ "' object has no attribute 'get'"))
  /\ running (snd (consume_turn queue_name (processor_func p) w)) = running w.
Proof.
  intros Hp Hc Hl Hu Hid Ht Hs Hpar Hnd.
  assert (Hf : processor_func p (JObj fields) (ext w)
               = (Raises (AttributeError ("'" +:+ py_type_name v
                                          +:+ "' object has no attribute 'get'")),
                  ext w)).
  { destruct Hp as [-> | ->]; simpl;
      unfold JobHandlers._process_visualization_job,
        JobHandlers._process_statistics_job, get_or;
      rewrite Hpar; simpl; destruct v; try done; by destruct (Hnd fields0). }
  rewrite (consume_turn_job _ _ _ (processor_func p) _ _ _ _ _ Hc Hl Hu Hid Ht Hs).
  simpl fst. simpl snd. split; [done|].
  pose proof (processed_record w r queue_name (processor_func p) (JObj fields)
                job_id d Hc Hs) as Hobs.
  rewrite Hf in Hobs. simpl fst in Hobs.
  unfold observed_field. rewrite Hobs.
  split; [apply merged_get_status|]. split.
  - apply merged_get_error. simpl. by destruct v.
  - by apply (processed_running _ _ _ _ _ _ d).
Qed.

Lemma job_with_bad_parameters_fails_witness :
  redis_client
    (env_world "analytics:visualization"
       [Json (JObj [("id", JStr "job-1"); ("parameters", JNull)])])
  = Some (mkRedis {[ "analytics:visualization" :=
                     [Json (JObj [("id", JStr "job-1"); ("parameters", JNull)])] ]}
                  ∅ [])
  /\ observed_field "errorMessage" (JStr "job-1")
       (snd (consume_turn "analytics:visualization"
               (processor_func _process_visualization_job)
               (env_world "analytics:visualization"
                  [Json (JObj [("id", JStr "job-1"); ("parameters", JNull)])])))
     = Some (JStr "'NoneType' object has no attribute 'get'").
Proof.
  split; [reflexivity|].
  destruct (job_with_bad_parameters_fails _process_visualization_job
              (env_world "analytics:visualization"
                 [Json (JObj [("id", JStr "job-1"); ("parameters", JNull)])])
              (mkRedis {[ "analytics:visualization" :=
                          [Json (JObj [("id", JStr "job-1");
                                       ("parameters", JNull)])] ]} ∅ [])
              "analytics:visualization"
              [Json (JObj [("id", JStr "job-1"); ("parameters", JNull)])] []
              [("id", JStr "job-1"); ("parameters", JNull)] (JStr "job-1")
              [("jobId", JStr "job-1"); ("status", JStr "pending")] JNull)
    as (_ & _ & Herror & _);
    [left; reflexivity | reflexivity | vm_compute; reflexivity | reflexivity
    | reflexivity | reflexivity | reflexivity | reflexivity | discriminate |].
  exact Herror.
Defined.

(** X19.  The data-processing and prediction handlers do not look at the
    job: on their consumers every job with an id and an updatable record
    ends [completed] with that handler's fixed result, whatever dataset or
    parameters the message names, and the handlers' surroundings are
    untouched. *)
Theorem mock_handlers_always_complete (p : processor) (w : World Env) r
    queue_name l init fields job_id d :
  p = _process_data_job \/ p = _process_prediction_job ->
  redis_client w = Some r ->
  lists r !! queue_name = Some l ->
  unsnoc l = Some (init, Json (JObj fields)) ->
  dict_get "id" fields = Some job_id ->
  truthy job_id = true ->
  stored_record job_id r = Returns (JObj d) ->
  observed_field "status" job_id
    (snd (consume_turn queue_name (processor_func p) w))
  = Some (JStr "completed")
  /\ observed_field "result" job_id
       (snd (consume_turn queue_name (processor_func p) w))
     = Some (match p with
             | _process_data_job =>
                 JObj [("success", JBool true); ("originalRows", JInt 1000);
                       ("processedRows", JInt 950); ("originalColumns", JInt 10);
                       ("processedColumns", JInt 12);
                       ("message", JStr "Data processed successfully")]
             | _ =>
                 JObj [("success", JBool true);
                       ("predictions",
                        JArr [JFloat "0.8"; JFloat "0.2"; JFloat "0.9"]);
                       ("message", JStr "Predictions generated successfully")]
             end)
  /\ ext (snd (consume_turn queue_name (processor_func p) w)) = ext w.
Proof.
  intros Hp Hc Hl Hu Hid Ht Hs.
  rewrite (consume_turn_job _ _ _ (processor_func p) _ _ _ _ _ Hc Hl Hu Hid Ht Hs).
  simpl snd.
  pose proof (processed_record w r queue_name (processor_func p) (JObj fields)
                job_id d Hc Hs) as Hobs.
  destruct (processed_facts w r queue_name (processor_func p) (JObj fields)
              job_id d Hc Hs) as (r' & _ & _ & _ & Hext & _).
  unfold observed_field. rewrite Hobs, Hext.
  destruct Hp as [-> | ->]; simpl;
    (split; [apply merged_get_status|]); (split; [|done]);
    by apply merged_get_result.
Qed.

Lemma mock_handlers_always_complete_witness :
  redis_client
    (env_world "analytics:data_processing"
       [Json (JObj [("id", JStr "job-1"); ("datasetId", JStr "no-such-dataset");
                    ("parameters", JNull)])])
  = Some (mkRedis {[ "analytics:data_processing" :=
                     [Json (JObj [("id", JStr "job-1");
                                  ("datasetId", JStr "no-such-dataset");
                                  ("parameters", JNull)])] ]} ∅ [])
  /\ observed_field "status" (JStr "job-1")
       (snd (consume_turn "analytics:data_processing"
               (processor_func _process_data_job)
               (env_world "analytics:data_processing"
                  [Json (JObj [("id", JStr "job-1");
                               ("datasetId", JStr "no-such-dataset");
                               ("parameters", JNull)])])))
     = Some (JStr "completed").
Proof.
  split; [reflexivity|].
  destruct (mock_handlers_always_complete _process_data_job
              (env_world "analytics:data_processing"
                 [Json (JObj [("id", JStr "job-1");
                              ("datasetId", JStr "no-such-dataset");
                              ("parameters", JNull)])])
              (mkRedis {[ "analytics:data_processing" :=
                          [Json (JObj [("id", JStr "job-1");
                                       ("datasetId", JStr "no-such-dataset");
                                       ("parameters", JNull)])] ]} ∅ [])
              "analytics:data_processing"
              [Json (JObj [("id", JStr "job-1");
                           ("datasetId", JStr "no-such-dataset");
                           ("parameters", JNull)])] []
              [("id", JStr "job-1"); ("datasetId", JStr "no-such-dataset");
               ("parameters", JNull)] (JStr "job-1")
              [("jobId", JStr "job-1"); ("status", JStr "pending")])
    as (Hstatus & _);
    [left; reflexivity | reflexivity | vm_compute; reflexivity | reflexivity
    | reflexivity | reflexivity | reflexivity |].
  exact Hstatus.
Defined.

(** X20.  [_process_ml_training_job] names the model after the clock, to
    the second: if creating the [models] directory raises, the handler
    raises that error and reads no clock; otherwise the model id is
    ["model_<seconds>"], and two jobs handled one after the other get the
    same model id exactly when their two clock readings fall in the same
    second. *)
Theorem ml_training_job_model_id (fields fields' : dict) (env : Env) :
  (forall e, models_mkdir env = Some e ->
             JobHandlers._process_ml_training_job (JObj fields) env
             = (Raises e, env))
  /\ (models_mkdir env = None ->
      fst (JobHandlers._process_ml_training_job (JObj fields) env)
      = Returns (JObj [("success", JBool true);
                       ("modelId",
                        JStr ("model_" +:+ pretty (epoch env (epoch_reads env))));
                       ("accuracy", JFloat "0.85");
                       ("message", JStr "Model trained successfully")])
      /\ (fst (JobHandlers._process_ml_training_job (JObj fields')
                 (snd (JobHandlers._process_ml_training_job (JObj fields) env)))
          = fst (JobHandlers._process_ml_training_job (JObj fields) env)
          <-> epoch env (S (epoch_reads env)) = epoch env (epoch_reads env))).
Proof.
  unfold JobHandlers._process_ml_training_job, get_or. split.
  - by intros e ->.
  - intros ->. simpl. split; [done|]. split.
    + intros [= H].
      change (pretty (epoch env (S (epoch_reads env)))
              = pretty (epoch env (epoch_reads env))) in H.
      by apply (inj pretty) in H.
    + by intros ->.
Qed.

Lemma ml_training_job_model_id_witness :
  models_mkdir same_second_env = None
  /\ epoch same_second_env (S (epoch_reads same_second_env))
     = epoch same_second_env (epoch_reads same_second_env)
  /\ fst (JobHandlers._process_ml_training_job (JObj [("id", JStr "job-2")])
            (snd (JobHandlers._process_ml_training_job (JObj [("id", JStr "job-1")])
                    same_second_env)))
     = fst (JobHandlers._process_ml_training_job (JObj [("id", JStr "job-1")])
              same_second_env).
Proof.
  split; [reflexivity|]. split; [reflexivity|].
  destruct (ml_training_job_model_id [("id", JStr "job-1")] [("id", JStr "job-2")]
              same_second_env) as (_ & Hmodel).
  destruct (Hmodel eq_refl) as (_ & Hsame).
  apply Hsame. reflexivity.
Defined.

(** ** The routes *)

Section RouteLemmas.

Context {E R : Type}.
Variable JobStatusResponse : json -> json -> json -> json -> json -> outcome R.
Implicit Types (w : World E) (r : Redis).

Lemma get_job_result_server w job_id :
  redis_client (snd (get_job_result job_id w)) = redis_client w.
Proof.
  unfold get_job_result, bind, try_except, require_client, redis_call, get.
  destruct (redis_client w) as [r|] eqn:Hc; simpl; rewrite ?Hc; simpl; [|done].
  destruct (strings r !! result_key job_id) as [[text ttl]|]; simpl; [|done].
  destruct (wire_truthy text); simpl; [|done].
  unfold lift. by destruct (json_loads text).
Qed.

Lemma get_job_result_returns w job_id v :
  fst (get_job_result job_id w) = Returns v -> snd (get_job_result job_id w) = w.
Proof.
  unfold get_job_result, bind, try_except, require_client, redis_call, get.
  destruct (redis_client w) as [r|] eqn:Hc; simpl; rewrite ?Hc; simpl; [|done].
  rewrite (with_client_same _ _ Hc).
  destruct (strings r !! result_key job_id) as [[text ttl]|]; simpl; [|done].
  destruct (wire_truthy text); simpl; [|done].
  unfold lift. by destruct (json_loads text).
Qed.

(** What [get_job_status] does with each answer of [get_job_result]. *)
Lemma get_job_status_cases job_id w :
  JobRoutes.get_job_status JobStatusResponse job_id w
  = match get_job_result (JStr job_id) w with
    | (Returns None, w') =>
        (HTTPException 404 ("Job " +:+ job_id +:+ " not found"), w')
    | (Returns (Some v), w') =>
        if truthy v then
          match v with
          | JObj d =>
              match JobStatusResponse
                      (default (JStr job_id) (dict_get "jobId" d))
                      (default (JStr "unknown") (dict_get "status" d))
                      (default JNull (dict_get "result" d))
                      (default JNull (dict_get "errorMessage" d))
                      (default JNull (dict_get "completedAt" d)) with
              | Returns response => (Responds response, w')
              | Raises e =>
                  (HTTPException 500 "Internal server error",
                   logged ERROR ("Error getting job status for " +:+ job_id
                                 +:+ ": " +:+ exn_str e) w')
              end
          | _ =>
              (HTTPException 500 "Internal server error",
               logged ERROR ("Error getting job status for " +:+ job_id
                             +:+ ": '" +:+ py_type_name v
                             +:+ "' object has no attribute 'get'") w')
          end
        else (HTTPException 404 ("Job " +:+ job_id +:+ " not found"), w')
    | (Raises e, w') =>
        (HTTPException 500 "Internal server error",
         logged ERROR ("Error getting job status for " +:+ job_id
                       +:+ ": " +:+ exn_str e) w')
    end.
Proof.
  unfold JobRoutes.get_job_status, JobRoutes.guarded. unfold bind at 1.
  destruct (get_job_result (JStr job_id) w) as [[result|e] w']; [|done].
  destruct result as [v|]; [|done].
  destruct v as [|b|n|x|s|items|fields].
  - done.
  - by destruct b.
  - simpl. by destruct (n =? 0).
  - simpl. by destruct (String.eqb x "0.0" || String.eqb x "-0.0").
  - simpl. by destruct (String.eqb s "").
  - by destruct items.
  - destruct fields as [|kv fields]; [done|].
    change (truthy (JObj (kv :: fields))) with true.
    cbv beta iota. unfold bind, lift, ret, get_or.
    change (default JNull (Some (JObj (kv :: fields)))) with (JObj (kv :: fields)).
    cbv beta iota.
    by destruct (JobStatusResponse _ _ _ _ _).
Qed.

Lemma get_job_status_client job_id w :
  redis_client (snd (JobRoutes.get_job_status JobStatusResponse job_id w))
  = redis_client w.
Proof.
  rewrite get_job_status_cases.
  pose proof (get_job_result_server w (JStr job_id)) as Hs.
  destruct (get_job_result (JStr job_id) w) as [[[v|]|e] w']; simpl in *; try done.
  destruct (truthy v); [|done].
  destruct v; try done.
  by destruct (JobStatusResponse _ _ _ _ _).
Qed.

Lemma get_job_result_observed job_id w v :
  observed job_id w = Returns v -> get_job_result job_id w = (Returns v, w).
Proof.
  unfold observed. intros H.
  rewrite (surjective_pairing (get_job_result job_id w)), H.
  by rewrite (get_job_result_returns _ _ _ H).
Qed.

Lemma truthy_merged status result error_message now d :
  truthy (JObj (merged status result error_message now d)) = true.
Proof.
  pose proof (merged_get_status status result error_message now d) as H.
  by destruct (merged status result error_message now d).
Qed.

Lemma update_route_stores job_id status result error_message w r d :
  redis_client w = Some r ->
  stored_record (JStr job_id) r = Returns (JObj d) ->
  JobRoutes.update_job_status job_id status result error_message w
  = (Responds
       (JObj [("success", JBool true);
              ("message",
               JStr ("Job " +:+ job_id +:+ " status updated to " +:+ status))]),
     updated (JStr job_id) status result error_message d r w).
Proof.
  intros Hc Hs. unfold JobRoutes.update_job_status, JobRoutes.guarded, bind.
  by rewrite (update_job_status_ok _ _ _ _ _ _ _ Hc Hs).
Qed.

(** X21.  Asking the status route for a job the store does not know, or
    whose stored record is an empty (falsy) JSON value, is answered with
    404 and the detail [Job <id> not found]; nothing is logged or changed,
    whatever the response model accepts. *)
Theorem unknown_job_answers_not_found job_id w r :
  redis_client w = Some r ->
  strings r !! result_key (JStr job_id) = None
  \/ (exists v ttl,
        strings r !! result_key (JStr job_id) = Some (Json v, ttl)
        /\ truthy v = false) ->
  JobRoutes.get_job_status JobStatusResponse job_id w
  = (HTTPException 404 ("Job " +:+ job_id +:+ " not found"), w).
Proof.
  intros Hc Hk. rewrite get_job_status_cases.
  pose proof (observed_connected w r (JStr job_id) Hc) as Ho.
  destruct Hk as [Hk|(v & ttl & Hk & Hv)]; rewrite Hk in Ho; simpl in Ho.
  - by rewrite (get_job_result_observed _ _ _ Ho).
  - by rewrite (get_job_result_observed _ _ _ Ho), Hv.
Qed.

(** X22.  The status route answers in one of three ways only: the
    validated response, 404 with [Job <id> not found], or 500 with the fixed
    detail [Internal server error].  It never changes the server state; the
    first two answers leave the whole world as it was, and on 500 the cause
    goes to the log, as the last ERROR line, not to the client. *)
Theorem get_job_status_answers job_id w :
  redis_client (snd (JobRoutes.get_job_status JobStatusResponse job_id w))
  = redis_client w
  /\ ((exists response,
         JobRoutes.get_job_status JobStatusResponse job_id w
         = (Responds response, w))
      \/ JobRoutes.get_job_status JobStatusResponse job_id w
         = (HTTPException 404 ("Job " +:+ job_id +:+ " not found"), w)
      \/ (fst (JobRoutes.get_job_status JobStatusResponse job_id w)
          = HTTPException 500 "Internal server error"
          /\ exists why,
               last (log (snd (JobRoutes.get_job_status JobStatusResponse
                                 job_id w)))
               = Some (ERROR, "Error getting job status for " +:+ job_id
                              +:+ ": " +:+ why))).
Proof.
  split; [apply get_job_status_client|].
  rewrite get_job_status_cases.
  pose proof (get_job_result_returns w (JStr job_id)) as Hw.
  destruct (get_job_result (JStr job_id) w) as [[[v|]|e] w']; simpl in *.
  - rewrite (Hw _ eq_refl).
    destruct (truthy v); [|by right; left].
    destruct v;
      try (right; right; split; [done|]; eexists; simpl;
           rewrite last_snoc; reflexivity).
    destruct (JobStatusResponse _ _ _ _ _) as [response|e].
    + left. by exists response.
    + right; right. split; [done|]. exists (exn_str e). simpl.
      by rewrite last_snoc.
  - rewrite (Hw _ eq_refl). by right; left.
  - right; right. split; [done|]. exists (exn_str e). simpl.
    by rewrite last_snoc.
Qed.

(** X23.  Round trip through the two routes: after the update route has
    stored a status for a job whose record is a dict, the status route
    builds its response from the id the record carries (the asked id if it
    carries none), the status just written, the result and error message
    just written if truthy (else those the record had), and the time of the
    update if the status is terminal (else the [completedAt] the record
    had); a response the model refuses becomes 500. *)
Theorem status_route_after_update_route
    job_id status result error_message w r d :
  redis_client w = Some r ->
  stored_record (JStr job_id) r = Returns (JObj d) ->
  JobRoutes.get_job_status JobStatusResponse job_id
    (snd (JobRoutes.update_job_status job_id status result error_message w))
  = match JobStatusResponse
            (default (JStr job_id) (dict_get "jobId" d))
            (JStr status)
            (if truthy result then result
             else default JNull (dict_get "result" d))
            (if truthy error_message then error_message
             else default JNull (dict_get "errorMessage" d))
            (if is_terminal status then JStr (utcnow w (clock_reads w))
             else default JNull (dict_get "completedAt" d)) with
    | Returns response =>
        (Responds response,
         updated (JStr job_id) status result error_message d r w)
    | Raises e =>
        (HTTPException 500 "Internal server error",
         logged ERROR ("Error getting job status for " +:+ job_id
                       +:+ ": " +:+ exn_str e)
           (updated (JStr job_id) status result error_message d r w))
    end.
Proof.
  intros Hc Hs. rewrite (update_route_stores _ _ _ _ _ _ _ Hc Hs). simpl.
  rewrite get_job_status_cases.
  rewrite (get_job_result_observed _ _ _ (observed_updated _ _ _ _ _ _ _)).
  rewrite truthy_merged.
  rewrite merged_get_status, merged_get_completed_at.
  rewrite (merged_get_frame "jobId") by done.
  assert (Hres :
    default JNull (dict_get "result"
      (merged status result error_message (utcnow w (clock_reads w)) d))
    = if truthy result then result else default JNull (dict_get "result" d)).
  { destruct (truthy result) eqn:Hr.
    - by rewrite merged_get_result.
    - by rewrite merged_get_result_falsy. }
  assert (Herr :
    default JNull (dict_get "errorMessage"
      (merged status result error_message (utcnow w (clock_reads w)) d))
    = if truthy error_message then error_message
      else default JNull (dict_get "errorMessage" d)).
  { destruct (truthy error_message) eqn:He.
    - by rewrite merged_get_error.
    - by rewrite merged_get_error_falsy. }
  rewrite Hres, Herr.
  by destruct (is_terminal status).
Qed.

(** X24.  The update route is all or nothing: either it answers
    [{success: true, message: Job <id> status updated to <status>}] and a
    poll then reads that status, or it answers 500 with the fixed detail
    [Internal server error], the server state is exactly as before, and the
    cause is the last ERROR line of the log. *)
Theorem update_route_all_or_nothing job_id status result error_message w :
  (fst (JobRoutes.update_job_status job_id status result error_message w)
   = Responds
       (JObj [("success", JBool true);
              ("message",
               JStr ("Job " +:+ job_id +:+ " status updated to " +:+ status))])
   /\ observed_field "status" (JStr job_id)
        (snd (JobRoutes.update_job_status job_id status result error_message w))
      = Some (JStr status))
  \/ (fst (JobRoutes.update_job_status job_id status result error_message w)
      = HTTPException 500 "Internal server error"
      /\ redis_client
           (snd (JobRoutes.update_job_status job_id status result
                   error_message w))
         = redis_client w
      /\ exists why,
           last (log (snd (JobRoutes.update_job_status job_id status result
                             error_message w)))
           = Some (ERROR, "Error updating job status for " +:+ job_id
                          +:+ ": " +:+ why)).
Proof.
  destruct (redis_client w) as [r|] eqn:Hc.
  - destruct (stored_record_cases (JStr job_id) status r) as [[d Hs]|[e He]].
    + left. rewrite (update_route_stores _ _ _ _ _ _ _ Hc Hs). simpl.
      split; [done|]. unfold observed_field.
      by rewrite observed_updated, merged_get_status.
    + right. unfold JobRoutes.update_job_status, JobRoutes.guarded, bind.
      rewrite (update_job_status_raises _ _ _ _ _ _ _ Hc He). simpl.
      split; [done|]. split; [done|]. exists (exn_str e).
      by rewrite last_snoc.
  - right. unfold JobRoutes.update_job_status, JobRoutes.guarded, bind.
    rewrite (update_job_status_disconnected _ _ _ _ _ Hc). simpl.
    split; [done|]. split; [done|]. exists "Redis client not connected".
    by rewrite last_snoc.
Qed.

(** X25.  End to end.  A job published with a non-empty string id to an
    empty queue is, after one turn of that queue's consumer, reported by the
    status route as [completed] with the handler's result (if truthy) when
    the handler returned, and as [failed] with the stringified error (if
    non-empty) when it raised; [completed_at] is the time of that turn's
    terminal update.  A response the model refuses becomes 500. *)
Theorem published_job_is_reported job_id fields w r queue_name
    (f : handler) d :
  redis_client w = Some r ->
  unsnoc (default [] (lists r !! queue_name)) = None ->
  dict_get "id" fields = Some (JStr job_id) ->
  truthy (JStr job_id) = true ->
  stored_record (JStr job_id) r = Returns (JObj d) ->
  fst (JobRoutes.get_job_status JobStatusResponse job_id
         (snd (consume_turn queue_name f
                 (snd (publish_message queue_name (JObj fields) w)))))
  = match
      match fst (f (JObj fields) (ext w)) with
      | Returns result =>
          JobStatusResponse
            (default (JStr job_id) (dict_get "jobId" d))
            (JStr "completed")
            (if truthy result then result
             else default JNull (dict_get "result" d))
            (default JNull (dict_get "errorMessage" d))
            (JStr (utcnow w (clock_reads w)))
      | Raises e =>
          JobStatusResponse
            (default (JStr job_id) (dict_get "jobId" d))
            (JStr "failed")
            (default JNull (dict_get "result" d))
            (if truthy (JStr (exn_str e)) then JStr (exn_str e)
             else default JNull (dict_get "errorMessage" d))
            (JStr (utcnow w (clock_reads w)))
      end
    with
    | Returns response => Responds response
    | Raises _ => HTTPException 500 "Internal server error"
    end.
Proof.
  intros Hc Hu Hid Ht Hs.
  rewrite (publish_message_connected _ _ _ _ Hc). simpl snd.
  set (w1 := enqueued queue_name (JObj fields) r w).
  destruct (redis_client w1) as [r1|] eqn:Hc1; [|done].
  assert (Hl1 : lists r1 !! queue_name = Some [Json (JObj fields)]).
  { injection Hc1 as <-. simpl. rewrite lookup_insert_eq.
    by rewrite (unsnoc_None _ Hu). }
  assert (Hs1 : stored_record (JStr job_id) r1 = Returns (JObj d)).
  { rewrite <- Hs. apply stored_record_same_strings. by injection Hc1 as <-. }
  rewrite (consume_turn_job w1 r1 queue_name f _ [] fields _ d
             Hc1 Hl1 eq_refl Hid Ht Hs1).
  simpl snd. rewrite get_job_status_cases.
  pose proof (processed_record w1 r1 queue_name f (JObj fields) (JStr job_id) d
                Hc1 Hs1) as Hobs.
  rewrite (get_job_result_observed _ _ _ Hobs).
  change (ext w1) with (ext w). change (utcnow w1) with (utcnow w).
  change (clock_reads w1) with (clock_reads w).
  destruct (f (JObj fields) (ext w)) as [[result|e] e']; cbn [fst];
    rewrite truthy_merged, merged_get_status, merged_get_completed_at;
    rewrite !(merged_get_frame "jobId") by done; simpl is_terminal; cbv iota.
  - rewrite !merged_get_error_falsy by done.
    assert (Hres :
      default JNull (dict_get "result"
        (merged "completed" result JNull (utcnow w (clock_reads w))
           (merged "processing" JNull JNull (utcnow w (clock_reads w)) d)))
      = if truthy result then result else default JNull (dict_get "result" d)).
    { destruct (truthy result) eqn:Hr.
      - by rewrite merged_get_result.
      - by rewrite !merged_get_result_falsy. }
    rewrite Hres. by destruct (JobStatusResponse _ _ _ _ _).
  - rewrite !merged_get_result_falsy by done.
    assert (Herr :
      default JNull (dict_get "errorMessage"
        (merged "failed" JNull (JStr (exn_str e)) (utcnow w (clock_reads w))
           (merged "processing" JNull JNull (utcnow w (clock_reads w)) d)))
      = if truthy (JStr (exn_str e)) then JStr (exn_str e)
        else default JNull (dict_get "errorMessage" d)).
    { destruct (truthy (JStr (exn_str e))) eqn:He.
      - by rewrite merged_get_error.
      - by rewrite !merged_get_error_falsy. }
    rewrite Herr. by destruct (JobStatusResponse _ _ _ _ _).
Qed.

End RouteLemmas.

Lemma unknown_job_answers_not_found_witness :
  redis_client (record_world "job-1" (JObj []))
  = Some (mkRedis ∅ {[ "job_result:job-1" := (Json (JObj []), hours_24) ]} [])
  /\ JobRoutes.get_job_status lenient "job-1" (record_world "job-1" (JObj []))
     = (HTTPException 404 "Job job-1 not found",
        record_world "job-1" (JObj [])).
Proof.
  split; [reflexivity|].
  apply (unknown_job_answers_not_found lenient "job-1"
           (record_world "job-1" (JObj []))
           (mkRedis ∅ {[ "job_result:job-1" := (Json (JObj []), hours_24) ]} []));
    [reflexivity|].
  right. exists (JObj []), hours_24. split; reflexivity.
Defined.

Lemma status_route_after_update_route_witness :
  JobRoutes.get_job_status lenient "job-1"
    (snd (JobRoutes.update_job_status "job-1" "completed"
            (JObj [("rows", JInt 950)]) JNull sample_world))
  = (Responds
       (JObj [("job_id", JStr "job-1"); ("status", JStr "completed");
              ("result", JObj [("rows", JInt 950)]);
              ("error_message", JNull);
              ("completed_at", JStr "2024-01-16T10:00:00")]),
     updated (JStr "job-1") "completed" (JObj [("rows", JInt 950)]) JNull
       [("jobId", JStr "job-1"); ("status", JStr "pending")]
       empty_redis sample_world).
Proof.
  apply (status_route_after_update_route lenient "job-1" "completed"
           (JObj [("rows", JInt 950)]) JNull sample_world empty_redis
           [("jobId", JStr "job-1"); ("status", JStr "pending")]);
    reflexivity.
Defined.

Lemma published_job_is_reported_witness :
  fst (JobRoutes.get_job_status lenient "job-1"
         (snd (consume_turn "analytics:visualization"
                 (processor_func _process_visualization_job)
                 (snd (publish_message "analytics:visualization"
                         (JObj [("id", JStr "job-1");
                                ("parameters",
                                 JObj [("chartType", JStr "line")])])
                         (env_world "analytics:visualization" []))))))
  = Responds
      (JObj [("job_id", JStr "job-1"); ("status", JStr "completed");
             ("result",
              JObj [("success", JBool true); ("chartType", JStr "line");
                    ("chartData", JObj [("data", JArr []); ("layout", JObj [])]);
                    ("message", JStr "Visualization created successfully")]);
             ("error_message", JNull);
             ("completed_at", JStr "2024-01-16T10:00:00")]).
Proof.
  apply (published_job_is_reported lenient "job-1"
           [("id", JStr "job-1");
            ("parameters", JObj [("chartType", JStr "line")])]
           (env_world "analytics:visualization" [])
           (mkRedis {[ "analytics:visualization" := [] ]} ∅ [])
           "analytics:visualization"
           (processor_func _process_visualization_job)
           [("jobId", JStr "job-1"); ("status", JStr "pending")]);
    [reflexivity | vm_compute; reflexivity | reflexivity | reflexivity
    | reflexivity].
Defined.
